(** * Enrollex: registration workflow, verification console and queue dashboard

    A shallow embedding of the client-side logic of the Enrollex admission
    application:

    - [Register]        : [src/register.js] (step validation, step navigation,
                          address mirroring, OTP verification, file staging,
                          final submission);
    - [DepartmentAdmin] : the department verification console
                          ([loadStudentsForVerification], [saveVerification]);
    - [QueueDashboard]  : the queue dashboard ([groupedStudents] and the
                          per-department cards).

    React state is modelled by explicit state passing: every handler is a
    function from the component state (and from what the environment answers:
    HTTP responses, file reads, the clock) to the next component state.  The
    HTTP requests a handler issues are appended to a log kept in the state.

    Strings are sequences of code units; this development covers code units
    in the range 0..255 (one [ascii] per code unit). *)

From Stdlib Require Import ZArith QArith Ascii.
From stdpp Require Import gmap strings list sorting pretty.

Close Scope Q_scope.
Open Scope Z_scope.

(** ** The JavaScript values the components handle *)

Module JS.

(** [WhiteSpace] and [LineTerminator] code units below 256: TAB, LF, VT, FF,
    CR, SP and NBSP.  These are the code units [String.prototype.trim] strips
    and the regular-expression class [\s] matches. *)
Definition isWhiteSpace (c : ascii) : bool :=
  let n := nat_of_ascii c in
  ((9 <=? n)%nat && (n <=? 13)%nat) || (n =? 32)%nat || (n =? 160)%nat.

Fixpoint trimStart (s : string) : string :=
  match s with
  | EmptyString => EmptyString
  | String c rest => if isWhiteSpace c then trimStart rest else s
  end.

Definition trimEnd (s : string) : string :=
  String.rev (trimStart (String.rev s)).

(** [s.trim()] *)
Definition trim (s : string) : string := trimEnd (trimStart s).

(** [a.join(sep)] on an array of strings. *)
Fixpoint join (sep : string) (parts : list string) : string :=
  match parts with
  | [] => ""
  | [p] => p
  | p :: rest => p +:+ sep +:+ join sep rest
  end.

(** Numbers: IEEE doubles are compared through the rational they denote;
    the two zeros are not told apart. *)
Inductive JsNumber :=
  | NaN
  | NegInfinity
  | Finite (q : Q)
  | PosInfinity.

Definition Qltb (x y : Q) : bool :=
  (Qnum x * Zpos (Qden y) <? Qnum y * Zpos (Qden x)).

Definition ofZ (z : Z) : JsNumber := Finite (inject_Z z).

(** [a < b] on numbers; [a > b] is [numLt b a]. *)
Definition numLt (a b : JsNumber) : bool :=
  match a, b with
  | NaN, _ | _, NaN => false
  | NegInfinity, NegInfinity => false
  | NegInfinity, _ => true
  | Finite _, NegInfinity => false
  | Finite x, Finite y => Qltb x y
  | Finite _, PosInfinity => true
  | PosInfinity, _ => false
  end.

(** [ToBoolean] on a number. *)
Definition numTruthy (a : JsNumber) : bool :=
  match a with
  | NaN => false
  | Finite q => negb (Qnum q =? 0)
  | NegInfinity | PosInfinity => true
  end.

(** A value decoded from a JSON response.  [JObject] stands for a plain
    object; the code below only tests such a value for truthiness or converts
    it to a primitive, so it carries no content. *)
Inductive JsVal :=
  | JUndefined
  | JNull
  | JBool (b : bool)
  | JNum (n : JsNumber)
  | JStr (s : string)
  | JObject.

(** [ToBoolean] *)
Definition truthy (v : JsVal) : bool :=
  match v with
  | JUndefined | JNull => false
  | JBool b => b
  | JNum n => numTruthy n
  | JStr s => negb (String.eqb s "")
  | JObject => true
  end.

(** [v === 'literal'] *)
Definition strictEqStr (v : JsVal) (lit : string) : bool :=
  match v with
  | JStr s => String.eqb s lit
  | _ => false
  end.

(** [v === true] *)
Definition strictEqTrue (v : JsVal) : bool :=
  match v with
  | JBool true => true
  | _ => false
  end.

(** [a || b] *)
Definition orDefault (a b : JsVal) : JsVal := if truthy a then a else b.

(** What the JavaScript runtime provides and the repository does not define:
    the string-to-number conversion used by the relational operators,
    [parseFloat], the printing of a number in a template literal, and the
    time value of [new Date(v)] ([None] for an invalid date). *)
Class Runtime := {
  StringToNumber : string → JsNumber;
  parseFloat : string → JsNumber;
  NumberToString : JsNumber → string;
  dateValue : JsVal → option Z
}.

(** [ToNumber] *)
Definition toNumber `{Runtime} (v : JsVal) : JsNumber :=
  match v with
  | JUndefined => NaN
  | JNull => ofZ 0
  | JBool b => ofZ (if b then 1 else 0)
  | JNum n => n
  | JStr s => StringToNumber s
  | JObject => StringToNumber "[object Object]"
  end.

(** [ToString] *)
Definition toStr `{Runtime} (v : JsVal) : string :=
  match v with
  | JUndefined => "undefined"
  | JNull => "null"
  | JBool b => if b then "true" else "false"
  | JNum n => NumberToString n
  | JStr s => s
  | JObject => "[object Object]"
  end.

(** What [await fetch(...)] followed by [await response.json()] gives a
    handler that reads the [success] and [error] members of the body:
    [Threw] when the fetch is rejected or the body is not a JSON object (the
    handler's [catch] branch), otherwise [response.ok] and the two members. *)
Inductive FetchOutcome :=
  | Threw
  | Responded (ok : bool) (dataSuccess : JsVal) (dataError : JsVal).

(** [response.ok && data.success] of an answer. *)
Definition succeeded (outcome : FetchOutcome) : bool :=
  match outcome with
  | Responded ok dataSuccess _ => ok && truthy dataSuccess
  | Threw => false
  end.

(** State updates are composed left to right: [st |> f |> g] is [g (f st)]. *)
Notation "st |> f" := (f st) (at level 62, left associativity, only parsing).

End JS.

Import JS.

(** ** Regular expressions over character classes

    The one regular expression of the repository, [emailRegex], uses classes,
    concatenation and [+] only; it is matched here by derivatives, anchored
    at both ends as [^...$] is. *)

Module Regex.

Inductive t :=
  | Fail
  | Eps
  | Class (p : ascii → bool)
  | Cat (r1 r2 : t)
  | Alt (r1 r2 : t)
  | Star (r : t).

Definition Plus (r : t) : t := Cat r (Star r).

Fixpoint nullable (r : t) : bool :=
  match r with
  | Fail | Class _ => false
  | Eps | Star _ => true
  | Cat r1 r2 => nullable r1 && nullable r2
  | Alt r1 r2 => nullable r1 || nullable r2
  end.

Fixpoint deriv (c : ascii) (r : t) : t :=
  match r with
  | Fail | Eps => Fail
  | Class p => if p c then Eps else Fail
  | Cat r1 r2 =>
      if nullable r1 then Alt (Cat (deriv c r1) r2) (deriv c r2)
      else Cat (deriv c r1) r2
  | Alt r1 r2 => Alt (deriv c r1) (deriv c r2)
  | Star r1 => Cat (deriv c r1) (Star r1)
  end.

Fixpoint matches (r : t) (s : string) : bool :=
  match s with
  | EmptyString => nullable r
  | String c rest => matches (deriv c r) rest
  end.

(** The strings a regular expression stands for. *)
Inductive Denotes : t → string → Prop :=
  | DenotesEps : Denotes Eps ""
  | DenotesClass p c : p c = true → Denotes (Class p) (String c "")
  | DenotesCat r1 r2 s1 s2 :
      Denotes r1 s1 → Denotes r2 s2 → Denotes (Cat r1 r2) (s1 +:+ s2)
  | DenotesAltL r1 r2 s : Denotes r1 s → Denotes (Alt r1 r2) s
  | DenotesAltR r1 r2 s : Denotes r2 s → Denotes (Alt r1 r2) s
  | DenotesStarNil r : Denotes (Star r) ""
  | DenotesStarCons r s1 s2 :
      Denotes r s1 → Denotes (Star r) s2 → Denotes (Star r) (s1 +:+ s2).

(** Every code unit of the string is in the class. *)
Fixpoint allIn (p : ascii → bool) (s : string) : bool :=
  match s with
  | EmptyString => true
  | String c rest => p c && allIn p rest
  end.

End Regex.

(** ** [src/register.js]: the student registration component *)

Module Register.

(** What a document field of the form holds once a file is staged. *)
Record FileInfo := {
  file_data : list Byte.byte;
  filename : string;
  file_type : string;
  file_size : Z
}.

(** The values found in [formData]: text inputs hold strings, document
    fields hold [null] until a file is staged. *)
Inductive FieldValue :=
  | FNull
  | FStr (s : string)
  | FFile (f : FileInfo).

(** [formData] is a JavaScript object used as a map from field names to
    values; reading an absent key gives [undefined], here [None]. *)
Abbreviation FormData := (gmap string FieldValue).

Definition initialFormData : FormData :=
  list_to_map [
    ("studentFullName", FStr ""); ("gender", FStr ""); ("dateOfBirth", FStr "");
    ("bloodGroup", FStr ""); ("nationality", FStr "Indian"); ("religion", FStr "");
    ("caste", FStr ""); ("motherTongue", FStr ""); ("category", FStr "");
    ("birthPlace", FStr "");
    ("studentContactNo", FStr ""); ("studentEmail", FStr "");
    ("parentContactNo", FStr "");
    ("correspondenceAddress", FStr ""); ("correspondenceCity", FStr "");
    ("correspondenceState", FStr ""); ("correspondenceCountry", FStr "India");
    ("correspondencePostalCode", FStr "");
    ("permanentAddress", FStr ""); ("permanentCity", FStr "");
    ("permanentState", FStr ""); ("permanentCountry", FStr "India");
    ("permanentPostalCode", FStr "");
    ("tenthMarksCardNumber", FStr ""); ("tenthBoardUniversity", FStr "");
    ("tenthSchoolName", FStr ""); ("tenthSchoolState", FStr "");
    ("tenthPassedOutYear", FStr ""); ("tenthTotalMarks", FStr "");
    ("tenthScoredMarks", FStr ""); ("tenthPercentage", FStr "");
    ("collegeInstitutionName", FStr ""); ("collegeStateName", FStr "");
    ("boardUniversity", FStr ""); ("twelfthMarksCardNumber", FStr "");
    ("twelfthRegisterNumber", FStr ""); ("twelfthPassedOutYear", FStr "");
    ("twelfthTotalMarks", FStr ""); ("twelfthScoredMarks", FStr "");
    ("twelfthPercentage", FStr "");
    ("pcmTotal", FStr ""); ("pcmPercentage", FStr "");
    ("physicsTotal", FStr ""); ("physicsScored", FStr "");
    ("chemistryTotal", FStr ""); ("chemistryScored", FStr "");
    ("mathematicsTotal", FStr ""); ("mathematicsScored", FStr "");
    ("biologyTotal", FStr ""); ("biologyScored", FStr "");
    ("computerScienceTotal", FStr ""); ("computerScienceScored", FStr "");
    ("englishTotal", FStr ""); ("englishScored", FStr "");
    ("languageType", FStr ""); ("languageTotal", FStr "");
    ("languageScored", FStr ""); ("additionalLanguage", FStr "");
    ("additionalLanguageTotal", FStr ""); ("additionalLanguageScored", FStr "");
    ("fatherName", FStr ""); ("fatherOccupation", FStr "");
    ("fatherIncome", FStr ""); ("fatherMobile", FStr "");
    ("motherName", FStr ""); ("motherOccupation", FStr "");
    ("motherIncome", FStr ""); ("motherMobile", FStr "");
    ("parentEmail", FStr "");
    ("guardianName", FStr ""); ("guardianOccupation", FStr "");
    ("guardianIncome", FStr "");
    ("department", FStr ""); ("programName", FStr "");
    ("admissionType", FStr ""); ("juApplication", FStr "");
    ("aadhaarUpload", FNull); ("tenthMarksheetUpload", FNull);
    ("twelfthMarksheetUpload", FNull); ("transferCertificateUpload", FNull);
    ("conductCertificateUpload", FNull); ("casteCertificateUpload", FNull);
    ("incomeCertificateUpload", FNull); ("photographUpload", FNull)
  ].

(** [ToBoolean] of [formData[field]]. *)
Definition fieldTruthy (value : option FieldValue) : bool :=
  match value with
  | None | Some FNull => false
  | Some (FStr s) => negb (String.eqb s "")
  | Some (FFile _) => true
  end.

(** [ToString] of [formData[field]], as template literals, [parseFloat] and
    [RegExp.prototype.test] apply it. *)
Definition fieldToString (value : option FieldValue) : string :=
  match value with
  | None => "undefined"
  | Some FNull => "null"
  | Some (FStr s) => s
  | Some (FFile _) => "[object Object]"
  end.

(** [ToNumber] of [formData[field]], as [<] and [>] against a number apply
    it. *)
Definition fieldToNumber `{Runtime} (value : option FieldValue) : JsNumber :=
  match value with
  | None => NaN
  | Some FNull => ofZ 0
  | Some (FStr s) => StringToNumber s
  | Some (FFile _) => StringToNumber "[object Object]"
  end.

(** [formData[field].length < n]: a string has a length, a staged file
    object has none ([undefined < n] is false). *)
Definition fieldLengthLt (value : option FieldValue) (n : nat) : bool :=
  match value with
  | Some (FStr s) => (String.length s <? n)%nat
  | _ => false
  end.

(** [/^[^\s@]+@[^\s@]+\.[^\s@]+$/] *)
Definition notSpaceNorAt (c : ascii) : bool :=
  negb (isWhiteSpace c) && negb (Ascii.eqb c "@").

Definition emailRegex : Regex.t :=
  Regex.Cat (Regex.Plus (Regex.Class notSpaceNorAt))
    (Regex.Cat (Regex.Class (Ascii.eqb "@"))
      (Regex.Cat (Regex.Plus (Regex.Class notSpaceNorAt))
        (Regex.Cat (Regex.Class (Ascii.eqb "."))
          (Regex.Plus (Regex.Class notSpaceNorAt))))).

Definition emailRegex_test (s : string) : bool := Regex.matches emailRegex s.

(** *** [validateStep] *)

Definition requiredFieldsByStep : list (list string) := [
  (* Step 0: Basic & Contact Info *)
  ["studentFullName"; "gender"; "dateOfBirth"; "nationality";
   "studentContactNo"; "studentEmail"; "parentContactNo"];
  (* Step 1: Address Details *)
  ["correspondenceAddress"; "correspondenceCity"; "correspondenceState";
   "correspondencePostalCode"];
  (* Step 2: Academic Details *)
  ["tenthSchoolName"; "tenthBoardUniversity"; "tenthPassedOutYear";
   "collegeInstitutionName"; "boardUniversity"; "twelfthPassedOutYear"];
  (* Step 3: Subject Marks *)
  ["twelfthTotalMarks"; "twelfthScoredMarks"; "twelfthPercentage"];
  (* Step 4: Family Information *)
  ["fatherName"; "motherName"; "fatherMobile"; "motherMobile"];
  (* Step 5: University Details *)
  ["department"; "programName"; "admissionType"; "juApplication"];
  (* Step 6: Documents *)
  []
].

(** [requiredFieldsByStep[stepIndex] || []] *)
Definition requiredFields (stepIndex : Z) : list string :=
  if stepIndex <? 0 then []
  else default [] (requiredFieldsByStep !! Z.to_nat stepIndex).

(** [!value || (typeof value === 'string' && value.trim() === '')] *)
Definition isMissing (value : option FieldValue) : bool :=
  negb (fieldTruthy value) ||
  match value with
  | Some (FStr s) => String.eqb (trim s) ""
  | _ => false
  end.

(** The loop that fills [missingFields], in the order of [required]. *)
Definition missingFields (formData : FormData) (required : list string)
  : list string :=
  List.filter (λ field, isMissing (formData !! field)) required.

Definition fieldLabels : list (string * string) := [
  ("studentFullName", "Student Full Name");
  ("gender", "Gender");
  ("dateOfBirth", "Date of Birth");
  ("nationality", "Nationality");
  ("studentContactNo", "Student Contact Number");
  ("studentEmail", "Student Email");
  ("parentContactNo", "Parent Contact Number");
  ("correspondenceAddress", "Correspondence Address");
  ("correspondenceCity", "Correspondence City");
  ("correspondenceState", "Correspondence State");
  ("correspondencePostalCode", "Correspondence Postal Code");
  ("tenthSchoolName", "10th School Name");
  ("tenthBoardUniversity", "10th Board/University");
  ("tenthPassedOutYear", "10th Passed Out Year");
  ("collegeInstitutionName", "College/Institution Name");
  ("boardUniversity", "12th Board/University");
  ("twelfthPassedOutYear", "12th Passed Out Year");
  ("twelfthTotalMarks", "12th Total Marks");
  ("twelfthScoredMarks", "12th Scored Marks");
  ("twelfthPercentage", "12th Percentage");
  ("fatherName", "Father's Name");
  ("motherName", "Mother's Name");
  ("fatherMobile", "Father's Mobile");
  ("motherMobile", "Mother's Mobile");
  ("department", "Department");
  ("programName", "Program Name");
  ("admissionType", "Admission Type");
  ("juApplication", "JU Application Number")
].

(** [fieldLabels[field] || field] *)
Definition labelOf (field : string) : string :=
  match (list_to_map fieldLabels : gmap string string) !! field with
  | Some label => if String.eqb label "" then field else label
  | None => field
  end.

Definition missingFieldsMessage (missing : list string) : string :=
  "Please fill in the following required fields: "
    +:+ join ", " (map labelOf missing).

(** The first error wins: [a] returned, otherwise the code goes on to [b]. *)
Definition orElse (a b : option string) : option string :=
  match a with
  | Some e => Some e
  | None => b
  end.

Infix "<|>" := orElse (at level 61, left associativity).

(** [if (cond) return msg;] *)
Definition failIf (cond : bool) (msg : string) : option string :=
  if cond then Some msg else None.

Section validation.
Context `{Runtime}.

(** The [currentYear] of the academic step is [new Date().getFullYear()]; it
    is an input here. *)
Variable currentYear : Z.
Variable formData : FormData.
Variable otpVerified : bool.

(** [if (stepIndex === 0) { ... }] *)
Definition basicInfoRules : option string :=
  failIf (negb otpVerified)
    "Please verify the parent's phone number with OTP before proceeding to the next step."
  <|> failIf (fieldTruthy (formData !! "studentEmail")
              && negb (emailRegex_test (fieldToString (formData !! "studentEmail"))))
    "Please enter a valid email address."
  <|> failIf (fieldTruthy (formData !! "studentContactNo")
              && fieldLengthLt (formData !! "studentContactNo") 10)
    "Please enter a valid contact number (at least 10 digits)."
  <|> failIf (fieldTruthy (formData !! "parentContactNo")
              && fieldLengthLt (formData !! "parentContactNo") 10)
    "Please enter a valid parent contact number (at least 10 digits).".

(** [if (stepIndex === 2) { ... }] *)
Definition academicRules : option string :=
  let tenth := formData !! "tenthPassedOutYear" in
  let twelfth := formData !! "twelfthPassedOutYear" in
  failIf (fieldTruthy tenth
          && (numLt (ofZ currentYear) (fieldToNumber tenth)
              || numLt (fieldToNumber tenth) (ofZ (currentYear - 15))))
    "Please enter a valid 10th passed out year."
  <|> failIf (fieldTruthy twelfth
              && (numLt (ofZ currentYear) (fieldToNumber twelfth)
                  || numLt (fieldToNumber twelfth) (ofZ (currentYear - 10))))
    "Please enter a valid 12th passed out year.".

(** [if (stepIndex === 3) { ... }] *)
Definition marksRules : option string :=
  let totalMarks := parseFloat (fieldToString (formData !! "twelfthTotalMarks")) in
  let scoredMarks := parseFloat (fieldToString (formData !! "twelfthScoredMarks")) in
  let percentage := formData !! "twelfthPercentage" in
  failIf (numTruthy totalMarks && numTruthy scoredMarks
          && numLt totalMarks scoredMarks)
    "Scored marks cannot be greater than total marks."
  <|> failIf (fieldTruthy percentage
              && (numLt (fieldToNumber percentage) (ofZ 0)
                  || numLt (ofZ 100) (fieldToNumber percentage)))
    "Please enter a valid percentage (0-100).".

(** [if (stepIndex === 4) { ... }] *)
Definition familyRules : option string :=
  failIf (fieldTruthy (formData !! "fatherMobile")
          && fieldLengthLt (formData !! "fatherMobile") 10)
    "Please enter a valid father's mobile number (at least 10 digits)."
  <|> failIf (fieldTruthy (formData !! "motherMobile")
              && fieldLengthLt (formData !! "motherMobile") 10)
    "Please enter a valid mother's mobile number (at least 10 digits).".

(** The four [if (stepIndex === k)] blocks, in the order of the source: the
    "additional validation" of a step. *)
Definition stepRules (stepIndex : Z) : option string :=
  (if stepIndex =? 0 then basicInfoRules else None)
  <|> (if stepIndex =? 2 then academicRules else None)
  <|> (if stepIndex =? 3 then marksRules else None)
  <|> (if stepIndex =? 4 then familyRules else None).

(** [validateStep(stepIndex)]: [None] is [null]. *)
Definition validateStep (stepIndex : Z) : option string :=
  let required := requiredFields stepIndex in
  let missing := missingFields formData required in
  stepRules stepIndex
  <|> (if (0 <? length missing)%nat
       then Some (missingFieldsMessage missing)
       else None).

End validation.

(** *** Component state

    One field per [useState] cell the handlers below read or write; the six
    cells of the OTP sub-flow are grouped in [OtpState].  [storedRegistration]
    is the [studentRegistration] entry of [localStorage], and [requests] logs
    the HTTP requests issued so far, oldest first. *)

Record UploadStatus := {
  uploading : bool;
  progress : Z;
  error : option string;
  success : bool;
  ready : option bool
}.

Record OtpState := {
  otpSent : bool;
  otpVerified : bool;
  otp : string;
  otpLoading : bool;
  otpTimer : Z;
  canResendOtp : bool
}.

(** The registration receipt kept in [studentData] and in [localStorage]. *)
Record Receipt := {
  receiptName : JsVal;
  receiptStudentId : JsVal;
  receiptJuApplication : JsVal;
  receiptDepartment : JsVal;
  receiptStatus : string;
  receiptHasPhoto : bool;
  receiptRegistrationDate : string;
  receiptDocumentUpload : option JsVal
}.

Inductive Request :=
  | PostSendOtp (phoneNumber : string)
  | PostVerifyOtp (phoneNumber : string) (code : string)
  | PostRegister (registrationData : FormData)
                 (documents : gmap string FileInfo).

Record State := {
  loading : bool;
  message : JsVal;
  studentData : option Receipt;
  currentStep : Z;
  uploadedFiles : gmap string string;
  uploadStatus : gmap string UploadStatus;
  otpState : OtpState;
  formData : FormData;
  sameAsCorrespondence : bool;
  parentPhoneCountry : string;
  storedRegistration : option Receipt;
  requests : list Request
}.

Definition withOtpSent (v : bool) (o : OtpState) : OtpState :=
  {| otpSent := v; otpVerified := otpVerified o; otp := otp o; otpLoading := otpLoading o; otpTimer := otpTimer o; canResendOtp := canResendOtp o |}.
Definition withOtpVerified (v : bool) (o : OtpState) : OtpState :=
  {| otpSent := otpSent o; otpVerified := v; otp := otp o; otpLoading := otpLoading o; otpTimer := otpTimer o; canResendOtp := canResendOtp o |}.
Definition withOtp (v : string) (o : OtpState) : OtpState :=
  {| otpSent := otpSent o; otpVerified := otpVerified o; otp := v; otpLoading := otpLoading o; otpTimer := otpTimer o; canResendOtp := canResendOtp o |}.
Definition withOtpLoading (v : bool) (o : OtpState) : OtpState :=
  {| otpSent := otpSent o; otpVerified := otpVerified o; otp := otp o; otpLoading := v; otpTimer := otpTimer o; canResendOtp := canResendOtp o |}.
Definition withOtpTimer (v : Z) (o : OtpState) : OtpState :=
  {| otpSent := otpSent o; otpVerified := otpVerified o; otp := otp o; otpLoading := otpLoading o; otpTimer := v; canResendOtp := canResendOtp o |}.
Definition withCanResendOtp (v : bool) (o : OtpState) : OtpState :=
  {| otpSent := otpSent o; otpVerified := otpVerified o; otp := otp o; otpLoading := otpLoading o; otpTimer := otpTimer o; canResendOtp := v |}.

Definition setLoading (v : bool) (st : State) : State :=
  {| loading := v;
     message := message st;
     studentData := studentData st;
     currentStep := currentStep st;
     uploadedFiles := uploadedFiles st;
     uploadStatus := uploadStatus st;
     otpState := otpState st;
     formData := formData st;
     sameAsCorrespondence := sameAsCorrespondence st;
     parentPhoneCountry := parentPhoneCountry st;
     storedRegistration := storedRegistration st;
     requests := requests st |}.

Definition setMessage (v : JsVal) (st : State) : State :=
  {| loading := loading st;
     message := v;
     studentData := studentData st;
     currentStep := currentStep st;
     uploadedFiles := uploadedFiles st;
     uploadStatus := uploadStatus st;
     otpState := otpState st;
     formData := formData st;
     sameAsCorrespondence := sameAsCorrespondence st;
     parentPhoneCountry := parentPhoneCountry st;
     storedRegistration := storedRegistration st;
     requests := requests st |}.

Definition setStudentData (v : option Receipt) (st : State) : State :=
  {| loading := loading st;
     message := message st;
     studentData := v;
     currentStep := currentStep st;
     uploadedFiles := uploadedFiles st;
     uploadStatus := uploadStatus st;
     otpState := otpState st;
     formData := formData st;
     sameAsCorrespondence := sameAsCorrespondence st;
     parentPhoneCountry := parentPhoneCountry st;
     storedRegistration := storedRegistration st;
     requests := requests st |}.

Definition setCurrentStep (v : Z) (st : State) : State :=
  {| loading := loading st;
     message := message st;
     studentData := studentData st;
     currentStep := v;
     uploadedFiles := uploadedFiles st;
     uploadStatus := uploadStatus st;
     otpState := otpState st;
     formData := formData st;
     sameAsCorrespondence := sameAsCorrespondence st;
     parentPhoneCountry := parentPhoneCountry st;
     storedRegistration := storedRegistration st;
     requests := requests st |}.

Definition setUploadedFiles (v : gmap string string) (st : State) : State :=
  {| loading := loading st;
     message := message st;
     studentData := studentData st;
     currentStep := currentStep st;
     uploadedFiles := v;
     uploadStatus := uploadStatus st;
     otpState := otpState st;
     formData := formData st;
     sameAsCorrespondence := sameAsCorrespondence st;
     parentPhoneCountry := parentPhoneCountry st;
     storedRegistration := storedRegistration st;
     requests := requests st |}.

Definition setUploadStatus (v : gmap string UploadStatus) (st : State) : State :=
  {| loading := loading st;
     message := message st;
     studentData := studentData st;
     currentStep := currentStep st;
     uploadedFiles := uploadedFiles st;
     uploadStatus := v;
     otpState := otpState st;
     formData := formData st;
     sameAsCorrespondence := sameAsCorrespondence st;
     parentPhoneCountry := parentPhoneCountry st;
     storedRegistration := storedRegistration st;
     requests := requests st |}.

Definition setOtpState (v : OtpState) (st : State) : State :=
  {| loading := loading st;
     message := message st;
     studentData := studentData st;
     currentStep := currentStep st;
     uploadedFiles := uploadedFiles st;
     uploadStatus := uploadStatus st;
     otpState := v;
     formData := formData st;
     sameAsCorrespondence := sameAsCorrespondence st;
     parentPhoneCountry := parentPhoneCountry st;
     storedRegistration := storedRegistration st;
     requests := requests st |}.

Definition setFormData (v : FormData) (st : State) : State :=
  {| loading := loading st;
     message := message st;
     studentData := studentData st;
     currentStep := currentStep st;
     uploadedFiles := uploadedFiles st;
     uploadStatus := uploadStatus st;
     otpState := otpState st;
     formData := v;
     sameAsCorrespondence := sameAsCorrespondence st;
     parentPhoneCountry := parentPhoneCountry st;
     storedRegistration := storedRegistration st;
     requests := requests st |}.

Definition setSameAsCorrespondence (v : bool) (st : State) : State :=
  {| loading := loading st;
     message := message st;
     studentData := studentData st;
     currentStep := currentStep st;
     uploadedFiles := uploadedFiles st;
     uploadStatus := uploadStatus st;
     otpState := otpState st;
     formData := formData st;
     sameAsCorrespondence := v;
     parentPhoneCountry := parentPhoneCountry st;
     storedRegistration := storedRegistration st;
     requests := requests st |}.

Definition setParentPhoneCountry (v : string) (st : State) : State :=
  {| loading := loading st;
     message := message st;
     studentData := studentData st;
     currentStep := currentStep st;
     uploadedFiles := uploadedFiles st;
     uploadStatus := uploadStatus st;
     otpState := otpState st;
     formData := formData st;
     sameAsCorrespondence := sameAsCorrespondence st;
     parentPhoneCountry := v;
     storedRegistration := storedRegistration st;
     requests := requests st |}.

Definition setStoredRegistration (v : option Receipt) (st : State) : State :=
  {| loading := loading st;
     message := message st;
     studentData := studentData st;
     currentStep := currentStep st;
     uploadedFiles := uploadedFiles st;
     uploadStatus := uploadStatus st;
     otpState := otpState st;
     formData := formData st;
     sameAsCorrespondence := sameAsCorrespondence st;
     parentPhoneCountry := parentPhoneCountry st;
     storedRegistration := v;
     requests := requests st |}.

Definition setRequests (v : list Request) (st : State) : State :=
  {| loading := loading st;
     message := message st;
     studentData := studentData st;
     currentStep := currentStep st;
     uploadedFiles := uploadedFiles st;
     uploadStatus := uploadStatus st;
     otpState := otpState st;
     formData := formData st;
     sameAsCorrespondence := sameAsCorrespondence st;
     parentPhoneCountry := parentPhoneCountry st;
     storedRegistration := storedRegistration st;
     requests := v |}.

Definition setOtpSent (v : bool) (st : State) : State :=
  setOtpState (withOtpSent v (otpState st)) st.
Definition setOtpVerified (v : bool) (st : State) : State :=
  setOtpState (withOtpVerified v (otpState st)) st.
Definition setOtp (v : string) (st : State) : State :=
  setOtpState (withOtp v (otpState st)) st.
Definition setOtpLoading (v : bool) (st : State) : State :=
  setOtpState (withOtpLoading v (otpState st)) st.
Definition setOtpTimer (v : Z) (st : State) : State :=
  setOtpState (withOtpTimer v (otpState st)) st.
Definition setCanResendOtp (v : bool) (st : State) : State :=
  setOtpState (withCanResendOtp v (otpState st)) st.

(** [fetch(...)]: the request is appended to the log. *)
Definition issue (r : Request) (st : State) : State :=
  setRequests (requests st ++ [r]) st.

Definition initialOtpState : OtpState :=
  {| otpSent := false; otpVerified := false; otp := ""; otpLoading := false;
     otpTimer := 0; canResendOtp := true |}.

Definition initialState : State :=
  {| loading := false; message := JStr ""; studentData := None;
     currentStep := 0; uploadedFiles := ∅; uploadStatus := ∅;
     otpState := initialOtpState; formData := initialFormData;
     sameAsCorrespondence := false; parentPhoneCountry := "+91";
     storedRegistration := None; requests := [] |}.

(** *** Form handlers *)

(** [{ ...prev, [key]: value }] where [value] may be [undefined]. *)
Definition assign (key : string) (value : option FieldValue)
  (fd : FormData) : FormData :=
  match value with
  | Some v => <[key := v]> fd
  | None => delete key fd
  end.

(** [handleInputChange]: [e.target.value] is always a string. *)
Definition handleInputChange (name value : string) (st : State) : State :=
  setFormData (<[name := FStr value]> (formData st)) st.

(** [copyCorrespondenceAddress], run by the effect that watches
    [sameAsCorrespondence]. *)
Definition copyCorrespondenceAddress (st : State) : State :=
  let prev := formData st in
  if sameAsCorrespondence st then
    setFormData
      (prev
       |> assign "permanentAddress" (prev !! "correspondenceAddress")
       |> assign "permanentCity" (prev !! "correspondenceCity")
       |> assign "permanentState" (prev !! "correspondenceState")
       |> assign "permanentCountry" (prev !! "correspondenceCountry")
       |> assign "permanentPostalCode" (prev !! "correspondencePostalCode"))
      st
  else
    setFormData
      (prev
       |> assign "permanentAddress" (Some (FStr ""))
       |> assign "permanentCity" (Some (FStr ""))
       |> assign "permanentState" (Some (FStr ""))
       |> assign "permanentCountry" (Some (FStr "India"))
       |> assign "permanentPostalCode" (Some (FStr "")))
      st.

(** The checkbox: [setSameAsCorrespondence(e.target.checked)], after which
    the effect with dependency [[sameAsCorrespondence]] runs
    [copyCorrespondenceAddress] if the flag changed. *)
Definition toggleSameAsCorrespondence (checked : bool) (st : State) : State :=
  if Bool.eqb checked (sameAsCorrespondence st) then st
  else copyCorrespondenceAddress (setSameAsCorrespondence checked st).

(** *** Step navigation *)

Definition formSteps : list string :=
  ["basic"; "address"; "academic"; "subjects"; "family"; "university";
   "documents"].

(** [if (error)] on the result of [validateStep]. *)
Definition errorTruthy (error : option string) : bool :=
  match error with
  | Some e => negb (String.eqb e "")
  | None => false
  end.

Section navigation.
Context `{Runtime}.

Definition validateCurrentStep (currentYear : Z) (st : State) : option string :=
  validateStep currentYear (formData st) (otpVerified (otpState st))
    (currentStep st).

Definition nextStep (currentYear : Z) (st : State) : State :=
  let error := validateCurrentStep currentYear st in
  if errorTruthy error then
    setMessage (JStr (default "" error)) st
  else if currentStep st <? Z.of_nat (length formSteps) - 1 then
    st |> setCurrentStep (currentStep st + 1) |> setMessage (JStr "")
  else st.

Definition prevStep (st : State) : State :=
  if 0 <? currentStep st then
    st |> setCurrentStep (currentStep st - 1) |> setMessage (JStr "")
  else st.

End navigation.

(** *** OTP sub-flow *)

(** [!s || s.trim() === ''] on a string. *)
Definition isBlank (s : string) : bool :=
  String.eqb s "" || String.eqb (trim s) "".

Definition parentPhoneNumber (st : State) : string :=
  parentPhoneCountry st +:+ fieldToString (formData st !! "parentContactNo").

Definition sendOtp (outcome : FetchOutcome) (st : State) : State :=
  let parent := formData st !! "parentContactNo" in
  match parent with
  | Some (FFile _) => st   (* [.trim] is not a function: the handler throws *)
  | _ =>
    if isMissing parent then
      setMessage (JStr "Please enter parent's phone number first") st
    else
      let st1 :=
        st |> setOtpLoading true |> setMessage (JStr "Sending OTP...")
           |> issue (PostSendOtp (parentPhoneNumber st)) in
      let st2 :=
        match outcome with
        | Responded ok dataSuccess dataError =>
            if ok && truthy dataSuccess then
              st1 |> setOtpSent true |> setOtpTimer 60
                  |> setCanResendOtp false
                  |> setMessage (JStr "OTP sent successfully! Please check your phone.")
            else
              setMessage
                (orDefault dataError (JStr "Failed to send OTP. Please try again."))
                st1
        | Threw =>
            (* For demo purposes, simulate successful OTP send *)
            st1 |> setOtpSent true |> setOtpTimer 60
                |> setCanResendOtp false
                |> setMessage (JStr "OTP sent successfully! Please check your phone. (Demo: Use 123456)")
        end in
      setOtpLoading false st2
  end.

Definition verifyOtp (outcome : FetchOutcome) (st : State) : State :=
  if isBlank (otp (otpState st)) then
    setMessage (JStr "Please enter the OTP") st
  else
    let st1 :=
      st |> setOtpLoading true |> setMessage (JStr "Verifying OTP...")
         |> issue (PostVerifyOtp (parentPhoneNumber st) (otp (otpState st))) in
    let st2 :=
      match outcome with
      | Responded ok dataSuccess dataError =>
          if ok && truthy dataSuccess then
            st1 |> setOtpVerified true
                |> setMessage (JStr "✅ Parent phone number verified successfully!")
          else
            setMessage
              (orDefault dataError (JStr "Invalid OTP. Please try again."))
              st1
      | Threw => st1
      end in
    setOtpLoading false st2.

Definition resendOtp (outcome : FetchOutcome) (st : State) : State :=
  if canResendOtp (otpState st) then st |> setOtp "" |> sendOtp outcome
  else st.

(** One firing of the one-second interval of the OTP timer effect, followed
    by the effect's [else if (otpTimer === 0 && otpSent)] branch. *)
Definition otpTick (st : State) : State :=
  let st1 :=
    if 0 <? otpTimer (otpState st)
    then setOtpTimer (otpTimer (otpState st) - 1) st
    else st in
  if (otpTimer (otpState st1) =? 0) && otpSent (otpState st1)
  then setCanResendOtp true st1
  else st1.

(** *** File staging *)

(** A [File] picked in a file input. *)
Record File := {
  fileName : string;
  fileType : string;
  fileSize : Z
}.

(** How [reader.readAsArrayBuffer(file)] ends: [onload] with the bytes, or
    [onerror]. *)
Inductive ReadOutcome :=
  | Loaded (bytes : list Byte.byte)
  | ReadFailed.

Definition allowedTypes : list string :=
  ["image/jpeg"; "image/png"; "image/jpg"; "application/pdf"].

(** [allowedTypes.includes(file.type)] *)
Definition includes (l : list string) (s : string) : bool :=
  existsb (String.eqb s) l.

Definition maxFileSize : Z := 5 * 1024 * 1024.

(** [handleFileUpload(e, fieldName)]; [file] is [e.target.files[0]]. *)
Definition handleFileUpload (file : option File) (fieldName : string)
  (read : ReadOutcome) (st : State) : State :=
  match file with
  | None => st
  | Some file =>
    if maxFileSize <? fileSize file then
      setMessage (JStr "File size should not exceed 5MB") st
    else if negb (includes allowedTypes (fileType file)) then
      setMessage (JStr "Please upload only JPEG, PNG, or PDF files") st
    else
      match read with
      | Loaded fileData =>
          st |> setFormData
                  (<[fieldName :=
                       FFile {| file_data := fileData;
                                filename := fileName file;
                                file_type := fileType file;
                                file_size := fileSize file |}]> (formData st))
             |> setUploadedFiles (<[fieldName := fileName file]> (uploadedFiles st))
             |> setUploadStatus
                  (<[fieldName :=
                       {| uploading := false; progress := 100; error := None;
                          success := true; ready := Some true |}]>
                     (uploadStatus st))
             |> setMessage (JStr "")
      | ReadFailed =>
          setUploadStatus
            (<[fieldName :=
                 {| uploading := false; progress := 0;
                    error := Some "Failed to read file";
                    success := false; ready := None |}]>
               (uploadStatus st))
            st
      end
  end.

(** *** Final submission *)

Definition documentFields : list string :=
  ["aadhaarUpload"; "tenthMarksheetUpload"; "twelfthMarksheetUpload";
   "transferCertificateUpload"; "conductCertificateUpload";
   "casteCertificateUpload"; "incomeCertificateUpload"; "photographUpload"].

(** The first [documentFields.forEach]: the staged files, by field name. *)
Definition documentsData (fd : FormData) : gmap string FileInfo :=
  foldl (λ acc fieldName,
           match fd !! fieldName with
           | Some (FFile fileInfo) => <[fieldName := fileInfo]> acc
           | _ => acc
           end) ∅ documentFields.

(** [{ ...formData, documents }] without the document fields that hold a
    staged file (the second [documentFields.forEach]); the [documents] member
    is the second component of [PostRegister]. *)
Definition registrationFields (fd : FormData) : FormData :=
  foldl (λ acc fieldName,
           match acc !! fieldName with
           | Some (FFile _) => delete fieldName acc
           | _ => acc
           end) (delete "documents" fd) documentFields.

(** The members of [data.data] the receipt reads. *)
Record StudentSummary := {
  summaryStudentFullName : JsVal;
  summaryName : JsVal;
  summaryDepartment : JsVal
}.

(** The body of the answer of [/api/students/register].  [regData] is [None]
    when [data.data] is [undefined] or [null] (reading a member of it
    throws); [regDocumentUpload] is [None] when [data.documentUpload] is
    falsy, and otherwise holds its [uploadedCount] member. *)
Record RegisterData := {
  regSuccess : JsVal;
  regError : JsVal;
  regStudentId : JsVal;
  regJuApplication : JsVal;
  regData : option StudentSummary;
  regDocumentUpload : option JsVal
}.

Inductive RegisterOutcome :=
  | RegisterThrew
  | RegisterResponded (ok : bool) (data : RegisterData).

Section submission.
Context `{Runtime}.

(** [docUpload.uploadedCount > 0 ? ` ${...} documents uploaded successfully.` : ''] *)
Definition uploadMsg (documentUpload : option JsVal) : string :=
  let uploadedCount := default JUndefined documentUpload in
  if numLt (ofZ 0) (toNumber uploadedCount)
  then " " +:+ toStr uploadedCount +:+ " documents uploaded successfully."
  else "".

(** [handleRegistration]; [now] is [new Date().toISOString()] at the time
    the answer arrives. *)
Definition handleRegistration (currentYear : Z) (now : string)
  (outcome : RegisterOutcome) (st : State) : State :=
  if loading st then st
  else
    let error := validateCurrentStep currentYear st in
    if errorTruthy error then setMessage (JStr (default "" error)) st
    else
      (* Check if JU Application number is provided *)
      match formData st !! "juApplication" with
      | Some (FFile _) => st   (* [.trim] is not a function: the handler throws *)
      | juApplication =>
        if isMissing juApplication then
          setMessage (JStr "JU Application number is required for registration") st
        else
          let st1 :=
            st |> setLoading true
               |> setMessage (JStr "Processing registration and uploading documents...")
               |> issue (PostRegister (registrationFields (formData st))
                                      (documentsData (formData st))) in
          let st2 :=
            match outcome with
            | RegisterResponded ok data =>
                if ok && truthy (regSuccess data) then
                  match regData data with
                  | Some summary =>
                      let registrationData :=
                        {| receiptName :=
                             orDefault (summaryStudentFullName summary)
                                       (summaryName summary);
                           receiptStudentId := regStudentId data;
                           receiptJuApplication := regJuApplication data;
                           receiptDepartment := summaryDepartment summary;
                           receiptStatus := "pending";
                           receiptHasPhoto := false;
                           receiptRegistrationDate := now;
                           receiptDocumentUpload := regDocumentUpload data |} in
                      st1 |> setStoredRegistration (Some registrationData)
                          |> setStudentData (Some registrationData)
                          |> setMessage
                               (JStr ("Registration successful! 🎉"
                                      +:+ uploadMsg (regDocumentUpload data)))
                  | None =>
                      setMessage (JStr "Error: Unable to connect to server.") st1
                  end
                else
                  setMessage
                    (orDefault (regError data)
                               (JStr "Registration failed. Please try again."))
                    st1
            | RegisterThrew =>
                setMessage (JStr "Error: Unable to connect to server.") st1
            end in
          setLoading false st2
      end.

(** *** The component as a transition system

    Every user action and every answer of the environment is an event; a run
    of the component is a list of events applied from [initialState]. *)

Inductive Event :=
  | InputChange (name value : string)
  | OtpInput (value : string)
  | ParentPhoneCountryChange (code : string)
  | ToggleSameAsCorrespondence (checked : bool)
  | NextStep (currentYear : Z)
  | PrevStep
  | SendOtp (outcome : FetchOutcome)
  | VerifyOtp (outcome : FetchOutcome)
  | ResendOtp (outcome : FetchOutcome)
  | OtpTick
  | FileUpload (file : option File) (fieldName : string) (read : ReadOutcome)
  | Registration (currentYear : Z) (now : string) (outcome : RegisterOutcome).

Definition step (st : State) (e : Event) : State :=
  match e with
  | InputChange name value => handleInputChange name value st
  | OtpInput value => setOtp value st
  | ParentPhoneCountryChange code => setParentPhoneCountry code st
  | ToggleSameAsCorrespondence checked => toggleSameAsCorrespondence checked st
  | NextStep currentYear => nextStep currentYear st
  | PrevStep => prevStep st
  | SendOtp outcome => sendOtp outcome st
  | VerifyOtp outcome => verifyOtp outcome st
  | ResendOtp outcome => resendOtp outcome st
  | OtpTick => otpTick st
  | FileUpload file fieldName read => handleFileUpload file fieldName read st
  | Registration currentYear now outcome =>
      handleRegistration currentYear now outcome st
  end.

Definition run (events : list Event) : State := foldl step initialState events.

End submission.

(** *** Vocabulary of the properties *)

(** A form value is missing, or blank once trimmed. *)
Definition MissingOrBlank (value : option FieldValue) : Prop :=
  value = None ∨ value = Some FNull ∨ ∃ s, value = Some (FStr s) ∧ trim s = "".

(** A form value is a string that is not blank once trimmed. *)
Definition NonBlank (value : option FieldValue) : Prop :=
  ∃ s, value = Some (FStr s) ∧ trim s ≠ "".

(** The five fields of the permanent address. *)
Definition permanentFields : list string :=
  ["permanentAddress"; "permanentCity"; "permanentState"; "permanentCountry";
   "permanentPostalCode"].
End Register.

(** ** The department verification console ([DepartmentAdminPage]) *)

Module DepartmentAdmin.

Record DocumentType := {
  docId : string;
  docName : string;
  docRequired : bool;
  docBackendField : string
}.

Definition documentTypes : list DocumentType := [
  {| docId := "10th_marksheet"; docName := "10th Marksheet";
     docRequired := true; docBackendField := "tenthMarksheetUpload" |};
  {| docId := "12th_marksheet"; docName := "12th Marksheet";
     docRequired := true; docBackendField := "twelfthMarksheetUpload" |};
  {| docId := "transfer_certificate"; docName := "Transfer Certificate";
     docRequired := true; docBackendField := "transferCertificateUpload" |};
  {| docId := "character_certificate"; docName := "Character Certificate";
     docRequired := true; docBackendField := "conductCertificateUpload" |};
  {| docId := "caste_certificate"; docName := "Caste Certificate";
     docRequired := false; docBackendField := "casteCertificateUpload" |};
  {| docId := "income_certificate"; docName := "Income Certificate";
     docRequired := false; docBackendField := "incomeCertificateUpload" |};
  {| docId := "domicile_certificate"; docName := "Domicile Certificate";
     docRequired := false; docBackendField := "domicileCertificateUpload" |};
  {| docId := "migration_certificate"; docName := "Migration Certificate";
     docRequired := false; docBackendField := "migrationCertificateUpload" |};
  {| docId := "passport_photos"; docName := "Passport Size Photos";
     docRequired := true; docBackendField := "photographUpload" |};
  {| docId := "aadhar_card"; docName := "Aadhar Card Copy";
     docRequired := true; docBackendField := "aadhaarUpload" |}
].

(** A student as the pending-verification endpoint returns it: the members
    the console reads.  The record carries both [student_id] and
    [studentId], which the console reads in different places. *)
Record Student := {
  student_id : JsVal;
  studentId : JsVal;
  name : JsVal;
  status : JsVal;
  attendance : JsVal;
  admission_slip_generated : JsVal;
  admission_slip_link : JsVal
}.

(** The verification sub-state of one document. *)
Record VerificationEntry := {
  verified : JsVal;
  notes : JsVal;
  verifiedAt : JsVal;
  verifiedBy : JsVal
}.

(** [verificationData]: an object used as a map from document ids to
    entries. *)
Abbreviation VerificationData := (gmap string VerificationEntry).

Record Notification := {
  notificationMessage : JsVal;
  notificationType : string
}.

Record DepartmentStats := {
  totalStudents : Z;
  fullyVerified : Z;
  pendingVerification : Z;
  completionRate : Z
}.

Record SlipStatus := {
  hasSlip : JsVal;
  slipLink : JsVal
}.

(** The requests of the console; the student a URL names is kept as the
    value interpolated in it. *)
Inductive Request :=
  | GetPendingVerification (department : string)
  | PutDocuments (student : JsVal) (documents : VerificationData)
                 (departmentAdmin : string)
  | PutStatus (student : JsVal) (newStatus : string).

(** The [useState] cells the two handlers touch, and the request log. *)
Record State := {
  students : list Student;
  filteredStudents : list Student;
  loading : bool;
  selectedStudent : option Student;
  showVerificationModal : bool;
  notification : Notification;
  verificationData : VerificationData;
  departmentStats : option DepartmentStats;
  studentSlipStatus : list (JsVal * SlipStatus);
  requests : list Request
}.

Definition setStudents (v : list Student) (st : State) : State :=
  {| students := v;
     filteredStudents := filteredStudents st;
     loading := loading st;
     selectedStudent := selectedStudent st;
     showVerificationModal := showVerificationModal st;
     notification := notification st;
     verificationData := verificationData st;
     departmentStats := departmentStats st;
     studentSlipStatus := studentSlipStatus st;
     requests := requests st |}.

Definition setFilteredStudents (v : list Student) (st : State) : State :=
  {| students := students st;
     filteredStudents := v;
     loading := loading st;
     selectedStudent := selectedStudent st;
     showVerificationModal := showVerificationModal st;
     notification := notification st;
     verificationData := verificationData st;
     departmentStats := departmentStats st;
     studentSlipStatus := studentSlipStatus st;
     requests := requests st |}.

Definition setLoading (v : bool) (st : State) : State :=
  {| students := students st;
     filteredStudents := filteredStudents st;
     loading := v;
     selectedStudent := selectedStudent st;
     showVerificationModal := showVerificationModal st;
     notification := notification st;
     verificationData := verificationData st;
     departmentStats := departmentStats st;
     studentSlipStatus := studentSlipStatus st;
     requests := requests st |}.

Definition setSelectedStudent (v : option Student) (st : State) : State :=
  {| students := students st;
     filteredStudents := filteredStudents st;
     loading := loading st;
     selectedStudent := v;
     showVerificationModal := showVerificationModal st;
     notification := notification st;
     verificationData := verificationData st;
     departmentStats := departmentStats st;
     studentSlipStatus := studentSlipStatus st;
     requests := requests st |}.

Definition setShowVerificationModal (v : bool) (st : State) : State :=
  {| students := students st;
     filteredStudents := filteredStudents st;
     loading := loading st;
     selectedStudent := selectedStudent st;
     showVerificationModal := v;
     notification := notification st;
     verificationData := verificationData st;
     departmentStats := departmentStats st;
     studentSlipStatus := studentSlipStatus st;
     requests := requests st |}.

Definition setNotification (v : Notification) (st : State) : State :=
  {| students := students st;
     filteredStudents := filteredStudents st;
     loading := loading st;
     selectedStudent := selectedStudent st;
     showVerificationModal := showVerificationModal st;
     notification := v;
     verificationData := verificationData st;
     departmentStats := departmentStats st;
     studentSlipStatus := studentSlipStatus st;
     requests := requests st |}.

Definition setVerificationData (v : VerificationData) (st : State) : State :=
  {| students := students st;
     filteredStudents := filteredStudents st;
     loading := loading st;
     selectedStudent := selectedStudent st;
     showVerificationModal := showVerificationModal st;
     notification := notification st;
     verificationData := v;
     departmentStats := departmentStats st;
     studentSlipStatus := studentSlipStatus st;
     requests := requests st |}.

Definition setDepartmentStats (v : option DepartmentStats) (st : State) : State :=
  {| students := students st;
     filteredStudents := filteredStudents st;
     loading := loading st;
     selectedStudent := selectedStudent st;
     showVerificationModal := showVerificationModal st;
     notification := notification st;
     verificationData := verificationData st;
     departmentStats := v;
     studentSlipStatus := studentSlipStatus st;
     requests := requests st |}.

Definition setStudentSlipStatus (v : list (JsVal * SlipStatus)) (st : State) : State :=
  {| students := students st;
     filteredStudents := filteredStudents st;
     loading := loading st;
     selectedStudent := selectedStudent st;
     showVerificationModal := showVerificationModal st;
     notification := notification st;
     verificationData := verificationData st;
     departmentStats := departmentStats st;
     studentSlipStatus := v;
     requests := requests st |}.

Definition setRequests (v : list Request) (st : State) : State :=
  {| students := students st;
     filteredStudents := filteredStudents st;
     loading := loading st;
     selectedStudent := selectedStudent st;
     showVerificationModal := showVerificationModal st;
     notification := notification st;
     verificationData := verificationData st;
     departmentStats := departmentStats st;
     studentSlipStatus := studentSlipStatus st;
     requests := v |}.

Definition issue (r : Request) (st : State) : State :=
  setRequests (requests st ++ [r]) st.

Definition initialState : State :=
  {| students := []; filteredStudents := []; loading := false;
     selectedStudent := None; showVerificationModal := false;
     notification := {| notificationMessage := JStr ""; notificationType := "" |};
     verificationData := ∅; departmentStats := None;
     studentSlipStatus := []; requests := [] |}.

(** [showNotification(message, type)]; the timer that clears the
    notification later is not part of the state. *)
Definition showNotification (msg : JsVal) (type : string) (st : State) : State :=
  setNotification {| notificationMessage := msg; notificationType := type |} st.

(** *** [loadStudentsForVerification] *)

(** The predicate of [data.students.filter(...)]. *)
Definition isActionable (student : Student) : bool :=
  strictEqStr (status student) "photo_uploaded"
  && strictEqStr (attendance student) "present".

(** [Math.round((verifiedCount / total) * 100)] on non-negative counts, as
    the rounding of the exact quotient. *)
Definition roundPercent (verifiedCount total : Z) : Z :=
  (2 * 100 * verifiedCount + total) / (2 * total).

Definition statsOf (studentsList : list Student) : DepartmentStats :=
  let total := Z.of_nat (length studentsList) in
  let verifiedCount :=
    Z.of_nat (length (List.filter (λ s, strictEqStr (status s) "verified")
                                  studentsList)) in
  {| totalStudents := total;
     fullyVerified := verifiedCount;
     pendingVerification := total - verifiedCount;
     completionRate := if 0 <? total then roundPercent verifiedCount total else 0 |}.

(** [slipStatus[student.student_id] = {...}] for each student, in order; a
    later entry for the same key is the one the object keeps. *)
Definition slipStatusOf (studentsList : list Student) : list (JsVal * SlipStatus) :=
  map (λ student,
         (student_id student,
          {| hasSlip := orDefault (admission_slip_generated student) (JBool false);
             slipLink := orDefault (admission_slip_link student) JNull |}))
      studentsList.

(** The answer of the pending-verification endpoint: [LoadThrew] when the
    fetch is rejected or the body is not a JSON object; otherwise
    [response.ok], [data.success] and [data.students], which is [None] when
    that member is not an array. *)
Inductive LoadOutcome :=
  | LoadThrew
  | LoadResponded (ok : bool) (dataSuccess : JsVal)
                  (dataStudents : option (list Student)).

Definition loadStudentsForVerification (departmentName : string)
  (outcome : LoadOutcome) (st : State) : State :=
  let st1 := st |> setLoading true
                |> issue (GetPendingVerification departmentName) in
  let unableToConnect :=
    showNotification (JStr "Unable to connect to server") "error" st1 in
  let st2 :=
    match outcome with
    | LoadResponded ok dataSuccess dataStudents =>
        if ok && truthy dataSuccess then
          match dataStudents with
          | Some returned =>
              let studentsList := List.filter isActionable returned in
              st1 |> setStudents studentsList
                  |> setFilteredStudents studentsList
                  |> setDepartmentStats (Some (statsOf studentsList))
                  |> setStudentSlipStatus (slipStatusOf studentsList)
          | None => unableToConnect
          end
        else showNotification (JStr "Failed to load students") "error" st1
    | LoadThrew => unableToConnect
    end in
  setLoading false st2.

(** *** The verification modal *)

(** [prev[documentId]] spread into a new entry: an absent entry has no
    members. *)
Definition entryOf (data : VerificationData) (documentId : string)
  : VerificationEntry :=
  default {| verified := JUndefined; notes := JUndefined;
             verifiedAt := JUndefined; verifiedBy := JUndefined |}
          (data !! documentId).

(** [handleDocumentVerification]; [now] is [new Date().toISOString()]. *)
Definition handleDocumentVerification (now : string) (documentId : string)
  (checked : bool) (st : State) : State :=
  let prev := verificationData st in
  setVerificationData
    (<[documentId :=
         {| verified := JBool checked;
            notes := notes (entryOf prev documentId);
            verifiedAt := if checked then JStr now else JNull;
            verifiedBy := if checked then JStr "Department Admin" else JNull |}]>
       prev)
    st.

Definition handleNotesChange (documentId : string) (newNotes : string)
  (st : State) : State :=
  let prev := verificationData st in
  let entry := entryOf prev documentId in
  setVerificationData
    (<[documentId :=
         {| verified := verified entry; notes := JStr newNotes;
            verifiedAt := verifiedAt entry; verifiedBy := verifiedBy entry |}]>
       prev)
    st.

(** [updateStudentStatus(studentId, status)]: the request is sent; a failed
    answer is only written to the console. *)
Definition updateStudentStatus (student : JsVal) (newStatus : string)
  (st : State) : State :=
  issue (PutStatus student newStatus) st.

(** [verificationData[doc.id]?.verified === true] *)
Definition isVerified (data : VerificationData) (doc : DocumentType) : bool :=
  match data !! docId doc with
  | Some entry => strictEqTrue (verified entry)
  | None => false
  end.

Definition allRequiredVerified (data : VerificationData) : bool :=
  let requiredDocs := List.filter docRequired documentTypes in
  forallb (isVerified data) requiredDocs.

(** [saveVerification]: [saved] answers the PUT of the documents and
    [reloaded] the refresh of the list it starts at the end. *)
Definition saveVerification (departmentName : string) (saved : FetchOutcome)
  (reloaded : LoadOutcome) (st : State) : State :=
  match selectedStudent st with
  | None => st
  | Some student =>
    let st1 :=
      issue (PutDocuments (student_id student) (verificationData st)
                          "Department Admin") st in
    match saved with
    | Responded ok dataSuccess dataError =>
        if ok && truthy dataSuccess then
          let st2 :=
            if allRequiredVerified (verificationData st) then
              st1 |> updateStudentStatus (studentId student) "documents_verified"
                  |> showNotification
                       (JStr "All documents verified! Student registration completed. ✅")
                       "success"
            else
              showNotification
                (JStr "Document verification saved successfully! 📄") "success" st1 in
          st2 |> setShowVerificationModal false
              |> setSelectedStudent None
              |> loadStudentsForVerification departmentName reloaded
        else
          showNotification
            (orDefault dataError (JStr "Failed to save verification")) "error" st1
    | Threw =>
        showNotification (JStr "Failed to save verification") "error" st1
    end
  end.

(** *** Vocabulary of the properties *)

(** The student is in the state the console acts on. *)
Definition Actionable (student : Student) : Prop :=
  status student = JStr "photo_uploaded" ∧ attendance student = JStr "present".

(** The document has an entry in the verification map whose [verified]
    member is [true]. *)
Definition VerifiedIn (data : VerificationData) (documentId : string) : Prop :=
  ∃ entry, data !! documentId = Some entry ∧ verified entry = JBool true.

(** Every document type with [required: true] is verified in the map. *)
Definition RequiredVerified (data : VerificationData) : Prop :=
  ∀ doc, doc ∈ documentTypes → docRequired doc = true →
         VerifiedIn data (docId doc).

(** The requests sent between two states of the console. *)
Definition issuedBetween (before after : State) : list Request :=
  drop (length (requests before)) (requests after).

End DepartmentAdmin.

(** ** The queue dashboard ([StudentQueueDashboard]) *)

Module QueueDashboard.

(** A student of the [students] state: the members the queue projection
    reads.  [fetchStudents] only keeps records whose [studentId], [name] and
    [department] are truthy; the department is a string. *)
Record Student := {
  studentId : JsVal;
  name : JsVal;
  department : string;
  attendance : JsVal;
  status : JsVal;
  registrationDate : JsVal
}.

(** *** The object [groupedStudents]

    [groupedStudents] is a plain object whose own properties are arrays.  Its
    own properties are kept here as an association list from department
    names to arrays, in the order in which the properties were created. *)
Abbreviation Groups := (list (string * list Student)).

(** The own property [dept] of [acc]. *)
Fixpoint lookupGroup (dept : string) (acc : Groups) : option (list Student) :=
  match acc with
  | [] => None
  | (d, deptStudents) :: rest =>
      if String.eqb d dept then Some deptStudents else lookupGroup dept rest
  end.

(** What an object created by [{}] answers to without an own property: the
    properties of [Object.prototype].  Each of them is a function or an
    object, so it is truthy, and none of them has a [push] method. *)
Definition objectPrototypeMembers : list string :=
  ["constructor"; "__defineGetter__"; "__defineSetter__"; "hasOwnProperty";
   "__lookupGetter__"; "__lookupSetter__"; "isPrototypeOf";
   "propertyIsEnumerable"; "toString"; "valueOf"; "__proto__";
   "toLocaleString"].

Definition inherited (key : string) : bool :=
  existsb (String.eqb key) objectPrototypeMembers.

(** [if (!acc[dept]) acc[dept] = []; acc[dept].push(student)] for a name
    that [acc] does not inherit: the own property is created when it is
    missing, and the student is appended to it. *)
Fixpoint pushOwn (dept : string) (student : Student) (acc : Groups) : Groups :=
  match acc with
  | [] => [(dept, [student])]
  | (d, deptStudents) :: rest =>
      if String.eqb d dept then (d, deptStudents ++ [student]) :: rest
      else (d, deptStudents) :: pushOwn dept student rest
  end.

(** [if (!acc[dept]) acc[dept] = []; acc[dept].push(student)].  For a name
    of [objectPrototypeMembers], [acc[dept]] is the inherited member: no
    array is created, and the call of [push], which the member does not
    have, throws a [TypeError] ([None]). *)
Definition pushStudent (dept : string) (student : Student) (acc : Groups)
  : option Groups :=
  if inherited dept then None else Some (pushOwn dept student acc).

(** [student.department || 'Unknown'] *)
Definition deptOf (student : Student) : string :=
  if String.eqb (department student) "" then "Unknown" else department student.

(** [student.attendance !== 'absent' && student.status !== 'verified'] *)
Definition inQueue (student : Student) : bool :=
  negb (strictEqStr (attendance student) "absent")
  && negb (strictEqStr (status student) "verified").

(** The [reduce] that builds [groupedStudents]; [None] when one of its steps
    throws. *)
Definition groupStudents (students : list Student) : option Groups :=
  foldl (λ result student,
           acc ← result;
           if inQueue student then pushStudent (deptOf student) student acc
           else Some acc)
        (Some []) students.

(** *** [Array.prototype.sort] *)

Section comparators.
Context {A : Type} (comparefn : A → A → JsNumber).

(** The reference order of a stable sort, by insertion from the right: [x],
    which precedes the elements of [sorted] in the array, moves behind [y]
    only when [comparefn(x, y) > 0] (a [NaN] result counts as zero). *)
Fixpoint insertSorted (x : A) (sorted : list A) : list A :=
  match sorted with
  | [] => [x]
  | y :: rest =>
      if numLt (ofZ 0) (comparefn x y)
      then y :: insertSorted x rest
      else x :: y :: rest
  end.

Definition stableSort (l : list A) : list A := foldr insertSorted [] l.

(** The three verdicts of a comparator, as ECMAScript reads its result:
    negative, positive, and neither (zero or [NaN]). *)
Definition before (a b : A) : Prop := numLt (comparefn a b) (ofZ 0) = true.
Definition after (a b : A) : Prop := numLt (ofZ 0) (comparefn a b) = true.
Definition tied (a b : A) : Prop :=
  numLt (comparefn a b) (ofZ 0) = false
  ∧ numLt (ofZ 0) (comparefn a b) = false.

(** A consistent comparator for the elements of [l], as ECMAScript defines
    it: its result is never [NaN], being tied is an equivalence, and the two
    strict verdicts are transitive. *)
Definition Consistent (l : list A) : Prop :=
  (∀ a b, a ∈ l → b ∈ l → comparefn a b ≠ NaN)
  ∧ (∀ a, a ∈ l → tied a a)
  ∧ (∀ a b, a ∈ l → b ∈ l → tied a b → tied b a)
  ∧ (∀ a b c, a ∈ l → b ∈ l → c ∈ l → tied a b → tied b c → tied a c)
  ∧ (∀ a b c, a ∈ l → b ∈ l → c ∈ l → before a b → before b c → before a c)
  ∧ (∀ a b c, a ∈ l → b ∈ l → c ∈ l → after a b → after b c → after a c).

End comparators.

(** The [sort] method of the engine that runs the page.  ECMAScript fixes
    its result for a consistent comparator only: the one stable sorted
    arrangement, which is the reference order.  For any other comparator
    the order of the result is the engine's own; the array still holds the
    same elements. *)
Class ArraySort := {
  arraySort : ∀ {A : Type}, (A → A → JsNumber) → list A → list A;
  arraySort_Permutation :
    ∀ (A : Type) (comparefn : A → A → JsNumber) (l : list A),
      arraySort comparefn l ≡ₚ l;
  arraySort_consistent :
    ∀ (A : Type) (comparefn : A → A → JsNumber) (l : list A),
      Consistent comparefn l → arraySort comparefn l = stableSort comparefn l
}.

(** *** [Object.keys] and [Object.values] *)

Fixpoint digitsValue (acc : N) (s : string) : option N :=
  match s with
  | EmptyString => Some acc
  | String c rest =>
      let n := N.of_nat (nat_of_ascii c) in
      if ((48 <=? n) && (n <=? 57))%N
      then digitsValue (10 * acc + (n - 48))%N rest
      else None
  end.

(** The array index a property name stands for: a decimal numeral without
    leading zero, below [2^32 - 1]. *)
Definition arrayIndex (key : string) : option N :=
  match key with
  | EmptyString => None
  | String c rest =>
      if Ascii.eqb c "0"
      then (if String.eqb rest "" then Some 0%N else None)
      else
        n ← digitsValue 0 key;
        if (n <? 2 ^ 32 - 1)%N then Some n else None
  end.

(** The own property names of an object in the order [Object.keys] lists
    them: the array indices in ascending order, then the other names in the
    order of their creation. *)
Definition ownKeys {V : Type} (obj : list (string * V)) : list string :=
  let keys := map fst obj in
  let indices := omap (λ key, (λ n, (n, key)) <$> arrayIndex key) keys in
  map snd (stableSort (λ a b, ofZ (Z.of_N a.1 - Z.of_N b.1)) indices)
  ++ List.filter (λ key, match arrayIndex key with
                         | Some _ => false
                         | None => true
                         end) keys.

(** [Object.values(obj)] *)
Definition ownValues (obj : Groups) : list (list Student) :=
  omap (λ key, lookupGroup key obj) (ownKeys obj).

(** *** The page *)

Section page.
Context `{Runtime} `{ArraySort}.

(** [new Date(a.registrationDate) - new Date(b.registrationDate)]: [NaN] as
    soon as one of the two dates is invalid. *)
Definition compareRegistration (a b : Student) : JsNumber :=
  match dateValue (registrationDate a), dateValue (registrationDate b) with
  | Some ta, Some tb => ofZ (ta - tb)
  | _, _ => NaN
  end.

(** [groupedStudents] after the [forEach] that sorts every department. *)
Definition groupedStudents (students : list Student) : option Groups :=
  groups ← groupStudents students;
  Some (map (λ entry, (entry.1, arraySort compareRegistration entry.2)) groups).

(** [Object.keys(groupedStudents)] *)
Definition departments (students : list Student) : option (list string) :=
  ownKeys <$> groupedStudents students.

(** What a department card shows under its header: the first three students
    and, when there are more, the line "+ n more student(s) waiting"; or the
    "Queue Clear!" notice. *)
Inductive CardBody :=
  | QueueClear
  | Queue (topThree : list Student) (more : option (Z * string)).

Record DepartmentCard := {
  cardDepartment : string;
  queueLength : Z;
  cardBody : CardBody
}.

Definition departmentCard (department : string) (deptStudents : list Student)
  : DepartmentCard :=
  let queueLength := Z.of_nat (length deptStudents) in
  let topThree := take 3 deptStudents in
  {| cardDepartment := department;
     queueLength := queueLength;
     cardBody :=
       if (0 <? length topThree)%nat then
         Queue topThree
           (if 3 <? queueLength
            then Some (queueLength - 3,
                       if 4 <? queueLength then "students" else "student")
            else None)
       else QueueClear |}.

(** The body of the page: the "No Students in Queue" panel, or one card per
    department. *)
Inductive Dashboard :=
  | NoStudentsInQueue
  | Cards (cards : list DepartmentCard).

(** What the component renders under its status bar; [None] when the
    component throws before it returns, so that nothing is rendered.  Every
    name of [Object.keys(groupedStudents)] is an own property, which
    [groupedStudents[department]] reads. *)
Definition render (students : list Student) : option Dashboard :=
  grouped ← groupedStudents students;
  let departments := ownKeys grouped in
  Some (if (length departments =? 0)%nat then NoStudentsInQueue
        else
          Cards (map (λ department,
                        departmentCard department
                          (default [] (lookupGroup department grouped)))
                     departments)).

(** [totalInQueue] *)
Definition totalInQueue (students : list Student) : option Z :=
  grouped ← groupedStudents students;
  Some (foldl (λ total deptStudents, total + Z.of_nat (length deptStudents)) 0
              (ownValues grouped)).

End page.

(** *** Vocabulary of the properties *)

(** The students of a department that are in the queue, in the order of
    [students]: those whose attendance is not 'absent' and whose status is
    not 'verified'. *)
Definition queueOf (dept : string) (students : list Student) : list Student :=
  List.filter (λ student, inQueue student && String.eqb (deptOf student) dept)
              students.

(** No student in the queue has a department named like a member of
    [Object.prototype]. *)
Definition OwnDepartments (students : list Student) : Prop :=
  ∀ student, student ∈ students → inQueue student = true →
             deptOf student ∉ objectPrototypeMembers.

Section registration_order.
Context `{Runtime}.

(** Both registration dates are valid and the first is not later than the
    second. *)
Definition registeredNoLater (a b : Student) : Prop :=
  match dateValue (registrationDate a), dateValue (registrationDate b) with
  | Some ta, Some tb => ta ≤ tb
  | _, _ => False
  end.

Definition validDate (student : Student) : Prop :=
  is_Some (dateValue (registrationDate student)).

End registration_order.

End QueueDashboard.

(** ** A runtime for the worked examples

    The examples below run the handlers on concrete inputs.  They only feed
    the runtime unsigned decimal numerals and numeric time stamps, which this
    instance converts as every JavaScript engine does; any other text is
    taken as not a number, and any other date as invalid. *)

Module Sample.

Fixpoint digitsValue (acc : Z) (s : string) : option Z :=
  match s with
  | EmptyString => Some acc
  | String c rest =>
      let n := Z.of_nat (nat_of_ascii c) in
      if (48 <=? n) && (n <=? 57) then digitsValue (10 * acc + (n - 48)) rest
      else None
  end.

Definition numeral (s : string) : JsNumber :=
  match s with
  | EmptyString => NaN
  | _ => match digitsValue 0 s with
         | Some z => ofZ z
         | None => NaN
         end
  end.

#[export] Instance runtime : Runtime := {|
  StringToNumber s := if String.eqb s "" then ofZ 0 else numeral s;
  parseFloat := numeral;
  NumberToString n :=
    match n with
    | Finite q => pretty (Qnum q)
    | NaN => "NaN"
    | PosInfinity => "Infinity"
    | NegInfinity => "-Infinity"
    end;
  dateValue v :=
    match v with
    | JNum (Finite q) => Some (Qnum q)
    | _ => None
    end
|}.

(** A complete session of the registration form, in 2026: the applicant
    fills the identity step, has the parent number verified by OTP, and walks
    through the seven steps. *)
Import Register.

Definition accepted : FetchOutcome := Responded true (JBool true) JUndefined.

Definition identityStep : list Event := [
  InputChange "studentFullName" "Asha Rao";
  InputChange "gender" "Female";
  InputChange "dateOfBirth" "2007-03-14";
  InputChange "studentContactNo" "9876543210";
  InputChange "studentEmail" "asha.rao@example.com";
  InputChange "parentContactNo" "9123456780";
  SendOtp accepted;
  OtpInput "123456";
  VerifyOtp accepted;
  NextStep 2026
].

Definition addressStep : list Event := [
  InputChange "correspondenceAddress" "12 MG Road";
  InputChange "correspondenceCity" "Bengaluru";
  InputChange "correspondenceState" "Karnataka";
  InputChange "correspondencePostalCode" "560001";
  InputChange "permanentAddress" "4 Temple Street";
  InputChange "permanentCity" "Mysuru";
  InputChange "permanentCountry" "Nepal";
  NextStep 2026
].

Definition remainingSteps : list Event := [
  InputChange "tenthSchoolName" "City High School";
  InputChange "tenthBoardUniversity" "CBSE";
  InputChange "tenthPassedOutYear" "2023";
  InputChange "collegeInstitutionName" "City PU College";
  InputChange "boardUniversity" "State Board";
  InputChange "twelfthPassedOutYear" "2025";
  NextStep 2026;
  InputChange "twelfthTotalMarks" "600";
  InputChange "twelfthScoredMarks" "540";
  InputChange "twelfthPercentage" "90";
  NextStep 2026;
  InputChange "fatherName" "Mohan Rao";
  InputChange "motherName" "Latha Rao";
  InputChange "fatherMobile" "9000000001";
  InputChange "motherMobile" "9000000002";
  NextStep 2026;
  InputChange "department" "Civil Engineering";
  InputChange "programName" "B.Tech";
  InputChange "admissionType" "CET";
  InputChange "juApplication" "JU-2026-0042";
  NextStep 2026
].

Definition session : list Event :=
  identityStep ++ addressStep ++ remainingSteps.

(** The state after the address step, and at the documents step. *)
Definition atAddressStep : State := run (identityStep ++ addressStep).
Definition atDocumentsStep : State := run session.

(** The state in which the applicant has received the code and typed it. *)
Definition codeTyped : State :=
  run [InputChange "parentContactNo" "9123456780"; SendOtp accepted;
       OtpInput "123456"].

Definition sixMegabytes : File :=
  {| fileName := "marks.pdf"; fileType := "application/pdf";
     fileSize := 6 * 1024 * 1024 |}.

Definition spreadsheet : File :=
  {| fileName := "marks.xlsx";
     fileType := "application/vnd.ms-excel";
     fileSize := 2048 |}.

Definition scan : File :=
  {| fileName := "aadhaar.png"; fileType := "image/png"; fileSize := 4 |}.

Definition scanBytes : list Byte.byte := [Byte.x89; Byte.x50; Byte.x4e; Byte.x47].


(** The answer to a successful registration. *)
Definition registered : RegisterOutcome :=
  RegisterResponded true
    {| regSuccess := JBool true; regError := JUndefined;
       regStudentId := JStr "STU-0042";
       regJuApplication := JStr "JU-2026-0042";
       regData := Some {| summaryStudentFullName := JStr "Asha Rao";
                          summaryName := JUndefined;
                          summaryDepartment := JStr "Civil Engineering" |};
       regDocumentUpload := Some (JNum (ofZ 0)) |}.

End Sample.

(** Students and verification maps for the examples of the console. *)
Module SampleConsole.
Import DepartmentAdmin.

Definition asha : Student :=
  {| student_id := JStr "STU-0042"; studentId := JStr "STU-0042";
     name := JStr "Asha Rao"; status := JStr "photo_uploaded";
     attendance := JStr "present";
     admission_slip_generated := JUndefined;
     admission_slip_link := JUndefined |}.

Definition ravi : Student :=
  {| student_id := JStr "STU-0043"; studentId := JStr "STU-0043";
     name := JStr "Ravi Kumar"; status := JStr "photo_uploaded";
     attendance := JStr "absent";
     admission_slip_generated := JUndefined;
     admission_slip_link := JUndefined |}.

Definition meena : Student :=
  {| student_id := JStr "STU-0044"; studentId := JStr "STU-0044";
     name := JStr "Meena Iyer"; status := JStr "documents_verified";
     attendance := JStr "present";
     admission_slip_generated := JBool true;
     admission_slip_link := JStr "https://drive.example/slip-44" |}.

Definition pending : LoadOutcome :=
  LoadResponded true (JBool true) (Some [asha; ravi; meena]).

Definition refreshed : LoadOutcome :=
  LoadResponded true (JBool true) (Some []).

(** The console with Asha's documents open, after the admin has ticked the
    six required documents. *)
Definition allTicked : State :=
  foldl (λ st documentId,
           handleDocumentVerification "2026-07-02T10:00:00.000Z" documentId
             true st)
        (setSelectedStudent (Some asha)
           (loadStudentsForVerification "Civil Engineering" pending initialState))
        ["10th_marksheet"; "12th_marksheet"; "transfer_certificate";
         "character_certificate"; "passport_photos"; "aadhar_card"].

(** The same, with the Aadhar card unticked again. *)
Definition oneMissing : State :=
  handleDocumentVerification "2026-07-02T10:05:00.000Z" "aadhar_card" false
    allTicked.

End SampleConsole.

(** The roster of the queue example: two students of department A waiting
    (the second registered first), one verified student of A, one absent
    student of B, and a student of A whose documents are all verified. *)
Module SampleQueue.
Import QueueDashboard.

(** An engine whose [sort] gives the reference order for every comparator. *)
#[export, refine] Instance engine : ArraySort :=
  {| arraySort := @stableSort |}.
Proof.
  - intros A comparefn l. induction l as [|x l IH]; [done|].
    cbn [stableSort foldr]. fold (stableSort comparefn l).
    transitivity (x :: stableSort comparefn l); [|by constructor].
    generalize (stableSort comparefn l). clear. intros sorted.
    induction sorted as [|y rest IH]; cbn [insertSorted]; [done|].
    destruct (numLt (ofZ 0) (comparefn x y)); [|done].
    rewrite IH. apply Permutation_swap.
  - done.
Defined.

Definition student (id dept : string) (att st : string) (registered : Z)
  : Student :=
  {| studentId := JStr id; name := JStr id; department := dept;
     attendance := JStr att; status := JStr st;
     registrationDate := JNum (ofZ registered) |}.

Definition first : Student := student "S1" "A" "present" "photo_uploaded" 2000.
Definition second : Student := student "S2" "A" "present" "photo_uploaded" 1000.
Definition done : Student := student "S3" "A" "present" "verified" 500.
Definition away : Student := student "S4" "B" "absent" "photo_uploaded" 700.
Definition complete : Student :=
  student "S5" "A" "present" "documents_verified" 300.

Definition roster : list Student := [first; second; done; away; complete].

End SampleQueue.

(** ** String methods used by the search box and the roster fetch *)

Module Strings.

(** [String.prototype.toLowerCase] on one code unit below 256: the letters
    A-Z and the letters U+00C0-U+00DE, the multiplication sign U+00D7
    excepted, move up by 32; every other code unit is its own lower case. *)
Definition toLowerCaseUnit (c : ascii) : ascii :=
  let n := nat_of_ascii c in
  if ((65 <=? n)%nat && (n <=? 90)%nat)
     || ((192 <=? n)%nat && (n <=? 222)%nat && negb (n =? 215)%nat)
  then ascii_of_nat (n + 32)
  else c.

Fixpoint toLowerCase (s : string) : string :=
  match s with
  | EmptyString => EmptyString
  | String c rest => String (toLowerCaseUnit c) (toLowerCase rest)
  end.

(** [s.startsWith(prefix)] *)
Fixpoint startsWith (s prefix : string) : bool :=
  match prefix, s with
  | EmptyString, _ => true
  | String _ _, EmptyString => false
  | String p prefix', String c s' => Ascii.eqb c p && startsWith s' prefix'
  end.

(** [s.includes(search)] *)
Fixpoint includes (s search : string) : bool :=
  startsWith s search ||
  match s with
  | EmptyString => false
  | String _ rest => includes rest search
  end.

End Strings.

(** ** The department console: the modal, the slip button, the search box *)

Module Console.
Import DepartmentAdmin.

(** *** The admission-slip button *)

(** [isStudentVerified] *)
Definition isStudentVerified (student : Student) : bool :=
  strictEqStr (status student) "verified"
  || strictEqStr (status student) "documents_verified".

Record SlipButton := {
  text : string;
  disabled : bool;
  className : string;
  title : string;
  showSpinner : bool
}.

(** [getSlipButtonInfo(student)].  Its two look-ups by [student.student_id]
    are inputs here: [isPrinting] is [printingStudents.has(studentId)] and
    [slip] is [studentSlipStatus[studentId]].  The texts of the button are
    the bytes of the source file. *)
Definition getSlipButtonInfo (isPrinting : bool) (slip : option SlipStatus)
  (student : Student) : SlipButton :=
  let canPrint := isStudentVerified student in
  let slipReady :=
    truthy (orDefault (from_option hasSlip JUndefined slip) (JBool false)) in
  if negb canPrint then
    {| text := "üñ®Ô∏è Generate Slip";
       disabled := true;
       className := "bg-gray-300 text-gray-500 cursor-not-allowed";
       title := "Student must be verified first";
       showSpinner := false |}
  else if isPrinting then
    {| text := if slipReady then "Opening Slip..." else "Generating Slip...";
       disabled := true;
       className := "bg-blue-600 text-white cursor-not-allowed";
       title := if slipReady then "Opening admission slip..."
                else "Generating admission slip...";
       showSpinner := true |}
  else if slipReady then
    {| text := "üìÑ View Slip";
       disabled := false;
       className := "bg-green-600 hover:bg-green-700 text-white";
       title := "View admission slip";
       showSpinner := false |}
  else
    {| text := "üñ®Ô∏è Generate Slip";
       disabled := false;
       className := "bg-blue-600 hover:bg-blue-700 text-white";
       title := "Generate admission slip";
       showSpinner := false |}.

(** *** Opening the verification modal *)

(** [documentLinks]: an object used as a map from backend field names to
    identifiers of stored files. *)
Abbreviation DocumentLinks := (gmap string JsVal).

(** The entries the modal starts from when the stored ones cannot be had. *)
Definition defaultData : VerificationData :=
  foldl (λ acc doc,
           <[docId doc := {| verified := JBool false; notes := JStr "";
                             verifiedAt := JNull; verifiedBy := JNull |}]> acc)
        ∅ documentTypes.

(** The answer to the GET of a student's documents: [DocumentsThrew] when
    the fetch is rejected or the body is not a JSON object; otherwise
    [response.ok], [data.success], [data.data?.documents] ([None] when
    falsy) and [data.links] ([None] when falsy). *)
Inductive DocumentsOutcome :=
  | DocumentsThrew
  | DocumentsResponded (ok : bool) (dataSuccess : JsVal)
      (documents : option VerificationData) (links : option DocumentLinks).

(** What [openVerificationModal(student)] does: [openedFor] is the
    [student_id] its GET request names, [openedState] the console state
    afterwards and [openedLinks] the new value of [documentLinks]. *)
Record Opened := {
  openedFor : JsVal;
  openedState : State;
  openedLinks : DocumentLinks
}.

Definition openVerificationModal (student : Student)
  (outcome : DocumentsOutcome) (st : State) : Opened :=
  let st1 := setSelectedStudent (Some student) st in
  let defaults := (setVerificationData defaultData st1, (∅ : DocumentLinks)) in
  let loaded :=
    match outcome with
    | DocumentsResponded ok dataSuccess documents links =>
        match documents with
        | Some stored =>
            if ok && truthy dataSuccess
            then (setVerificationData stored st1, default ∅ links)
            else defaults
        | None => defaults
        end
    | DocumentsThrew => defaults
    end in
  {| openedFor := student_id student;
     openedState := setShowVerificationModal true loaded.1;
     openedLinks := loaded.2 |}.

(** *** The progress shown in the modal *)

(** [verifiedCount] of [VerificationModal]: the document types, required or
    not, whose entry has [verified === true]. *)
Definition verifiedCount (data : VerificationData) : Z :=
  Z.of_nat (length (List.filter (isVerified data) documentTypes)).

(** *** Viewing a stored document *)

Inductive Viewed :=
  | WindowOpened (url : string)
  | NotAvailable (notice : string).

Section viewing.
Context `{Runtime}.

(** [handleViewDocument(documentId, studentId)]: either a window is opened
    on the stored file, or an error notification is shown. *)
Definition handleViewDocument (documentLinks : DocumentLinks)
  (documentId : string) : Viewed :=
  let documentType :=
    List.find (λ doc, String.eqb (docId doc) documentId) documentTypes in
  let backendField :=
    match documentType with
    | Some doc =>
        if String.eqb (docBackendField doc) "" then documentId
        else docBackendField doc
    | None => documentId
    end in
  let documentName :=
    match documentType with
    | Some doc =>
        if String.eqb (docName doc) "" then documentId else docName doc
    | None => documentId
    end in
  let link := default JUndefined (documentLinks !! backendField) in
  if truthy link then
    WindowOpened ("https://drive.google.com/file/d/" +:+ toStr link
                  +:+ "/view")
  else
    NotAvailable ("Document link not available for " +:+ documentName).

End viewing.

(** *** The search box *)

(** A row of the list: the student and the [email] member of the record,
    which only the search reads. *)
Record Listed := {
  listed : Student;
  email : JsVal
}.

(** [v && v.toLowerCase().includes(query.toLowerCase())]: [None] when
    [v] is truthy and not a string ([toLowerCase] is then not a function
    and the filter throws). *)
Definition fieldMatches (v : JsVal) (searchQuery : string) : option bool :=
  match v with
  | JStr s =>
      Some (negb (String.eqb s "")
            && Strings.includes (Strings.toLowerCase s)
                                (Strings.toLowerCase searchQuery))
  | _ => if truthy v then None else Some false
  end.

(** [a || b] where evaluating either side may throw. *)
Definition orThrowing (a b : option bool) : option bool :=
  match a with
  | Some true => Some true
  | Some false => b
  | None => None
  end.

Definition rowMatches (searchQuery : string) (row : Listed) : option bool :=
  orThrowing (fieldMatches (name (listed row)) searchQuery)
    (orThrowing (fieldMatches (studentId (listed row)) searchQuery)
                (fieldMatches (email row) searchQuery)).

(** [students.filter(...)] with a predicate that may throw. *)
Fixpoint filterThrowing {A} (p : A → option bool) (l : list A)
  : option (list A) :=
  match l with
  | [] => Some []
  | x :: rest =>
      match p x with
      | Some keep =>
          match filterThrowing p rest with
          | Some kept => Some (if keep then x :: kept else kept)
          | None => None
          end
      | None => None
      end
  end.

(** The effect that follows [searchQuery] and [students]: the list handed to
    [setFilteredStudents], or [None] when the filter throws. *)
Definition searchStudents (searchQuery : string) (students : list Listed)
  : option (list Listed) :=
  if String.eqb (trim searchQuery) "" then Some students
  else filterThrowing (rowMatches searchQuery) students.

End Console.

(** ** The queue dashboard: fetching the roster ([fetchStudents]) *)

Module Roster.

(** An object of the [students] array of the answer: the members the
    dashboard reads. *)
Record Entry := {
  studentId : JsVal;
  name : JsVal;
  department : JsVal;
  attendance : JsVal;
  status : JsVal;
  registrationDate : JsVal
}.

(** An element of the array: an object with members, or any other value. *)
Inductive Element :=
  | Other (v : JsVal)
  | Object (entry : Entry).

(** [student && typeof student === 'object' && student.studentId &&
    student.name && student.department]; a value that is not an object with
    members has none of the three. *)
Definition isValid (element : Element) : bool :=
  match element with
  | Other _ => false
  | Object entry =>
      truthy (studentId entry) && truthy (name entry)
      && truthy (department entry)
  end.

(** An exception, by its [name] and [message]. *)
Record Thrown := {
  errorName : string;
  errorMessage : string
}.

(** What [await response.json()] followed by the reading of [data.students]
    gives: an exception (the body is not JSON, or is [null]), or the
    [students] member, [None] when it is not an array. *)
Inductive Body :=
  | BodyThrew (err : Thrown)
  | BodyRead (students : option (list Element)).

(** What the request gives: a rejection (no connection, or the 10-second
    time-out), or a response with its content type ([None] for [null]),
    status and body. *)
Inductive Outcome :=
  | Rejected (err : Thrown)
  | Answered (contentType : option string) (ok : bool) (statusCode : Z)
             (statusText : string) (body : Body).

Record State := {
  students : list Entry;
  loading : bool;
  error : option string
}.

Definition initialState : State :=
  {| students := []; loading := true; error := None |}.

Definition doubleQuote : string := String (ascii_of_nat 34) EmptyString.

Section fetching.
Context `{Runtime}.

(** The [try] block: the valid entries, or the exception thrown. *)
Definition fetched (outcome : Outcome) : Thrown + list Entry :=
  match outcome with
  | Rejected err => inl err
  | Answered contentType ok statusCode statusText body =>
      if match contentType with
         | Some ct =>
             String.eqb ct "" || negb (Strings.includes ct "application/json")
         | None => true
         end
      then inl {| errorName := "Error";
                  errorMessage := "Backend returned non-JSON response" |}
      else if negb ok
      then inl {| errorName := "Error";
                  errorMessage :=
                    "HTTP error! status: " +:+ NumberToString (ofZ statusCode)
                    +:+ " - " +:+ statusText |}
      else
        match body with
        | BodyThrew err => inl err
        | BodyRead None =>
            inl {| errorName := "Error";
                   errorMessage :=
                     "Invalid data format: expected " +:+ doubleQuote
                     +:+ "students" +:+ doubleQuote +:+ " array" |}
        | BodyRead (Some elements) =>
            inr (omap (λ element,
                         match element with
                         | Object entry =>
                             if isValid element then Some entry else None
                         | Other _ => None
                         end) elements)
        end
  end.

(** The [catch] block: the text handed to [setError]. *)
Definition errorText (err : Thrown) : string :=
  if String.eqb (errorName err) "TimeoutError"
  then "Backend connection timeout"
  else if String.eqb (errorName err) "TypeError"
          && Strings.includes (errorMessage err) "Failed to fetch"
  then "Cannot connect to backend server"
  else "Backend error: " +:+ errorMessage err.

(** The synchronous start of [fetchStudents]: [setLoading(true)] and
    [setError(null)], before the first [await]. *)
Definition fetchStarted (st : State) : State :=
  {| students := students st; loading := true; error := None |}.

(** The settlement of a call of [fetchStudents], from the end of its last
    [await] to the [finally].  The success path sets the students and leaves
    the error as it finds it; the [catch] sets the error and empties the
    students. *)
Definition fetchSettled (outcome : Outcome) (st : State) : State :=
  let st1 :=
    match fetched outcome with
    | inr validStudents =>
        {| students := validStudents; loading := loading st;
           error := error st |}
    | inl err =>
        {| students := []; loading := loading st;
           error := Some (errorText err) |}
    end in
  {| students := students st1; loading := false; error := error st1 |}.

(** A call of [fetchStudents] between whose start and settlement no other
    call starts or settles. *)
Definition fetchStudents (outcome : Outcome) (st : State) : State :=
  fetchSettled outcome (fetchStarted st).

(** The dashboard starts a call when it mounts, every five seconds, and on
    "Refresh" and "Retry"; a call settles within its ten-second time-out,
    so the calls overlap and settle in any order. *)
Inductive Event :=
  | Started
  | Settled (outcome : Outcome).

Definition step (st : State) (e : Event) : State :=
  match e with
  | Started => fetchStarted st
  | Settled outcome => fetchSettled outcome st
  end.

Definition run (events : list Event) : State := foldl step initialState events.

End fetching.

(** The two screens the dashboard can show in place of the queues. *)
Definition showsErrorScreen (st : State) : bool :=
  match error st with
  | Some text => negb (String.eqb text "") && (length (students st) =? 0)%nat
  | None => false
  end.

End Roster.

(** ** Further inputs for the worked examples *)

Module SampleCases.
Import Sample.

(** The registration form with the parent's number typed, before any code
    is sent. *)
Definition numberTyped : Register.State :=
  Register.run [Register.InputChange "parentContactNo" "9123456780"].

(** The form of the complete session, with the two passed-out years typed
    as words. *)
Definition vagueYears : Register.FormData :=
  <["tenthPassedOutYear" := Register.FStr "soon"]>
    (<["twelfthPassedOutYear" := Register.FStr "later"]>
       (Register.formData atDocumentsStep)).

(** The six required documents, from the last to the first. *)
Definition requiredBackwards : list string :=
  ["aadhar_card"; "passport_photos"; "character_certificate";
   "transfer_certificate"; "12th_marksheet"; "10th_marksheet"].

(** A verification map with six ticks that is not complete: the four
    optional documents and two of the required ones. *)
Definition sixOfTen : DepartmentAdmin.VerificationData :=
  DepartmentAdmin.verificationData
    (foldl (λ st documentId,
              DepartmentAdmin.handleDocumentVerification
                "2026-07-02T10:00:00.000Z" documentId true st)
           DepartmentAdmin.initialState
           ["caste_certificate"; "income_certificate"; "domicile_certificate";
            "migration_certificate"; "10th_marksheet"; "12th_marksheet"]).

(** A student as the backend lists it for the console, under the key
    [student_id] only, and the console with this student's documents open,
    the six required documents ticked. *)
Definition keyedByStudentId : DepartmentAdmin.Student :=
  {| DepartmentAdmin.student_id := JStr "STU-0045";
     DepartmentAdmin.studentId := JUndefined;
     DepartmentAdmin.name := JStr "Kiran Patil";
     DepartmentAdmin.status := JStr "photo_uploaded";
     DepartmentAdmin.attendance := JStr "present";
     DepartmentAdmin.admission_slip_generated := JUndefined;
     DepartmentAdmin.admission_slip_link := JUndefined |}.

Definition keyedTicked : DepartmentAdmin.State :=
  foldl (λ st documentId,
           DepartmentAdmin.handleDocumentVerification
             "2026-07-02T10:00:00.000Z" documentId true st)
        (DepartmentAdmin.setSelectedStudent (Some keyedByStudentId)
           (DepartmentAdmin.loadStudentsForVerification "Civil Engineering"
              (DepartmentAdmin.LoadResponded true (JBool true)
                 (Some [keyedByStudentId]))
              DepartmentAdmin.initialState))
        ["10th_marksheet"; "12th_marksheet"; "transfer_certificate";
         "character_certificate"; "passport_photos"; "aadhar_card"].

(** Rows of the console's list: one without e-mail. *)
Definition ashaRow : Console.Listed :=
  {| Console.listed := SampleConsole.asha;
     Console.email := JStr "asha.rao@example.com" |}.

Definition raviRow : Console.Listed :=
  {| Console.listed := SampleConsole.ravi; Console.email := JUndefined |}.

Definition meenaRow : Console.Listed :=
  {| Console.listed := SampleConsole.meena;
     Console.email := JStr "meena@example.com" |}.

Definition rows : list Console.Listed := [ashaRow; raviRow; meenaRow].

(** An answer of the students endpoint: one complete record, one without
    department, and an element that is not an object. *)
Definition complete : Roster.Entry :=
  {| Roster.studentId := JStr "S1"; Roster.name := JStr "Asha Rao";
     Roster.department := JStr "Civil Engineering";
     Roster.attendance := JStr "present";
     Roster.status := JStr "photo_uploaded";
     Roster.registrationDate := JStr "2026-07-01T09:30:00.000Z" |}.

Definition noDepartment : Roster.Entry :=
  {| Roster.studentId := JStr "S2"; Roster.name := JStr "Ravi Kumar";
     Roster.department := JUndefined;
     Roster.attendance := JStr "present";
     Roster.status := JStr "photo_uploaded";
     Roster.registrationDate := JStr "2026-07-01T09:40:00.000Z" |}.

Definition answer : Roster.Outcome :=
  Roster.Answered (Some "application/json; charset=utf-8") true 200 "OK"
    (Roster.BodyRead
       (Some [Roster.Object complete; Roster.Object noDepartment;
              Roster.Other JNull])).

Definition gatewayPage : Roster.Outcome :=
  Roster.Answered (Some "text/html") false 502 "Bad Gateway"
    (Roster.BodyThrew {| Roster.errorName := "SyntaxError";
                         Roster.errorMessage := "Unexpected token <" |}).

(** The rejection of a call that cannot reach the server. *)
Definition unreachable : Roster.Outcome :=
  Roster.Rejected {| Roster.errorName := "TypeError";
                     Roster.errorMessage := "Failed to fetch" |}.

(** A roster in which two students of department A registered at the same
    time, after a third. *)
Definition third : QueueDashboard.Student :=
  SampleQueue.student "S6" "A" "present" "photo_uploaded" 2000.

Definition twins : list QueueDashboard.Student :=
  [SampleQueue.first; SampleQueue.second; third].

(** A student in the queue of a department named like a member of
    [Object.prototype], whose documents are verified. *)
Definition inheritedName : QueueDashboard.Student :=
  SampleQueue.student "S7" "constructor" "present" "documents_verified" 900.

Definition inheritedRoster : list QueueDashboard.Student :=
  [SampleQueue.first; inheritedName].



Definition registeredAt (t : Z) (student : QueueDashboard.Student) : bool :=
  bool_decide (dateValue (QueueDashboard.registrationDate student) = Some t).

End SampleCases.

(** * Properties *)

(** ** Values *)

Module JSFacts.

(** Membership of a literal in a literal list. *)
Ltac in_list :=
  repeat first [apply list_elem_of_here | apply list_elem_of_further].

Lemma strictEqStr_true v lit : strictEqStr v lit = true ↔ v = JStr lit.
Proof.
  destruct v; simpl; try (split; [discriminate | congruence]).
  rewrite String.eqb_eq. split; congruence.
Qed.


Lemma strictEqTrue_true v : strictEqTrue v = true ↔ v = JBool true.
Proof.
  destruct v as [| |[]| | |]; simpl; split; congruence.
Qed.

Lemma trim_empty : trim "" = "".
Proof. reflexivity. Qed.

(** A string is blank after trimming exactly when it is made of white space
    only. *)
Lemma trimStart_empty s :
  trimStart s = "" ↔ Regex.allIn isWhiteSpace s = true.
Proof.
  induction s as [|c s IH]; simpl; [done|].
  destruct (isWhiteSpace c); simpl; [done|]. split; discriminate.
Qed.

Lemma trimStart_allIn s :
  Regex.allIn isWhiteSpace (trimStart s) = true → trimStart s = "".
Proof.
  induction s as [|c s IH]; simpl; [done|].
  destruct (isWhiteSpace c) eqn:Hc; [done|]. simpl. by rewrite Hc.
Qed.

Lemma allIn_rev_app p s1 s2 :
  Regex.allIn p (String.rev_app s1 s2)
  = Regex.allIn p s1 && Regex.allIn p s2.
Proof.
  revert s2. induction s1 as [|c s1 IH]; intros s2; simpl; [done|].
  rewrite IH. simpl. by destruct (p c), (Regex.allIn p s1).
Qed.

Lemma rev_app_empty s1 s2 : String.rev_app s1 s2 = "" → s1 = "" ∧ s2 = "".
Proof.
  revert s2. induction s1 as [|c s1 IH]; intros s2; simpl; [done|].
  intros [_ [=]]%IH.
Qed.

Lemma trim_blank s : trim s = "" ↔ Regex.allIn isWhiteSpace s = true.
Proof.
  rewrite <- trimStart_empty. unfold trim, trimEnd, String.rev. split.
  - intros [Hrev _]%rev_app_empty.
    apply trimStart_empty in Hrev.
    rewrite allIn_rev_app, andb_true_r in Hrev.
    by apply trimStart_allIn.
  - by intros ->.
Qed.

Lemma join_cons_ne sep p q rest :
  join sep (p :: q :: rest) = p +:+ sep +:+ join sep (q :: rest).
Proof. reflexivity. Qed.

End JSFacts.

(** ** Regular expressions: matching by derivatives is matching *)

Module RegexFacts.
Import Regex.

Lemma append_empty_inv (s1 s2 : string) : s1 +:+ s2 = "" → s1 = "" ∧ s2 = "".
Proof. destruct s1; [done | discriminate]. Qed.

Lemma nullable_spec r : nullable r = true ↔ Denotes r "".
Proof.
  split.
  - induction r; simpl; intros Hn; try discriminate.
    + constructor.
    + apply andb_true_iff in Hn as [H1 H2].
      apply (DenotesCat _ _ "" ""); auto.
    + apply orb_true_iff in Hn as [H1|H2];
        [apply DenotesAltL | apply DenotesAltR]; auto.
    + constructor.
  - intros Hd. remember "" as s eqn:Es.
    induction Hd; simpl; try done.
    + apply append_empty_inv in Es as [-> ->]. rewrite IHHd1, IHHd2; done.
    + by rewrite IHHd.
    + rewrite IHHd by done. apply orb_true_r.
Qed.

Lemma deriv_sound c r : ∀ s, Denotes (deriv c r) s → Denotes r (String c s).
Proof.
  induction r as [| |p|r1 IH1 r2 IH2|r1 IH1 r2 IH2|r1 IH1]; simpl; intros s Hd.
  - inversion Hd.
  - inversion Hd.
  - destruct (p c) eqn:Hp; inversion Hd; subst. by constructor.
  - assert (∀ s, Denotes (Cat (deriv c r1) r2) s →
                 Denotes (Cat r1 r2) (String c s)) as Hcat.
    { intros s' Hs'. inversion Hs'; subst.
      apply (DenotesCat r1 r2 (String c s1) s2); auto. }
    destruct (nullable r1) eqn:Hn; [|by apply Hcat].
    inversion Hd; subst; [by apply Hcat|].
    apply (DenotesCat r1 r2 "" (String c s)); [|auto].
    by apply nullable_spec.
  - inversion Hd; subst; [apply DenotesAltL | apply DenotesAltR]; auto.
  - inversion Hd; subst.
    apply (DenotesStarCons r1 (String c s1) s2); auto.
Qed.

Lemma deriv_complete c r s' :
  Denotes r s' → ∀ s, s' = String c s → Denotes (deriv c r) s.
Proof.
  induction 1 as [|p c0 Hp|r1 r2 s1 s2 H1 IH1 H2 IH2|r1 r2 s0 H1 IH1
                  |r1 r2 s0 H2 IH2| |r1 s1 s2 H1 IH1 H2 IH2];
    intros s Es; simpl.
  - discriminate.
  - injection Es as -> <-. rewrite Hp. constructor.
  - destruct s1 as [|c1 s1].
    + apply nullable_spec in H1. rewrite H1.
      apply DenotesAltR. apply IH2. exact Es.
    + change (String c1 (s1 +:+ s2) = String c s) in Es.
      injection Es as -> <-.
      assert (Denotes (Cat (deriv c r1) r2) (s1 +:+ s2)) as Hcat
        by (constructor; auto).
      destruct (nullable r1); [by apply DenotesAltL | done].
  - apply DenotesAltL. by apply IH1.
  - apply DenotesAltR. by apply IH2.
  - discriminate.
  - destruct s1 as [|c1 s1].
    + apply IH2. exact Es.
    + change (String c1 (s1 +:+ s2) = String c s) in Es.
      injection Es as -> <-. constructor; auto.
Qed.

(** [matches] decides membership in the language of the expression. *)
Lemma matches_spec r s : matches r s = true ↔ Denotes r s.
Proof.
  revert r. induction s as [|c s IH]; intros r; simpl.
  - apply nullable_spec.
  - rewrite IH. split; [apply deriv_sound|].
    intros Hd. by eapply deriv_complete.
Qed.

(** [[...]+]: one or more code units of the class. *)
Lemma Denotes_Star_Class p s : Denotes (Star (Class p)) s ↔ allIn p s = true.
Proof.
  split.
  - intros Hd. remember (Star (Class p)) as r eqn:Er.
    induction Hd; try discriminate; [done|].
    injection Er as ->. inversion Hd1 as [|p' c Hc| | | | |]; subst.
    change (p c && allIn p s2 = true).
    rewrite IHHd2 by done. by rewrite andb_true_r.
  - induction s as [|c s IH]; simpl; [constructor|].
    intros [Hc Hs]%andb_true_iff.
    apply (DenotesStarCons (Class p) (String c "") s); [by constructor|auto].
Qed.

Lemma Denotes_Plus_Class p s :
  Denotes (Plus (Class p)) s ↔ s ≠ "" ∧ allIn p s = true.
Proof.
  unfold Plus. split.
  - intros Hd. inversion Hd as [| |r1 r2 s1 s2 H1 H2| | | |]; subst.
    inversion H1 as [|p' c Hc| | | | |]; subst.
    apply Denotes_Star_Class in H2.
    change (String c s2 ≠ "" ∧ p c && allIn p s2 = true).
    rewrite H2, andb_true_r. done.
  - destruct s as [|c s]; [by intros [??]|]. simpl.
    intros [_ [Hc Hs]%andb_true_iff].
    apply (DenotesCat (Class p) (Star (Class p)) (String c "") s);
      [by constructor | by apply Denotes_Star_Class].
Qed.

End RegexFacts.

(** ** The registration component *)

Module RegisterFacts.
Import Register JSFacts.

(** *** Step validation *)

Example emailRegex_accepts : emailRegex_test "asha@example.co.in" = true.
Proof. reflexivity. Qed.

Example emailRegex_rejects_no_dot : emailRegex_test "asha@example" = false.
Proof. reflexivity. Qed.

Example emailRegex_rejects_space : emailRegex_test "as ha@example.com" = false.
Proof. reflexivity. Qed.

Example emailRegex_rejects_two_at : emailRegex_test "a@b@example.com" = false.
Proof. reflexivity. Qed.

(** [emailRegex] accepts exactly the strings [local@domain.tld] whose three
    parts are non-empty and hold neither white space nor "@" (the domain and
    the last part may hold further dots). *)
Lemma emailRegex_test_spec s :
  emailRegex_test s = true
  ↔ ∃ localPart domain tld,
      s = localPart +:+ String "@" (domain +:+ String "." tld)
      ∧ (localPart ≠ "" ∧ Regex.allIn notSpaceNorAt localPart = true)
      ∧ (domain ≠ "" ∧ Regex.allIn notSpaceNorAt domain = true)
      ∧ (tld ≠ "" ∧ Regex.allIn notSpaceNorAt tld = true).
Proof.
  unfold emailRegex_test, emailRegex. rewrite RegexFacts.matches_spec. split.
  - intros Hd.
    inversion Hd as [| |r1 r2 localPart rest1 Hlocal Hrest1| | | |]; subst.
    inversion Hrest1 as [| |r1 r2 at_ rest2 Hat Hrest2| | | |]; subst.
    inversion Hat as [|p c Hc| | | | |]; subst.
    inversion Hrest2 as [| |r1 r2 domain rest3 Hdomain Hrest3| | | |]; subst.
    inversion Hrest3 as [| |r1 r2 dot tld Hdot Htld| | | |]; subst.
    inversion Hdot as [|p c' Hc'| | | | |]; subst.
    apply Ascii.eqb_eq in Hc, Hc'. subst c c'.
    exists localPart, domain, tld.
    by rewrite <- !RegexFacts.Denotes_Plus_Class.
  - intros (localPart & domain & tld & -> & Hlocal & Hdomain & Htld).
    apply RegexFacts.Denotes_Plus_Class in Hlocal, Hdomain, Htld.
    apply Regex.DenotesCat; [done|].
    apply (Regex.DenotesCat _ _ (String "@" "")).
    { constructor. apply Ascii.eqb_refl. }
    apply Regex.DenotesCat; [done|].
    apply (Regex.DenotesCat _ _ (String "." "")); [|done].
    constructor. apply Ascii.eqb_refl.
Qed.

Lemma isMissing_spec value : isMissing value = true ↔ MissingOrBlank value.
Proof.
  unfold isMissing, MissingOrBlank.
  destruct value as [[|s|f]|]; simpl.
  - split; [intros _; right; left; reflexivity | reflexivity].
  - rewrite negb_involutive, orb_true_iff, !String.eqb_eq. split.
    + intros [-> | Ht]; right; right; eexists; eauto.
    + intros [?|[?|(s' & Hs & Ht)]]; try discriminate.
      injection Hs as <-. by right.
  - split; [discriminate|].
    intros [?|[?|(s' & Hs & _)]]; discriminate.
  - split; [intros _; by left | reflexivity].
Qed.

Lemma isMissing_false value : isMissing value = false ↔ ¬ MissingOrBlank value.
Proof.
  rewrite <- isMissing_spec. destruct (isMissing value); split; congruence.
Qed.

Lemma elem_of_missingFields fd required field :
  field ∈ missingFields fd required
  ↔ field ∈ required ∧ MissingOrBlank (fd !! field).
Proof.
  unfold missingFields.
  rewrite !list_elem_of_In, filter_In, isMissing_spec. reflexivity.
Qed.

Lemma missingFields_nil fd required :
  missingFields fd required = []
  ↔ ∀ field, field ∈ required → ¬ MissingOrBlank (fd !! field).
Proof.
  split.
  - intros Hnil field Hin Hblank.
    assert (field ∈ missingFields fd required) as Hm
      by (apply elem_of_missingFields; done).
    rewrite Hnil in Hm. by apply not_elem_of_nil in Hm.
  - intros Hall. destruct (missingFields fd required) as [|field rest] eqn:E; [done|].
    assert (field ∈ missingFields fd required) as Hm by (rewrite E; left).
    apply elem_of_missingFields in Hm as [Hin Hblank].
    by destruct (Hall field Hin).
Qed.

Lemma orElse_None a b : a <|> b = None ↔ a = None ∧ b = None.
Proof. destruct a, b; simpl; split; (intros [??] || intros ?); try done. Qed.

Lemma orElse_Some_l e b : Some e <|> b = Some e.
Proof. reflexivity. Qed.

Lemma orElse_None_l b : None <|> b = b.
Proof. reflexivity. Qed.

(** Every required field has a human-readable label. *)
Lemma required_fields_labelled stepIndex field :
  field ∈ requiredFields stepIndex → (field, labelOf field) ∈ fieldLabels.
Proof.
  unfold requiredFields.
  destruct (stepIndex <? 0); [by intros ?%not_elem_of_nil|].
  destruct (Z.to_nat stepIndex) as [|[|[|[|[|[|[|n]]]]]]]; simpl;
    rewrite ?elem_of_cons, ?elem_of_nil;
    intros Hin; repeat destruct Hin as [->|Hin]; try done;
    apply list_elem_of_In; vm_compute; tauto.
Qed.

Section validateStep_facts.
Context `{Runtime}.

Lemma validateStep_unfold currentYear fd otpVerified stepIndex :
  validateStep currentYear fd otpVerified stepIndex =
  stepRules currentYear fd otpVerified stepIndex
  <|> match missingFields fd (requiredFields stepIndex) with
      | [] => None
      | missing => Some (missingFieldsMessage missing)
      end.
Proof.
  unfold validateStep.
  by destruct (missingFields fd (requiredFields stepIndex)).
Qed.

(** C4. For every form snapshot and every step index from 0 to 6:
    [validateStep] returns an error as soon as one required field of the
    step is missing or blank after trimming; it returns [null] when no
    required field is missing or blank and the step's additional rules pass;
    and the verdict on missing fields (given when the additional rules of
    the step pass) is the single message "Please fill in the following
    required fields: " followed by the labels of all the missing fields, in
    the order of the step's list, joined by ", ". Every required field has a
    label of its own in [fieldLabels]. *)
Theorem validateStep_verdict currentYear (fd : FormData) (otpVerified : bool)
    (stepIndex : Z) :
  0 ≤ stepIndex ≤ 6 →
  let verdict := validateStep currentYear fd otpVerified stepIndex in
  let required := requiredFields stepIndex in
  let rules := stepRules currentYear fd otpVerified stepIndex in
  ((∃ field, field ∈ required ∧ MissingOrBlank (fd !! field)) →
     verdict ≠ None)
  ∧ ((∀ field, field ∈ required → ¬ MissingOrBlank (fd !! field)) →
     rules = None → verdict = None)
  ∧ ((∃ field, field ∈ required ∧ MissingOrBlank (fd !! field)) →
     rules = None →
     verdict = Some ("Please fill in the following required fields: "
                     +:+ join ", " (map labelOf (missingFields fd required))))
  ∧ (∀ field, field ∈ missingFields fd required
              ↔ field ∈ required ∧ MissingOrBlank (fd !! field))
  ∧ (∀ field, field ∈ required → (field, labelOf field) ∈ fieldLabels).
Proof.
  intros _ verdict required rules. subst verdict required rules.
  rewrite validateStep_unfold.
  split_and!.
  - intros (field & Hin & Hblank).
    destruct (stepRules _ _ _ _); [done|]. simpl.
    destruct (missingFields fd (requiredFields stepIndex)) eqn:E; [|done].
    exfalso. by eapply missingFields_nil.
  - intros Hall ->. simpl.
    apply missingFields_nil in Hall. by rewrite Hall.
  - intros (field & Hin & Hblank) ->. simpl.
    destruct (missingFields fd (requiredFields stepIndex)) eqn:E; [|done].
    exfalso. by eapply missingFields_nil.
  - intros field. apply elem_of_missingFields.
  - apply required_fields_labelled.
Qed.

(** The documents step has no required field and no additional rule. *)
Lemma validateStep_documents currentYear fd otpVerified :
  validateStep currentYear fd otpVerified 6 = None.
Proof. reflexivity. Qed.

(** No verdict of [validateStep] is the empty string, so [if (error)] tells
    an error from [null]. *)
Lemma validateStep_truthy currentYear fd otpVerified stepIndex :
  errorTruthy (validateStep currentYear fd otpVerified stepIndex)
  = bool_decide (validateStep currentYear fd otpVerified stepIndex ≠ None).
Proof.
  rewrite validateStep_unfold. unfold stepRules.
  unfold basicInfoRules, academicRules, marksRules, familyRules, failIf.
  repeat match goal with
         | |- context [if ?c then _ else _] => destruct c; simpl; try done
         end;
  destruct (missingFields fd (requiredFields stepIndex)); done.
Qed.

End validateStep_facts.

(** *** Step navigation *)

Section navigation_facts.
Context `{Runtime}.

Lemma nextStep_currentStep currentYear st :
  currentStep (nextStep currentYear st) = currentStep st
  ∨ (currentStep st < 6
     ∧ validateCurrentStep currentYear st = None
     ∧ currentStep (nextStep currentYear st) = currentStep st + 1).
Proof.
  unfold nextStep, validateCurrentStep. rewrite validateStep_truthy.
  case_bool_decide as Hv; simpl; [by left|].
  destruct (currentStep st <? _) eqn:E; simpl; [|by left].
  right. apply Z.ltb_lt in E. simpl in E.
  split_and!; [lia | | done].
  by destruct (validateStep _ _ _ _); [destruct Hv|].
Qed.

Lemma prevStep_currentStep st :
  (currentStep st ≤ 0 ∧ prevStep st = st)
  ∨ (0 < currentStep st ∧ currentStep (prevStep st) = currentStep st - 1).
Proof.
  unfold prevStep. destruct (0 <? currentStep st) eqn:E; simpl.
  - right. apply Z.ltb_lt in E. done.
  - left. apply Z.ltb_ge in E. done.
Qed.

(** The handlers other than [nextStep] and [prevStep] never write
    [currentStep]. *)
Lemma step_currentStep_other st e :
  (∀ y, e ≠ NextStep y) → e ≠ PrevStep →
  currentStep (step st e) = currentStep st.
Proof.
  intros Hnext Hprev. destruct e; simpl; try done.
  - unfold toggleSameAsCorrespondence, copyCorrespondenceAddress.
    destruct (Bool.eqb _ _); [done|]. simpl. by destruct checked.
  - by destruct (Hnext currentYear).
  - unfold sendOtp.
    destruct (formData st !! "parentContactNo") as [[| |]|];
      repeat (simpl; match goal with
                     | |- context [if ?c then _ else _] => destruct c
                     | |- context [match ?o with Threw => _ | _ => _ end] =>
                         destruct o
                     end); done.
  - unfold verifyOtp.
    repeat (simpl; match goal with
                   | |- context [if ?c then _ else _] => destruct c
                   | |- context [match ?o with Threw => _ | _ => _ end] =>
                       destruct o
                   end); done.
  - unfold resendOtp, sendOtp. destruct (canResendOtp _); [|done]. simpl.
    destruct (formData st !! "parentContactNo") as [[| |]|];
      repeat (simpl; match goal with
                     | |- context [if ?c then _ else _] => destruct c
                     | |- context [match ?o with Threw => _ | _ => _ end] =>
                         destruct o
                     end); done.
  - unfold otpTick.
    repeat (simpl; match goal with
                   | |- context [if ?c then _ else _] => destruct c
                   end); done.
  - unfold handleFileUpload. destruct file as [file|]; [|done].
    repeat (simpl; match goal with
                   | |- context [if ?c then _ else _] => destruct c
                   end); try done.
    by destruct read.
  - unfold handleRegistration.
    destruct (loading st); [done|].
    destruct (errorTruthy _); [done|].
    destruct (formData st !! "juApplication") as [[| |]|]; try done;
      (destruct (isMissing _); [done|]); simpl;
      destruct outcome as [|ok data]; try done;
      (destruct (ok && truthy (regSuccess data)); [|done]);
      by destruct (regData data).
Qed.

Lemma step_keeps_range st e :
  0 ≤ currentStep st ≤ 6 → 0 ≤ currentStep (step st e) ≤ 6.
Proof.
  intros Hrange.
  destruct e; try (rewrite step_currentStep_other; done); simpl.
  - destruct (nextStep_currentStep currentYear st) as [->|(? & _ & ->)]; lia.
  - destruct (prevStep_currentStep st) as [[_ ->]|[? ->]]; lia.
Qed.

Lemma foldl_step_keeps_range events st :
  0 ≤ currentStep st ≤ 6 → 0 ≤ currentStep (foldl step st events) ≤ 6.
Proof.
  revert st. induction events as [|e events IH]; intros st Hrange; [done|].
  simpl. apply IH, step_keeps_range, Hrange.
Qed.

(** C5. Whatever the user does (any sequence of events of the component,
    and so any sequence of [nextStep] and [prevStep] calls, with any edits
    of the form between them), [currentStep] stays between 0 and 6.  From
    such a state [nextStep] leaves the index where it is or adds one to it,
    without passing 6 nor going below 0, and [prevStep] leaves it where it
    is or takes one from it, without going below 0. *)
Theorem currentStep_in_range (events : list Event) (currentYear : Z) :
  let st := run events in
  0 ≤ currentStep st ≤ 6
  ∧ currentStep st ≤ currentStep (nextStep currentYear st) ≤ currentStep st + 1
  ∧ 0 ≤ currentStep (nextStep currentYear st) ≤ 6
  ∧ currentStep st - 1 ≤ currentStep (prevStep st) ≤ currentStep st
  ∧ 0 ≤ currentStep (prevStep st) ≤ 6.
Proof.
  intros st.
  assert (0 ≤ currentStep st ≤ 6) as Hrange.
  { apply foldl_step_keeps_range. simpl. lia. }
  pose proof (step_keeps_range st (NextStep currentYear) Hrange) as Hnext.
  pose proof (step_keeps_range st PrevStep Hrange) as Hprev.
  simpl in Hnext, Hprev.
  destruct (nextStep_currentStep currentYear st) as [En|(? & _ & En)];
    destruct (prevStep_currentStep st) as [[? Ep]|[? Ep]];
    rewrite ?En, ?Ep in *; lia.
Qed.

End navigation_facts.

(** The sample session walks from the identity step to the documents step. *)
Example session_reaches_documents :
  currentStep Sample.atAddressStep = 2 ∧ currentStep Sample.atDocumentsStep = 6.
Proof. split; vm_compute; reflexivity. Qed.

(** *** Address mirroring *)

Lemma lookup_assign key value (fd : FormData) key' :
  assign key value fd !! key' = if decide (key = key') then value else fd !! key'.
Proof.
  unfold assign. destruct value.
  - apply lookup_insert.
  - rewrite lookup_delete. by case_decide.
Qed.

Lemma copyCorrespondenceAddress_lookup st key :
  formData (copyCorrespondenceAddress st) !! key =
  let prev := formData st in
  if sameAsCorrespondence st then
    if decide (key = "permanentPostalCode") then prev !! "correspondencePostalCode"
    else if decide (key = "permanentCountry") then prev !! "correspondenceCountry"
    else if decide (key = "permanentState") then prev !! "correspondenceState"
    else if decide (key = "permanentCity") then prev !! "correspondenceCity"
    else if decide (key = "permanentAddress") then prev !! "correspondenceAddress"
    else prev !! key
  else
    if decide (key = "permanentPostalCode") then Some (FStr "")
    else if decide (key = "permanentCountry") then Some (FStr "India")
    else if decide (key = "permanentState") then Some (FStr "")
    else if decide (key = "permanentCity") then Some (FStr "")
    else if decide (key = "permanentAddress") then Some (FStr "")
    else prev !! key.
Proof.
  unfold copyCorrespondenceAddress.
  destruct (sameAsCorrespondence st); cbn [formData setFormData];
    rewrite !lookup_assign; repeat case_decide; congruence.
Qed.

Lemma toggleSameAsCorrespondence_changed checked st :
  sameAsCorrespondence st = negb checked →
  toggleSameAsCorrespondence checked st
  = copyCorrespondenceAddress (setSameAsCorrespondence checked st).
Proof.
  intros Hflag. unfold toggleSameAsCorrespondence. rewrite Hflag.
  by destruct checked.
Qed.

(** C6. As the code has it: ticking "Same as correspondence address" copies
    the five correspondence fields (address, city, state, country, postal
    code) into the five permanent fields and changes no other field of the
    form.  Unticking it does not restore what the permanent fields held
    before: it sets the permanent address, city, state and postal code to
    the empty string and the permanent country to its initial value
    "India", and changes no other field of the form. *)
Theorem mirror_toggle (checked : bool) (st : State) :
  sameAsCorrespondence st = negb checked →
  let st' := toggleSameAsCorrespondence checked st in
  let before := formData st in
  let after := formData st' in
  sameAsCorrespondence st' = checked
  ∧ (∀ key, key ∉ permanentFields → after !! key = before !! key)
  ∧ (if checked then
       after !! "permanentAddress" = before !! "correspondenceAddress"
       ∧ after !! "permanentCity" = before !! "correspondenceCity"
       ∧ after !! "permanentState" = before !! "correspondenceState"
       ∧ after !! "permanentCountry" = before !! "correspondenceCountry"
       ∧ after !! "permanentPostalCode" = before !! "correspondencePostalCode"
     else
       after !! "permanentAddress" = Some (FStr "")
       ∧ after !! "permanentCity" = Some (FStr "")
       ∧ after !! "permanentState" = Some (FStr "")
       ∧ after !! "permanentCountry" = Some (FStr "India")
       ∧ after !! "permanentPostalCode" = Some (FStr "")).
Proof.
  intros Hflag st' before after. subst st' before after.
  rewrite toggleSameAsCorrespondence_changed by done.
  split_and!.
  - unfold copyCorrespondenceAddress. by destruct checked.
  - intros key Hkey. rewrite copyCorrespondenceAddress_lookup. simpl.
    unfold permanentFields in Hkey.
    rewrite !not_elem_of_cons in Hkey. destruct Hkey as (?&?&?&?&?&_).
    destruct checked; repeat case_decide; done.
  - destruct checked; rewrite !copyCorrespondenceAddress_lookup; done.
Qed.

(** *** OTP verification *)

Lemma trimStart_empty_rev s : trimStart s = "" → trim s = "".
Proof. unfold trim. intros ->. reflexivity. Qed.

Lemma isBlank_spec s : isBlank s = true ↔ trim s = "".
Proof.
  unfold isBlank. rewrite orb_true_iff, !String.eqb_eq. split.
  - intros [->|?]; done.
  - by right.
Qed.

Lemma isBlank_false s : isBlank s = false ↔ trim s ≠ "".
Proof.
  rewrite <- isBlank_spec. destruct (isBlank s); split; congruence.
Qed.

Lemma verifyOtp_flag outcome st :
  otpVerified (otpState (verifyOtp outcome st))
  = otpVerified (otpState st)
    || (negb (isBlank (otp (otpState st))) && succeeded outcome).
Proof.
  unfold verifyOtp. destruct (isBlank _); simpl.
  { by rewrite orb_false_r. }
  destruct outcome as [|ok dataSuccess dataError]; simpl.
  { by rewrite orb_false_r. }
  destruct (ok && truthy dataSuccess); simpl;
    by rewrite ?orb_true_r, ?orb_false_r.
Qed.

Lemma verifyOtp_requests outcome st :
  requests (verifyOtp outcome st)
  = if isBlank (otp (otpState st)) then requests st
    else requests st
         ++ [PostVerifyOtp (parentPhoneNumber st) (otp (otpState st))].
Proof.
  unfold verifyOtp. destruct (isBlank _); [done|].
  destruct outcome as [|ok dataSuccess dataError]; simpl; [done|].
  by destruct (ok && truthy dataSuccess).
Qed.

(** C7. [verifyOtp] does nothing but ask for the code when the code is blank
    (no request is sent); with a non-blank code it sends the verification
    request, and the verified flag, false before the call, is true after it
    exactly when the endpoint answered with an OK status and a [success]
    member that is truthy ([success: true], and any other truthy value).
    When the server reports a failure (a status that is not OK, or a falsy
    [success] member), or when the call fails, the flag is still false. *)
Theorem verifyOtp_verified (outcome : FetchOutcome) (st : State) :
  otpVerified (otpState st) = false →
  let code := otp (otpState st) in
  let st' := verifyOtp outcome st in
  (otpVerified (otpState st') = true
   ↔ trim code ≠ ""
     ∧ ∃ dataSuccess dataError,
         outcome = Responded true dataSuccess dataError
         ∧ truthy dataSuccess = true)
  ∧ (trim code = "" →
     requests st' = requests st ∧ message st' = JStr "Please enter the OTP")
  ∧ (trim code ≠ "" →
     requests st' = requests st ++ [PostVerifyOtp (parentPhoneNumber st) code])
  ∧ (trim code ≠ "" → ∀ dataError,
     outcome = Responded true (JBool true) dataError →
     otpVerified (otpState st') = true)
  ∧ (outcome = Threw → otpVerified (otpState st') = false)
  ∧ (∀ ok dataSuccess dataError,
       outcome = Responded ok dataSuccess dataError →
       ok && truthy dataSuccess = false →
       otpVerified (otpState st') = false).
Proof.
  intros Hflag code st'. subst code st'.
  rewrite verifyOtp_flag, verifyOtp_requests, Hflag. simpl.
  destruct (isBlank (otp (otpState st))) eqn:Hblank.
  - apply isBlank_spec in Hblank. simpl.
    split_and!; try done.
    + split; [done | by intros [? _]].
    + intros _. unfold verifyOtp.
      apply isBlank_spec in Hblank. by rewrite Hblank.
  - apply isBlank_false in Hblank. simpl.
    split_and!; try done.
    + split.
      * intros Hs. split; [done|].
        destruct outcome as [|ok dataSuccess dataError]; [done|].
        simpl in Hs. apply andb_true_iff in Hs as [-> ?]. eauto.
      * intros (_ & dataSuccess & dataError & -> & Hs). simpl. done.
    + intros _ dataError ->. done.
    + intros ->. done.
    + intros ok dataSuccess dataError -> Hs. done.
Qed.

(** *** File staging *)

Lemma includes_spec l s : includes l s = true ↔ s ∈ l.
Proof.
  unfold includes. rewrite existsb_exists, list_elem_of_In. split.
  - intros (x & Hin & ->%String.eqb_eq). done.
  - intros Hin. exists s. by rewrite String.eqb_refl.
Qed.

Lemma includes_false l s : includes l s = false ↔ s ∉ l.
Proof.
  rewrite <- includes_spec. destruct (includes l s); split; congruence.
Qed.

(** C8. Selecting a file never sends a request.  A file of more than 5MB
    (5 * 1024 * 1024 bytes) is rejected with "File size should not exceed
    5MB" and nothing else changes; a file of at most 5MB whose MIME type is
    not one of image/jpeg, image/png, image/jpg and application/pdf is
    rejected with "Please upload only JPEG, PNG, or PDF files" and nothing
    else changes (a file at fault on either count is not staged); and a file of at most 5MB with one of these types is read
    into memory: once read, its bytes are recorded in the form data under
    the document field name together with its file name, type and size, and
    its file name is recorded under that field name in the map of staged
    files. *)
Theorem file_staging (file : File) (fieldName : string) (read : ReadOutcome)
    (st : State) :
  let st' := handleFileUpload (Some file) fieldName read st in
  requests st' = requests st
  ∧ maxFileSize = 5242880
  ∧ (maxFileSize < fileSize file →
     st' = setMessage (JStr "File size should not exceed 5MB") st)
  ∧ (fileSize file ≤ maxFileSize →
     fileType file ∉ ["image/jpeg"; "image/png"; "image/jpg"; "application/pdf"] →
     st' = setMessage (JStr "Please upload only JPEG, PNG, or PDF files") st)
  ∧ (fileSize file ≤ maxFileSize →
     fileType file ∈ ["image/jpeg"; "image/png"; "image/jpg"; "application/pdf"] →
     ∀ bytes, read = Loaded bytes →
       formData st' =
         <[fieldName := FFile {| file_data := bytes;
                                 filename := fileName file;
                                 file_type := fileType file;
                                 file_size := fileSize file |}]> (formData st)
       ∧ uploadedFiles st' = <[fieldName := fileName file]> (uploadedFiles st)
       ∧ message st' = JStr "")
  ∧ (maxFileSize < fileSize file
     ∨ fileType file ∉ ["image/jpeg"; "image/png"; "image/jpg"; "application/pdf"] →
     formData st' = formData st ∧ uploadedFiles st' = uploadedFiles st
     ∧ uploadStatus st' = uploadStatus st).
Proof.
  intros st'. subst st'. unfold handleFileUpload.
  change ["image/jpeg"; "image/png"; "image/jpg"; "application/pdf"]
    with allowedTypes.
  destruct (maxFileSize <? fileSize file) eqn:Hsize.
  { apply Z.ltb_lt in Hsize.
    split_and!; [done | done | done | intros; lia | intros; lia | done]. }
  apply Z.ltb_ge in Hsize.
  destruct (includes allowedTypes (fileType file)) eqn:Htype; simpl.
  - apply includes_spec in Htype.
    split_and!.
    + by destruct read.
    + done.
    + intros; lia.
    + intros _ Hnot. by destruct Hnot.
    + intros _ _ bytes ->. done.
    + intros [?|Hnot]; [lia | by destruct Hnot].
  - apply includes_false in Htype.
    split_and!.
    + done.
    + done.
    + intros; lia.
    + done.
    + intros _ Hin. by destruct Htype.
    + done.
Qed.

(** *** Final submission *)

Lemma documentsData_empty (fd : FormData) :
  (∀ fieldName, fieldName ∈ documentFields →
     ∀ fileInfo, fd !! fieldName ≠ Some (FFile fileInfo)) →
  documentsData fd = ∅.
Proof.
  unfold documentsData. generalize (∅ : gmap string FileInfo).
  induction documentFields as [|fieldName fields IH]; intros acc Hnone; [done|].
  simpl. destruct (fd !! fieldName) as [[| |fileInfo]|] eqn:E;
    try (apply IH; intros; apply Hnone; by right).
  exfalso. eapply (Hnone fieldName); [left|exact E].
Qed.

Section submission_facts.
Context `{Runtime}.

Lemma handleRegistration_requests currentYear now outcome st :
  loading st = false →
  validateCurrentStep currentYear st = None →
  requests (handleRegistration currentYear now outcome st)
  = match formData st !! "juApplication" with
    | Some (FStr s) =>
        if String.eqb (trim s) "" then requests st
        else requests st
             ++ [PostRegister (registrationFields (formData st))
                              (documentsData (formData st))]
    | _ => requests st
    end.
Proof.
  intros Hloading Hvalid. unfold handleRegistration.
  rewrite Hloading, Hvalid. simpl.
  destruct (formData st !! "juApplication") as [[|s|f]|] eqn:Hju; try done.
  unfold isMissing. simpl.
  destruct (String.eqb s "") eqn:Es.
  { apply String.eqb_eq in Es as ->. done. }
  simpl. destruct (String.eqb (trim s) ""); [done|].
  destruct outcome as [|ok data]; simpl; [done|].
  destruct (ok && truthy (regSuccess data)); [|done].
  by destruct (regData data).
Qed.

(** C10. The documents step (index 6) has no required field and no
    additional rule: [validateStep] returns [null] on it for every form
    snapshot.  So when the form is submitted from that step (and no
    submission is already running), the registration request is sent exactly
    when [juApplication] is a string that is not blank after trimming; the
    staged documents play no part in the decision, and with no staged
    document the request goes out with an empty [documents] member. *)
Theorem submission_gate currentYear (now : string) (outcome : RegisterOutcome)
    (st : State) :
  currentStep st = 6 →
  loading st = false →
  let st' := handleRegistration currentYear now outcome st in
  let submission :=
    PostRegister (registrationFields (formData st))
                 (documentsData (formData st)) in
  (∀ (fd : FormData) otpVerified,
     validateStep currentYear fd otpVerified 6 = None)
  ∧ requiredFields 6 = []
  ∧ (NonBlank (formData st !! "juApplication") →
     requests st' = requests st ++ [submission])
  ∧ (¬ NonBlank (formData st !! "juApplication") →
     requests st' = requests st)
  ∧ ((∀ fieldName, fieldName ∈ documentFields →
        ∀ fileInfo, formData st !! fieldName ≠ Some (FFile fileInfo)) →
     documentsData (formData st) = ∅).
Proof.
  intros Hstep Hloading st' submission. subst st' submission.
  rewrite handleRegistration_requests; try done;
    [|unfold validateCurrentStep; by rewrite Hstep].
  unfold NonBlank.
  split_and!; try done.
  - intros (s & -> & Hs). apply String.eqb_neq in Hs. by rewrite Hs.
  - intros Hblank.
    destruct (formData st !! "juApplication") as [[|s|f]|]; try done.
    destruct (String.eqb (trim s) "") eqn:Es; [done|].
    apply String.eqb_neq in Es. destruct Hblank. eauto.
  - apply documentsData_empty.
Qed.

End submission_facts.

(** *** Worked examples *)

Lemma validateStep_verdict_example :
  0 ≤ 1 ≤ 6
  ∧ @validateStep Sample.runtime 2026 initialFormData false 1
    = Some "Please fill in the following required fields: Correspondence Address, Correspondence City, Correspondence State, Correspondence Postal Code"
  ∧ @validateStep Sample.runtime 2026 (formData Sample.atDocumentsStep) true 1
    = None.
Proof.
  split; [lia|].
  pose proof (@validateStep_verdict Sample.runtime 2026 initialFormData false 1
                ltac:(lia)) as Hblank.
  pose proof (@validateStep_verdict Sample.runtime 2026
                (formData Sample.atDocumentsStep) true 1 ltac:(lia)) as Hfilled.
  cbv zeta in Hblank, Hfilled.
  destruct Hblank as (_ & _ & Hmessage & _).
  destruct Hfilled as (_ & Hnull & _).
  split.
  - etrans; [apply Hmessage|].
    + exists "correspondenceAddress". split; [left|].
      right; right. exists "". split; reflexivity.
    + vm_compute. reflexivity.
    + vm_compute. reflexivity.
  - apply Hnull; [|vm_compute; reflexivity].
    intros field Hin. apply isMissing_false.
    unfold requiredFields in Hin. simpl in Hin.
    rewrite !elem_of_cons, elem_of_nil in Hin.
    repeat destruct Hin as [->|Hin]; [vm_compute; reflexivity .. | destruct Hin].
Defined.

Lemma mirror_toggle_example :
  sameAsCorrespondence Sample.atAddressStep = negb true
  ∧ formData (toggleSameAsCorrespondence true Sample.atAddressStep)
      !! "permanentCity" = Some (FStr "Bengaluru")
  ∧ formData (toggleSameAsCorrespondence true Sample.atAddressStep)
      !! "permanentCountry" = Some (FStr "India").
Proof.
  split; [vm_compute; reflexivity|].
  pose proof (mirror_toggle true Sample.atAddressStep
                ltac:(vm_compute; reflexivity)) as Hon.
  cbv zeta in Hon. destruct Hon as (_ & _ & _ & Hcity & _ & Hcountry & _).
  split.
  - etrans; [exact Hcity | vm_compute; reflexivity].
  - etrans; [exact Hcountry | vm_compute; reflexivity].
Defined.

Lemma mirror_off_country_not_blank :
  ¬ (∀ field, field ∈ permanentFields →
       formData (toggleSameAsCorrespondence false
                   (toggleSameAsCorrespondence true Sample.atAddressStep))
         !! field = Some (FStr "")).
Proof.
  intros Hblank.
  assert ("permanentCountry" ∈ permanentFields) as Hin
    by (unfold permanentFields; in_list).
  apply Hblank in Hin. vm_compute in Hin. discriminate.
Qed.

Lemma verifyOtp_verified_example :
  otpVerified (otpState Sample.codeTyped) = false
  ∧ otpVerified (otpState (verifyOtp Sample.accepted Sample.codeTyped)) = true
  ∧ otpVerified (otpState (verifyOtp Threw Sample.codeTyped)) = false.
Proof.
  split; [vm_compute; reflexivity|].
  pose proof (verifyOtp_verified Sample.accepted Sample.codeTyped
                ltac:(vm_compute; reflexivity)) as Hok.
  pose proof (verifyOtp_verified Threw Sample.codeTyped
                ltac:(vm_compute; reflexivity)) as Hthrew.
  cbv zeta in Hok, Hthrew.
  destruct Hok as (_ & _ & _ & Hok & _).
  destruct Hthrew as (_ & _ & _ & _ & Hthrew & _).
  split.
  - apply (Hok ltac:(vm_compute; discriminate) JUndefined). reflexivity.
  - apply Hthrew. reflexivity.
Defined.

(** An OK answer whose [success] member is the string "yes" is not the
    explicit [success: true], and it sets the verified flag. *)
Lemma verifyOtp_verified_without_true :
  otpVerified (otpState Sample.codeTyped) = false
  ∧ JStr "yes" ≠ JBool true
  ∧ otpVerified
      (otpState (verifyOtp (Responded true (JStr "yes") JUndefined)
                   Sample.codeTyped))
    = true.
Proof. split_and!; [vm_compute; reflexivity | done | vm_compute; reflexivity]. Qed.

Lemma file_staging_example :
  message (handleFileUpload (Some Sample.sixMegabytes) "aadhaarUpload"
             (Loaded Sample.scanBytes) initialState)
  = JStr "File size should not exceed 5MB"
  ∧ message (handleFileUpload (Some Sample.spreadsheet) "aadhaarUpload"
               (Loaded Sample.scanBytes) initialState)
    = JStr "Please upload only JPEG, PNG, or PDF files"
  ∧ formData (handleFileUpload (Some Sample.scan) "aadhaarUpload"
                (Loaded Sample.scanBytes) initialState) !! "aadhaarUpload"
    = Some (FFile {| file_data := Sample.scanBytes; filename := "aadhaar.png";
                     file_type := "image/png"; file_size := 4 |}).
Proof.
  pose proof (file_staging Sample.sixMegabytes "aadhaarUpload"
                (Loaded Sample.scanBytes) initialState) as Hbig.
  pose proof (file_staging Sample.spreadsheet "aadhaarUpload"
                (Loaded Sample.scanBytes) initialState) as Htype.
  pose proof (file_staging Sample.scan "aadhaarUpload"
                (Loaded Sample.scanBytes) initialState) as Hgood.
  cbv zeta in Hbig, Htype, Hgood.
  destruct Hbig as (_ & _ & Hbig & _).
  destruct Htype as (_ & _ & _ & Htype & _).
  destruct Hgood as (_ & _ & _ & _ & Hgood & _).
  split_and!.
  - etrans; [apply (f_equal message), Hbig; vm_compute; reflexivity|].
    reflexivity.
  - etrans; [apply (f_equal message), Htype|].
    + vm_compute; discriminate.
    + apply includes_false. vm_compute. reflexivity.
    + reflexivity.
  - destruct (Hgood ltac:(vm_compute; discriminate)
                ltac:(cbn [fileType Sample.scan]; in_list)
                Sample.scanBytes eq_refl) as (Hform & _).
    etrans; [apply (f_equal (λ fd : FormData, fd !! "aadhaarUpload")), Hform|].
    apply lookup_insert_eq.
Defined.

Lemma submission_gate_example :
  currentStep Sample.atDocumentsStep = 6
  ∧ loading Sample.atDocumentsStep = false
  ∧ documentsData (formData Sample.atDocumentsStep) = ∅
  ∧ requests (@handleRegistration Sample.runtime 2026 "2026-07-01T09:30:00.000Z"
                Sample.registered Sample.atDocumentsStep)
    = requests Sample.atDocumentsStep
      ++ [PostRegister (registrationFields (formData Sample.atDocumentsStep))
                       (documentsData (formData Sample.atDocumentsStep))].
Proof.
  split; [vm_compute; reflexivity|]. split; [vm_compute; reflexivity|].
  pose proof (@submission_gate Sample.runtime 2026 "2026-07-01T09:30:00.000Z"
                Sample.registered Sample.atDocumentsStep
                ltac:(vm_compute; reflexivity) ltac:(vm_compute; reflexivity))
    as Hgate.
  cbv zeta in Hgate. destruct Hgate as (_ & _ & Hsent & _ & Hnone).
  split.
  - apply Hnone. intros fieldName Hin fileInfo.
    unfold documentFields in Hin. rewrite !elem_of_cons, elem_of_nil in Hin.
    repeat destruct Hin as [->|Hin];
      [vm_compute; discriminate .. | destruct Hin].
  - apply Hsent. exists "JU-2026-0042".
    split; [vm_compute; reflexivity | vm_compute; discriminate].
Defined.
End RegisterFacts.

(** ** The department verification console *)

Module DepartmentAdminFacts.
Import DepartmentAdmin JSFacts.

Lemma isActionable_spec student : isActionable student = true ↔ Actionable student.
Proof.
  unfold isActionable, Actionable.
  by rewrite andb_true_iff, !strictEqStr_true.
Qed.

Lemma elem_of_filter_actionable student returned :
  student ∈ List.filter isActionable returned
  ↔ student ∈ returned ∧ Actionable student.
Proof. by rewrite !list_elem_of_In, filter_In, isActionable_spec. Qed.

Lemma loadStudentsForVerification_requests departmentName outcome st :
  requests (loadStudentsForVerification departmentName outcome st)
  = requests st ++ [GetPendingVerification departmentName].
Proof.
  unfold loadStudentsForVerification.
  destruct outcome as [|ok dataSuccess [returned|]]; simpl; try done;
    by destruct (ok && truthy dataSuccess).
Qed.

Lemma loadStudentsForVerification_students departmentName outcome st :
  students (loadStudentsForVerification departmentName outcome st)
  = match outcome with
    | LoadResponded ok dataSuccess (Some returned) =>
        if ok && truthy dataSuccess then List.filter isActionable returned
        else students st
    | _ => students st
    end.
Proof.
  unfold loadStudentsForVerification.
  destruct outcome as [|ok dataSuccess [returned|]]; simpl; try done;
    by destruct (ok && truthy dataSuccess).
Qed.

Lemma loadStudentsForVerification_filteredStudents departmentName outcome st :
  filteredStudents (loadStudentsForVerification departmentName outcome st)
  = match outcome with
    | LoadResponded ok dataSuccess (Some returned) =>
        if ok && truthy dataSuccess then List.filter isActionable returned
        else filteredStudents st
    | _ => filteredStudents st
    end.
Proof.
  unfold loadStudentsForVerification.
  destruct outcome as [|ok dataSuccess [returned|]]; simpl; try done;
    by destruct (ok && truthy dataSuccess).
Qed.

(** C2. The list of students the console loads only ever holds students
    whose status is 'photo_uploaded' and whose attendance is 'present':
    [loadStudentsForVerification] keeps this true of [students] and of the
    displayed [filteredStudents], and when the endpoint answers successfully
    both lists become the students it returned that satisfy the predicate,
    in the order returned; every returned student that fails the predicate
    is left out. *)
Theorem loaded_students_actionable (departmentName : string)
    (outcome : LoadOutcome) (st : State) :
  (∀ student, student ∈ students st → Actionable student) →
  (∀ student, student ∈ filteredStudents st → Actionable student) →
  let st' := loadStudentsForVerification departmentName outcome st in
  (∀ student, student ∈ students st' → Actionable student)
  ∧ (∀ student, student ∈ filteredStudents st' → Actionable student)
  ∧ (∀ ok dataSuccess returned,
       outcome = LoadResponded ok dataSuccess (Some returned) →
       ok && truthy dataSuccess = true →
       students st' = List.filter isActionable returned
       ∧ filteredStudents st' = List.filter isActionable returned
       ∧ (∀ student, student ∈ returned →
            (student ∈ students st' ↔ Actionable student))
       ∧ (∀ student, student ∈ returned → ¬ Actionable student →
            (student ∉ students st') ∧ (student ∉ filteredStudents st'))).
Proof.
  intros Hstudents Hfiltered st'. subst st'.
  rewrite loadStudentsForVerification_students,
    loadStudentsForVerification_filteredStudents.
  split_and!.
  - destruct outcome as [|ok dataSuccess [returned|]]; try done.
    destruct (ok && truthy dataSuccess); [|done].
    by intros student [_ ?]%elem_of_filter_actionable.
  - destruct outcome as [|ok dataSuccess [returned|]]; try done.
    destruct (ok && truthy dataSuccess); [|done].
    by intros student [_ ?]%elem_of_filter_actionable.
  - intros ok dataSuccess returned -> ->.
    split_and!; try done.
    + intros student Hin. rewrite elem_of_filter_actionable. tauto.
    + intros student Hin Hnot. rewrite elem_of_filter_actionable. tauto.
Qed.

(** *** Saving a verification *)

Lemma isVerified_spec data doc :
  isVerified data doc = true ↔ VerifiedIn data (docId doc).
Proof.
  unfold isVerified, VerifiedIn. destruct (data !! docId doc) as [entry|].
  - rewrite strictEqTrue_true. split; [eauto|].
    by intros (? & [= <-] & ?).
  - split; [done | by intros (? & ? & _)].
Qed.

Lemma allRequiredVerified_spec data :
  allRequiredVerified data = true ↔ RequiredVerified data.
Proof.
  unfold allRequiredVerified, RequiredVerified.
  rewrite forallb_forall. split.
  - intros Hall doc Hin Hreq. apply isVerified_spec, Hall, filter_In.
    by rewrite <- list_elem_of_In.
  - intros Hall doc [Hin Hreq]%filter_In. apply isVerified_spec, Hall; [|done].
    by rewrite list_elem_of_In.
Qed.

(** The document types with [required: true]. *)
Lemma required_document_ids :
  map docId (List.filter docRequired documentTypes)
  = ["10th_marksheet"; "12th_marksheet"; "transfer_certificate";
     "character_certificate"; "passport_photos"; "aadhar_card"].
Proof. reflexivity. Qed.

Lemma RequiredVerified_ids data :
  RequiredVerified data
  ↔ ∀ documentId,
      documentId ∈ ["10th_marksheet"; "12th_marksheet"; "transfer_certificate";
                    "character_certificate"; "passport_photos"; "aadhar_card"] →
      VerifiedIn data documentId.
Proof.
  rewrite <- required_document_ids. unfold RequiredVerified. split.
  - intros Hall documentId (doc & -> & Hin)%list_elem_of_fmap.
    apply list_elem_of_In, filter_In in Hin as [Hin Hreq].
    apply Hall; [by apply list_elem_of_In | done].
  - intros Hall doc Hin Hreq. apply Hall, list_elem_of_fmap.
    exists doc. split; [done|]. apply list_elem_of_In, filter_In.
    by rewrite <- list_elem_of_In.
Qed.

Lemma saveVerification_requests departmentName dataSuccess dataError reloaded
    st student :
  selectedStudent st = Some student →
  truthy dataSuccess = true →
  requests (saveVerification departmentName
              (Responded true dataSuccess dataError) reloaded st)
  = requests st
    ++ [PutDocuments (student_id student) (verificationData st) "Department Admin"]
    ++ (if allRequiredVerified (verificationData st)
        then [PutStatus (studentId student) "documents_verified"] else [])
    ++ [GetPendingVerification departmentName].
Proof.
  intros Hselected Hsuccess. unfold saveVerification.
  rewrite Hselected, Hsuccess. cbn [andb].
  rewrite loadStudentsForVerification_requests.
  destruct (allRequiredVerified (verificationData st)); simpl;
    by rewrite <- !app_assoc.
Qed.

Lemma issuedBetween_app before after new :
  requests after = requests before ++ new → issuedBetween before after = new.
Proof.
  intros Heq. unfold issuedBetween. rewrite Heq. by rewrite drop_app_length.
Qed.

(** When [saveVerification] has persisted the verification map of the
    selected student (the PUT of the documents is answered with an OK status
    and a [success] member that holds), the requests it has sent are: the PUT
    of the map, then, if and only if every document type with
    [required: true] (10th marksheet, 12th marksheet, transfer certificate,
    character certificate, passport photos, Aadhar card) has
    [verified: true] in the current map, the status call that sets
    'documents_verified' for the [studentId] of the selected student, then
    the reload of the list.  If a required document is not verified, no
    status call at all is sent. *)
Theorem status_transition_iff_required_verified (departmentName : string)
    (dataSuccess dataError : JsVal) (reloaded : LoadOutcome) (st : State)
    (student : Student) :
  selectedStudent st = Some student →
  truthy dataSuccess = true →
  let st' := saveVerification departmentName
               (Responded true dataSuccess dataError) reloaded st in
  let data := verificationData st in
  let persist := PutDocuments (student_id student) data "Department Admin" in
  let transition := PutStatus (studentId student) "documents_verified" in
  let reload := GetPendingVerification departmentName in
  map docId (List.filter docRequired documentTypes)
  = ["10th_marksheet"; "12th_marksheet"; "transfer_certificate";
     "character_certificate"; "passport_photos"; "aadhar_card"]
  ∧ (RequiredVerified data
     ↔ ∀ documentId,
         documentId ∈ ["10th_marksheet"; "12th_marksheet";
                       "transfer_certificate"; "character_certificate";
                       "passport_photos"; "aadhar_card"] →
         VerifiedIn data documentId)
  ∧ (transition ∈ issuedBetween st st' ↔ RequiredVerified data)
  ∧ (RequiredVerified data →
     issuedBetween st st' = [persist; transition; reload])
  ∧ (¬ RequiredVerified data →
     issuedBetween st st' = [persist; reload]
     ∧ ∀ someone newStatus, PutStatus someone newStatus ∉ issuedBetween st st').
Proof.
  intros Hselected Hsuccess st' data persist transition reload.
  assert (issuedBetween st st'
          = [persist]
            ++ (if allRequiredVerified data then [transition] else [])
            ++ [reload]) as Hissued.
  { apply issuedBetween_app. subst st'.
    by rewrite (saveVerification_requests _ _ _ _ _ student). }
  rewrite Hissued.
  pose proof (allRequiredVerified_spec data) as Hspec.
  split_and!.
  - reflexivity.
  - apply RequiredVerified_ids.
  - destruct (allRequiredVerified data); simpl.
    + split; [intros _; by apply Hspec|]. intros _. by right; left.
    + split; [|intros Hall; by apply Hspec in Hall].
      rewrite !elem_of_cons, elem_of_nil. intros [?|[?|[]]]; done.
  - intros Hall%Hspec. by rewrite Hall.
  - intros Hnot. destruct (allRequiredVerified data).
    { destruct Hnot. by apply Hspec. }
    simpl. split; [done|]. intros someone newStatus.
    rewrite !elem_of_cons, elem_of_nil. intros [?|[?|[]]]; done.
Qed.

(** *** Worked examples *)

Lemma loaded_students_actionable_example :
  students (loadStudentsForVerification "Civil Engineering"
              SampleConsole.pending initialState)
  = [SampleConsole.asha].
Proof.
  pose proof (loaded_students_actionable "Civil Engineering"
                SampleConsole.pending initialState) as Hload.
  cbv zeta in Hload.
  destruct Hload as (_ & _ & Hload).
  - by intros student ?%not_elem_of_nil.
  - by intros student ?%not_elem_of_nil.
  - destruct (Hload true (JBool true) _ eq_refl eq_refl) as (-> & _).
    reflexivity.
Defined.

Lemma status_transition_example :
  selectedStudent SampleConsole.allTicked = Some SampleConsole.asha
  ∧ truthy (JBool true) = true
  ∧ PutStatus (JStr "STU-0042") "documents_verified"
    ∈ issuedBetween SampleConsole.allTicked
        (saveVerification "Civil Engineering"
           (Responded true (JBool true) JUndefined) SampleConsole.refreshed
           SampleConsole.allTicked).
Proof.
  split; [vm_compute; reflexivity|]. split; [reflexivity|].
  pose proof (status_transition_iff_required_verified "Civil Engineering"
                (JBool true) JUndefined SampleConsole.refreshed
                SampleConsole.allTicked SampleConsole.asha
                ltac:(vm_compute; reflexivity) eq_refl) as Hsave.
  cbv zeta in Hsave. destruct Hsave as (_ & _ & Hiff & _).
  apply Hiff, allRequiredVerified_spec. vm_compute. reflexivity.
Defined.

(** C1. The status call reads [selectedStudent.studentId], where the PUT of
    the documents, the GET of the modal and the slip functions read
    [selectedStudent.student_id], "the key from backend".  For a student
    listed under [student_id] only, with the six required documents
    verified, a successful save sends the documents under the student's id
    and then the status call for the id [undefined]: no request sets the
    status of the student whose documents were persisted. *)
Theorem status_call_misses_student :
  selectedStudent SampleCases.keyedTicked = Some SampleCases.keyedByStudentId
  ∧ student_id SampleCases.keyedByStudentId = JStr "STU-0045"
  ∧ RequiredVerified (verificationData SampleCases.keyedTicked)
  ∧ issuedBetween SampleCases.keyedTicked
      (saveVerification "Civil Engineering"
         (Responded true (JBool true) JUndefined) SampleConsole.refreshed
         SampleCases.keyedTicked)
    = [PutDocuments (JStr "STU-0045")
         (verificationData SampleCases.keyedTicked) "Department Admin";
       PutStatus JUndefined "documents_verified";
       GetPendingVerification "Civil Engineering"]
  ∧ ∀ newStatus,
      PutStatus (JStr "STU-0045") newStatus
      ∉ issuedBetween SampleCases.keyedTicked
          (saveVerification "Civil Engineering"
             (Responded true (JBool true) JUndefined) SampleConsole.refreshed
             SampleCases.keyedTicked).
Proof.
  assert (issuedBetween SampleCases.keyedTicked
            (saveVerification "Civil Engineering"
               (Responded true (JBool true) JUndefined)
               SampleConsole.refreshed SampleCases.keyedTicked)
          = [PutDocuments (JStr "STU-0045")
               (verificationData SampleCases.keyedTicked) "Department Admin";
             PutStatus JUndefined "documents_verified";
             GetPendingVerification "Civil Engineering"]) as Hissued.
  { apply issuedBetween_app.
    rewrite (saveVerification_requests _ _ _ _ _ SampleCases.keyedByStudentId)
      by (vm_compute; reflexivity).
    assert (allRequiredVerified (verificationData SampleCases.keyedTicked)
            = true) as -> by (vm_compute; reflexivity).
    reflexivity. }
  split_and!.
  - vm_compute. reflexivity.
  - reflexivity.
  - apply allRequiredVerified_spec. vm_compute. reflexivity.
  - exact Hissued.
  - intros newStatus. rewrite Hissued, !not_elem_of_cons.
    split_and!; [done | done | done | apply not_elem_of_nil].
Qed.

End DepartmentAdminFacts.
(** ** The queue dashboard *)

Module QueueDashboardFacts.
Import QueueDashboard JSFacts.

(** *** Grouping *)



Lemma queueOf_snoc dept students student :
  queueOf dept (students ++ [student])
  = queueOf dept students
    ++ (if inQueue student && String.eqb (deptOf student) dept
        then [student] else []).
Proof.
  unfold queueOf. rewrite List.filter_app. simpl.
  by destruct (inQueue student && String.eqb (deptOf student) dept).
Qed.

Lemma inherited_spec key :
  inherited key = true ↔ key ∈ objectPrototypeMembers.
Proof.
  unfold inherited. rewrite existsb_exists. split.
  - intros (member & Hin & ->%String.eqb_eq). by apply list_elem_of_In.
  - intros Hin. exists key. split; [by apply list_elem_of_In|].
    apply String.eqb_refl.
Qed.

Lemma inherited_false key :
  inherited key = false ↔ key ∉ objectPrototypeMembers.
Proof.
  rewrite <- inherited_spec. by destruct (inherited key).
Qed.

Lemma lookupGroup_pushOwn dept dept' student acc :
  lookupGroup dept (pushOwn dept' student acc)
  = if String.eqb dept' dept
    then Some (default [] (lookupGroup dept acc) ++ [student])
    else lookupGroup dept acc.
Proof.
  induction acc as [|[d deptStudents] rest IH]; simpl.
  - by destruct (String.eqb dept' dept).
  - destruct (String.eqb_spec d dept') as [->|Hne]; simpl.
    + by destruct (String.eqb dept' dept).
    + destruct (String.eqb_spec d dept) as [->|Hne']; [|done].
      destruct (String.eqb_spec dept' dept) as [->|_]; done.
Qed.

Lemma groupStudents_snoc students student :
  groupStudents (students ++ [student])
  = acc ← groupStudents students;
    if inQueue student then pushStudent (deptOf student) student acc
    else Some acc.
Proof. unfold groupStudents. by rewrite foldl_app. Qed.

(** The [reduce] completes exactly when no student of the queue has a
    department that the object inherits. *)
Lemma groupStudents_is_Some students :
  is_Some (groupStudents students) ↔ OwnDepartments students.
Proof.
  unfold OwnDepartments.
  induction students as [|student students IH] using rev_ind.
  - split; [by intros _ ? ?%not_elem_of_nil | by eexists].
  - rewrite groupStudents_snoc. split.
    + intros [groups Hgroups] other Hin Hqueued.
      destruct (groupStudents students) as [acc|] eqn:E; [|done].
      apply elem_of_app in Hin as [Hin|Hin].
      * apply (proj1 IH); [by eexists | done | done].
      * apply list_elem_of_singleton in Hin. subst other.
        simpl in Hgroups. rewrite Hqueued in Hgroups.
        unfold pushStudent in Hgroups. apply inherited_false.
        by destruct (inherited _).
    + intros Hown.
      destruct (proj2 IH) as [acc ->].
      { intros other Hin. apply Hown, elem_of_app. by left. }
      simpl. destruct (inQueue student) eqn:Hqueued; [|by eexists].
      unfold pushStudent.
      rewrite (proj2 (inherited_false _)); [by eexists|].
      apply Hown; [|done]. apply elem_of_app. right. by left.
Qed.

(** When the [reduce] completes, the group of a department holds exactly its
    queued students, in the order of [students]; a department without
    queued student has no group. *)
Lemma lookupGroup_groupStudents dept students groups :
  groupStudents students = Some groups →
  lookupGroup dept groups
  = match queueOf dept students with
    | [] => None
    | queue => Some queue
    end.
Proof.
  revert groups.
  induction students as [|student students IH] using rev_ind;
    intros groups.
  - by intros [= <-].
  - rewrite groupStudents_snoc, queueOf_snoc.
    destruct (groupStudents students) as [acc|]; [|done]. simpl.
    specialize (IH acc eq_refl).
    destruct (inQueue student); simpl.
    + unfold pushStudent. destruct (inherited (deptOf student)); [done|].
      intros [= <-]. rewrite lookupGroup_pushOwn, IH.
      destruct (String.eqb (deptOf student) dept); simpl.
      * by destruct (queueOf dept students).
      * by rewrite app_nil_r.
    + intros [= <-]. by rewrite IH, app_nil_r.
Qed.

Lemma elem_of_keys dept (groups : Groups) :
  dept ∈ map fst groups ↔ is_Some (lookupGroup dept groups).
Proof.
  induction groups as [|[d deptStudents] rest IH]; simpl.
  - rewrite elem_of_nil. split; [done | by intros [??]].
  - rewrite elem_of_cons, IH.
    destruct (String.eqb_spec d dept) as [->|Hne]; split; eauto.
    + intros [?|?]; [congruence | done].
Qed.

Lemma keys_pushOwn dept student (groups : Groups) :
  map fst (pushOwn dept student groups)
  = if bool_decide (dept ∈ map fst groups) then map fst groups
    else map fst groups ++ [dept].
Proof.
  induction groups as [|[d deptStudents] rest IH]; simpl; [done|].
  destruct (String.eqb_spec d dept) as [->|Hne]; simpl.
  - rewrite bool_decide_eq_true_2; [done | left].
  - rewrite IH. case_bool_decide as Hin.
    + rewrite bool_decide_eq_true_2; [done | by right].
    + rewrite bool_decide_eq_false_2; [done|].
      rewrite elem_of_cons. intros [?|?]; congruence.
Qed.

Lemma NoDup_keys students groups :
  groupStudents students = Some groups → NoDup (map fst groups).
Proof.
  revert groups.
  induction students as [|student students IH] using rev_ind;
    intros groups.
  - intros [= <-]. constructor.
  - rewrite groupStudents_snoc.
    destruct (groupStudents students) as [acc|]; [|done]. simpl.
    specialize (IH acc eq_refl).
    destruct (inQueue student); [|by intros [= <-]].
    unfold pushStudent. destruct (inherited (deptOf student)); [done|].
    intros [= <-]. rewrite keys_pushOwn. case_bool_decide as Hin; [done|].
    apply NoDup_app. split_and!; [done | | apply NoDup_singleton].
    intros d Hd ->%list_elem_of_singleton. done.
Qed.

(** *** The reference order *)

Section sort_facts.
Context {A : Type} (comparefn : A → A → JsNumber).

Lemma insertSorted_Permutation x l : insertSorted comparefn x l ≡ₚ x :: l.
Proof.
  induction l as [|y rest IH]; cbn [insertSorted]; [done|].
  destruct (numLt (ofZ 0) (comparefn x y)); [|done].
  rewrite IH. apply Permutation_swap.
Qed.

Lemma stableSort_Permutation l : stableSort comparefn l ≡ₚ l.
Proof.
  induction l as [|x l IH]; simpl; [done|].
  by rewrite insertSorted_Permutation, IH.
Qed.

(** On elements that satisfy [P] the comparator decides the transitive
    relation [R]: a positive result puts the second argument first. *)
Context (P : A → Prop) (R : relation A).
Hypothesis positive : ∀ a b, P a → P b →
  numLt (ofZ 0) (comparefn a b) = true → R b a.
Hypothesis not_positive : ∀ a b, P a → P b →
  numLt (ofZ 0) (comparefn a b) = false → R a b.
Hypothesis transitive : ∀ a b c, R a b → R b c → R a c.

Lemma insertSorted_StronglySorted x l :
  P x → Forall P l → StronglySorted R l →
  StronglySorted R (insertSorted comparefn x l).
Proof.
  intros Hx. induction l as [|y rest IH]; intros HP Hsorted;
    cbn [insertSorted].
  - repeat constructor.
  - apply Forall_cons in HP as [Hy HP].
    apply StronglySorted_inv in Hsorted as [Hrest Hle].
    destruct (numLt (ofZ 0) (comparefn x y)) eqn:Hcmp.
    + constructor; [by apply IH|].
      rewrite insertSorted_Permutation. constructor; [|done].
      by apply positive.
    + assert (R x y) as Hxy by (by apply not_positive).
      constructor; [by constructor|].
      constructor; [done|].
      eapply Forall_impl; [exact Hle|]. intros z Hyz. by eapply transitive.
Qed.

Lemma stableSort_StronglySorted l :
  Forall P l → StronglySorted R (stableSort comparefn l).
Proof.
  induction l as [|x l IH]; intros HP; simpl; [constructor|].
  apply Forall_cons in HP as [Hx HP].
  apply insertSorted_StronglySorted; [done | | by apply IH].
  by rewrite stableSort_Permutation.
Qed.

End sort_facts.

(** *** [Object.keys] *)

Lemma filter_partition {A} (p : A → bool) (l : list A) :
  List.filter p l ++ List.filter (λ x, negb (p x)) l ≡ₚ l.
Proof.
  induction l as [|x l IH]; [done|]. cbn [List.filter].
  destruct (p x); cbn [negb app].
  - by rewrite IH.
  - by rewrite <- Permutation_middle, IH.
Qed.

Lemma ownKeys_Permutation {V} (obj : list (string * V)) :
  ownKeys obj ≡ₚ map fst obj.
Proof.
  unfold ownKeys. cbv zeta. rewrite stableSort_Permutation.
  set (isIndex := λ key, match arrayIndex key with
                         | Some _ => true
                         | None => false
                         end).
  assert (map snd (omap (λ key, (λ n, (n, key)) <$> arrayIndex key)
                        (map fst obj))
          = List.filter isIndex (map fst obj)) as ->.
  { induction (map fst obj) as [|key keys IH]; [done|].
    cbn [omap list_omap List.filter]. unfold isIndex at 1.
    destruct (arrayIndex key); simpl; by rewrite ?IH. }
  assert (List.filter (λ key, match arrayIndex key with
                              | Some _ => false
                              | None => true
                              end) (map fst obj)
          = List.filter (λ key, negb (isIndex key)) (map fst obj)) as ->.
  { apply filter_ext. intros key. unfold isIndex. by destruct (arrayIndex key). }
  apply filter_partition.
Qed.

Lemma elem_of_ownKeys {V} (obj : list (string * V)) key :
  key ∈ ownKeys obj ↔ key ∈ map fst obj.
Proof. by rewrite ownKeys_Permutation. Qed.

Lemma ownKeys_nil {V} (obj : list (string * V)) :
  ownKeys obj = [] ↔ obj = [].
Proof.
  split; [|by intros ->].
  intros Hnil. pose proof (ownKeys_Permutation obj) as Hperm.
  rewrite Hnil in Hperm. apply Permutation_nil_l in Hperm.
  by destruct obj.
Qed.
(** *** The projection *)

Section dashboard_facts.
Context `{Runtime} `{ArraySort}.

Lemma numLt_zero_ofZ z : numLt (ofZ 0) (ofZ z) = true ↔ 0 < z.
Proof.
  unfold numLt, ofZ, Qltb, inject_Z. simpl. rewrite Z.ltb_lt. lia.
Qed.

Lemma numLt_ofZ_zero z : numLt (ofZ z) (ofZ 0) = true ↔ z < 0.
Proof.
  unfold numLt, ofZ, Qltb, inject_Z. simpl. rewrite Z.ltb_lt. lia.
Qed.

Lemma compareRegistration_positive a b :
  validDate a → validDate b →
  numLt (ofZ 0) (compareRegistration a b) = true → registeredNoLater b a.
Proof.
  unfold validDate, compareRegistration, registeredNoLater.
  intros [ta ->] [tb ->]. rewrite numLt_zero_ofZ. lia.
Qed.

Lemma compareRegistration_not_positive a b :
  validDate a → validDate b →
  numLt (ofZ 0) (compareRegistration a b) = false → registeredNoLater a b.
Proof.
  unfold validDate, compareRegistration, registeredNoLater.
  intros [ta ->] [tb ->] Hcmp.
  destruct (decide (0 < ta - tb)) as [Hlt|?]; [|lia].
  apply numLt_zero_ofZ in Hlt. congruence.
Qed.

Lemma registeredNoLater_trans a b c :
  registeredNoLater a b → registeredNoLater b c → registeredNoLater a c.
Proof.
  unfold registeredNoLater.
  destruct (dateValue (registrationDate a)), (dateValue (registrationDate b)),
    (dateValue (registrationDate c)); try done. lia.
Qed.

Lemma before_valid a b ta tb :
  dateValue (registrationDate a) = Some ta →
  dateValue (registrationDate b) = Some tb →
  before compareRegistration a b ↔ ta < tb.
Proof.
  intros Ha Hb. unfold before, compareRegistration.
  rewrite Ha, Hb, numLt_ofZ_zero. lia.
Qed.

Lemma after_valid a b ta tb :
  dateValue (registrationDate a) = Some ta →
  dateValue (registrationDate b) = Some tb →
  after compareRegistration a b ↔ tb < ta.
Proof.
  intros Ha Hb. unfold after, compareRegistration.
  rewrite Ha, Hb, numLt_zero_ofZ. lia.
Qed.

Lemma tied_valid a b ta tb :
  dateValue (registrationDate a) = Some ta →
  dateValue (registrationDate b) = Some tb →
  tied compareRegistration a b ↔ ta = tb.
Proof.
  intros Ha Hb. unfold tied. rewrite <- !not_true_iff_false.
  change (¬ before compareRegistration a b ∧ ¬ after compareRegistration a b
          ↔ ta = tb).
  rewrite (before_valid a b ta tb), (after_valid a b ta tb) by done. lia.
Qed.

(** The comparator of the dashboard is consistent on students whose
    registration dates are valid. *)
Lemma compareRegistration_Consistent (l : list Student) :
  Forall validDate l → Consistent compareRegistration l.
Proof.
  rewrite Forall_forall. intros Hvalid. unfold Consistent.
  split_and!.
  - intros a b [ta Ha]%Hvalid [tb Hb]%Hvalid. unfold compareRegistration.
    by rewrite Ha, Hb.
  - intros a [ta Ha]%Hvalid. by apply (tied_valid a a ta ta).
  - intros a b [ta Ha]%Hvalid [tb Hb]%Hvalid.
    rewrite (tied_valid a b ta tb), (tied_valid b a tb ta) by done. done.
  - intros a b c [ta Ha]%Hvalid [tb Hb]%Hvalid [tc Hc]%Hvalid.
    rewrite (tied_valid a b ta tb), (tied_valid b c tb tc),
      (tied_valid a c ta tc) by done.
    congruence.
  - intros a b c [ta Ha]%Hvalid [tb Hb]%Hvalid [tc Hc]%Hvalid.
    rewrite (before_valid a b ta tb), (before_valid b c tb tc),
      (before_valid a c ta tc) by done.
    lia.
  - intros a b c [ta Ha]%Hvalid [tb Hb]%Hvalid [tc Hc]%Hvalid.
    rewrite (after_valid a b ta tb), (after_valid b c tb tc),
      (after_valid a c ta tc) by done.
    lia.
Qed.

Lemma arraySort_valid (l : list Student) :
  Forall validDate l →
  arraySort compareRegistration l = stableSort compareRegistration l.
Proof. intros Hvalid. by apply arraySort_consistent, compareRegistration_Consistent. Qed.

Lemma sort_by_registration (l : list Student) :
  Forall validDate l →
  StronglySorted registeredNoLater (arraySort compareRegistration l).
Proof.
  intros Hvalid. rewrite arraySort_valid by done. revert Hvalid.
  apply (stableSort_StronglySorted compareRegistration validDate
           registeredNoLater).
  - apply compareRegistration_positive.
  - apply compareRegistration_not_positive.
  - apply registeredNoLater_trans.
Qed.

Lemma lookupGroup_sorted dept (groups : Groups) :
  lookupGroup dept
    (map (λ entry, (entry.1, arraySort compareRegistration entry.2)) groups)
  = arraySort compareRegistration <$> lookupGroup dept groups.
Proof.
  induction groups as [|[d deptStudents] rest IH]; simpl; [done|].
  by destruct (String.eqb d dept).
Qed.

Lemma groupedStudents_Some students grouped :
  groupedStudents students = Some grouped
  ↔ ∃ groups,
      groupStudents students = Some groups
      ∧ grouped
        = map (λ entry, (entry.1, arraySort compareRegistration entry.2))
              groups.
Proof.
  unfold groupedStudents. destruct (groupStudents students) as [groups|]; simpl.
  - split; [intros [= <-]; eauto | by intros (? & [= <-] & ->)].
  - split; [done | by intros (? & ? & _)].
Qed.

Lemma groupedStudents_is_Some students :
  is_Some (groupedStudents students) ↔ OwnDepartments students.
Proof.
  rewrite <- groupStudents_is_Some, !is_Some_alt. unfold groupedStudents.
  by destruct (groupStudents students).
Qed.

Lemma lookupGroup_groupedStudents dept students grouped :
  groupedStudents students = Some grouped →
  lookupGroup dept grouped
  = match queueOf dept students with
    | [] => None
    | queue => Some (arraySort compareRegistration queue)
    end.
Proof.
  intros (groups & Hgroups & ->)%groupedStudents_Some.
  rewrite lookupGroup_sorted, (lookupGroup_groupStudents _ students) by done.
  by destruct (queueOf dept students).
Qed.

Lemma keys_groupedStudents students grouped :
  groupedStudents students = Some grouped →
  NoDup (ownKeys grouped)
  ∧ ∀ dept, dept ∈ ownKeys grouped ↔ queueOf dept students ≠ [].
Proof.
  intros Hgrouped. split.
  - rewrite ownKeys_Permutation.
    apply groupedStudents_Some in Hgrouped as (groups & Hgroups & ->).
    rewrite map_map. simpl. by apply (NoDup_keys students).
  - intros dept.
    rewrite elem_of_ownKeys, elem_of_keys,
      (lookupGroup_groupedStudents dept students) by done.
    destruct (queueOf dept students); split; try done; by intros [??].
Qed.

Lemma departmentCard_queue department deptStudents :
  deptStudents ≠ [] →
  let queueLength := Z.of_nat (length deptStudents) in
  departmentCard department deptStudents
  = {| cardDepartment := department;
       queueLength := queueLength;
       cardBody :=
         Queue (take 3 deptStudents)
           (if 3 <? queueLength
            then Some (queueLength - 3,
                       if 4 <? queueLength then "students" else "student")
            else None) |}.
Proof. by destruct deptStudents. Qed.

Lemma arraySort_not_nil {A} (comparefn : A → A → JsNumber) l :
  l ≠ [] → arraySort comparefn l ≠ [].
Proof.
  intros Hne Hnil. apply Hne, Permutation_nil_r.
  by rewrite <- Hnil, arraySort_Permutation.
Qed.

(** What the page shows when the grouping completes: the panel when no
    department has a queue, and otherwise the cards of the departments in
    the order of [Object.keys]. *)
Lemma render_unfold students grouped :
  groupedStudents students = Some grouped →
  render students
  = Some match ownKeys grouped with
         | [] => NoStudentsInQueue
         | depts =>
             Cards (map (λ department,
                           departmentCard department
                             (arraySort compareRegistration
                                (queueOf department students)))
                        depts)
         end.
Proof.
  intros Hgrouped. unfold render. rewrite Hgrouped. cbn [mbind option_bind].
  cbv zeta. f_equal.
  destruct (ownKeys grouped) as [|d depts] eqn:E; [done|].
  cbn [length Nat.eqb]. f_equal. rewrite <- E. apply map_ext_in.
  intros department Hin%list_elem_of_In.
  rewrite (lookupGroup_groupedStudents department students) by done.
  apply (keys_groupedStudents students grouped Hgrouped) in Hin.
  by destruct (queueOf department students).
Qed.

(** The component throws, and renders nothing, exactly when a student of
    the queue has a department named like a member of [Object.prototype]. *)
Lemma render_is_Some students :
  is_Some (render students) ↔ OwnDepartments students.
Proof.
  rewrite <- groupedStudents_is_Some, !is_Some_alt. unfold render.
  by destruct (groupedStudents students).
Qed.




End dashboard_facts.

(** *** Worked examples *)

Lemma own_departments_example : OwnDepartments SampleQueue.roster.
Proof.
  intros student Hin _. apply inherited_false.
  unfold SampleQueue.roster in Hin. rewrite !elem_of_cons, elem_of_nil in Hin.
  repeat destruct Hin as [->|Hin]; [vm_compute; reflexivity .. | destruct Hin].
Qed.




End QueueDashboardFacts.

(** ** The registration component: further properties *)

Module WorkflowFacts.
Import Register JSFacts RegisterFacts.

(** Case analysis over the branches of a handler. *)
Ltac handler_cases :=
  repeat (cbn -[validateStep parentPhoneNumber registrationFields documentsData
                insert delete lookup app];
          match goal with
          | |- context [if ?c then _ else _] => destruct c eqn:?
          | |- context [match ?o with Threw => _ | Responded _ _ _ => _ end] =>
              destruct o
          | |- context [match ?o with RegisterThrew => _
                                 | RegisterResponded _ _ => _ end] =>
              destruct o
          | |- context [match ?o with Loaded _ => _ | ReadFailed => _ end] =>
              destruct o
          | |- context [match ?o with Some _ => _ | None => _ end] =>
              destruct o eqn:?
          | |- context [match ?v with FNull => _ | FStr _ => _ | FFile _ => _ end] =>
              destruct v
          end).

(** *** Sending the code *)

Lemma NonBlank_not_missing value : NonBlank value → isMissing value = false.
Proof.
  intros (s & -> & Hs). unfold isMissing. simpl.
  apply String.eqb_neq in Hs. rewrite Hs, orb_false_r.
  destruct (String.eqb_spec s "") as [->|]; [|done].
  by apply String.eqb_neq in Hs.
Qed.

(** X1. [sendOtp] asks for the parent's number when it is missing or blank, and
    sends nothing.  With a number, it sends one request; it marks the code
    as sent and starts the 60-second cooldown when the endpoint accepts the
    request and also when the call itself fails (the code then announces a
    demonstration code); when the endpoint answers with a failure the OTP
    flow is left as it was.  It never touches the verified flag. *)
Theorem sendOtp_marks_sent (outcome : FetchOutcome) (st : State) :
  let parent := formData st !! "parentContactNo" in
  let st' := sendOtp outcome st in
  (MissingOrBlank parent →
     st' = setMessage (JStr "Please enter parent's phone number first") st)
  ∧ (NonBlank parent →
     requests st' = requests st ++ [PostSendOtp (parentPhoneNumber st)]
     ∧ otpLoading (otpState st') = false
     ∧ otpVerified (otpState st') = otpVerified (otpState st)
     ∧ otp (otpState st') = otp (otpState st)
     ∧ (succeeded outcome = true ∨ outcome = Threw →
        otpSent (otpState st') = true
        ∧ otpTimer (otpState st') = 60
        ∧ canResendOtp (otpState st') = false)
     ∧ (succeeded outcome = false → outcome ≠ Threw →
        otpSent (otpState st') = otpSent (otpState st)
        ∧ otpTimer (otpState st') = otpTimer (otpState st)
        ∧ canResendOtp (otpState st') = canResendOtp (otpState st))).
Proof.
  intros parent st'. subst parent st'. unfold sendOtp. split.
  - intros Hmissing. pose proof Hmissing as Hm%isMissing_spec.
    destruct (formData st !! "parentContactNo") as [[|s|f]|];
      [by rewrite Hm | by rewrite Hm | | by rewrite Hm].
    by destruct Hmissing as [?|[?|(? & ? & _)]].
  - intros Hnon. pose proof (NonBlank_not_missing _ Hnon) as Hm.
    destruct Hnon as (s & Hs & _). rewrite Hs in *. rewrite Hm.
    destruct outcome as [|ok dataSuccess dataError]; simpl.
    + split_and!; done.
    + destruct (ok && truthy dataSuccess) eqn:Hok; simpl;
        split_and!; try done; intros [?|?]; done.
Qed.

(** *** The cooldown *)

Lemma sendOtp_started outcome st :
  NonBlank (formData st !! "parentContactNo") →
  succeeded outcome = true ∨ outcome = Threw →
  otpSent (otpState (sendOtp outcome st)) = true
  ∧ otpTimer (otpState (sendOtp outcome st)) = 60
  ∧ canResendOtp (otpState (sendOtp outcome st)) = false.
Proof.
  intros Hnon Hok. pose proof (NonBlank_not_missing _ Hnon) as Hm.
  destruct Hnon as (s & Hs & _). unfold sendOtp. rewrite Hs in *. rewrite Hm.
  destruct outcome as [|ok dataSuccess dataError]; simpl; [done|].
  destruct Hok as [Hok|?]; [|done]. simpl in Hok. by rewrite Hok.
Qed.

Section cooldown.
Context `{Runtime}.

Lemma otpTick_counting st (t : Z) :
  otpSent (otpState st) = true → otpTimer (otpState st) = t → 0 < t →
  otpSent (otpState (otpTick st)) = true
  ∧ otpTimer (otpState (otpTick st)) = t - 1
  ∧ canResendOtp (otpState (otpTick st))
    = canResendOtp (otpState st) || (t =? 1)
  ∧ otp (otpState (otpTick st)) = otp (otpState st).
Proof.
  intros Hsent Htimer Hpos. unfold otpTick. rewrite Htimer.
  destruct (0 <? t) eqn:E; [|apply Z.ltb_ge in E; lia].
  cbn [otpState setOtpTimer setOtpState withOtpTimer otpTimer otpSent].
  rewrite Hsent, andb_true_r.
  destruct (t - 1 =? 0) eqn:E1.
  - apply Z.eqb_eq in E1. assert (t = 1) as -> by lia.
    simpl. by rewrite orb_true_r.
  - apply Z.eqb_neq in E1. simpl.
    destruct (t =? 1) eqn:E2; [apply Z.eqb_eq in E2; lia|].
    by rewrite orb_false_r.
Qed.

Lemma ticks_counting (k : nat) : ∀ st (t : Z),
  otpSent (otpState st) = true → otpTimer (otpState st) = t →
  canResendOtp (otpState st) = false → Z.of_nat k ≤ t → 0 < t →
  let later := foldl step st (replicate k OtpTick) in
  otpTimer (otpState later) = t - Z.of_nat k
  ∧ canResendOtp (otpState later) = (Z.of_nat k =? t)
  ∧ otp (otpState later) = otp (otpState st).
Proof.
  induction k as [|k IH]; intros st t Hsent Htimer Hresend Hk Hpos;
    cbv zeta; cbn [replicate foldl].
  - split_and!; [lia | | done].
    rewrite Hresend. symmetry. apply Z.eqb_neq. lia.
  - change (step st OtpTick) with (otpTick st).
    destruct (otpTick_counting st t Hsent Htimer Hpos)
      as (Hsent' & Htimer' & Hresend' & Hotp').
    rewrite Hresend in Hresend'. cbn [orb] in Hresend'.
    destruct (decide (t = 1)) as [->|Hne].
    + assert (k = 0%nat) as -> by lia. cbn [replicate foldl].
      rewrite Htimer', Hresend', Hotp'. done.
    + assert ((t =? 1) = false) as Hf by (apply Z.eqb_neq; lia).
      rewrite Hf in Hresend'.
      destruct (IH (otpTick st) (t - 1) Hsent' Htimer' Hresend'
                  ltac:(lia) ltac:(lia)) as (-> & -> & ->).
      rewrite Hotp'. split_and!; [lia | | done].
      destruct (Z.eqb_spec (Z.of_nat k) (t - 1)),
        (Z.eqb_spec (Z.of_nat (S k)) t); try done; lia.
Qed.

(** X2. Once [sendOtp] has marked the code as sent, the cooldown runs for 60
    ticks of the timer: after [k] ticks, [k ≤ 60], the timer shows [60 - k];
    as long as [k < 60], resending is refused ([resendOtp] changes nothing
    and sends nothing); after the 60th tick resending is allowed again, and
    [resendOtp] then clears the typed code and sends a new request. *)
Theorem resend_cooldown (outcome again : FetchOutcome) (st : State) (k : nat) :
  NonBlank (formData st !! "parentContactNo") →
  succeeded outcome = true ∨ outcome = Threw →
  (k ≤ 60)%nat →
  let later := foldl step (sendOtp outcome st) (replicate k OtpTick) in
  otpTimer (otpState later) = 60 - Z.of_nat k
  ∧ canResendOtp (otpState later) = bool_decide (k = 60%nat)
  ∧ ((k < 60)%nat → resendOtp again later = later)
  ∧ (k = 60%nat → resendOtp again later = sendOtp again (setOtp "" later)).
Proof.
  intros Hnon Hok Hk later.
  destruct (sendOtp_started outcome st Hnon Hok) as (Hs & Ht & Hr).
  destruct (ticks_counting k (sendOtp outcome st) 60 Hs Ht Hr
              ltac:(lia) ltac:(lia)) as (Htimer & Hresend & _).
  fold later in Htimer, Hresend.
  assert (canResendOtp (otpState later) = bool_decide (k = 60%nat)) as Hcan.
  { rewrite Hresend. case_bool_decide as E.
    - apply Z.eqb_eq. lia.
    - apply Z.eqb_neq. lia. }
  split_and!; [done | done | |].
  - intros Hlt. unfold resendOtp. rewrite Hcan.
    rewrite bool_decide_eq_false_2; [done | lia].
  - intros Heq. unfold resendOtp. rewrite Hcan.
    by rewrite bool_decide_eq_true_2.
Qed.

End cooldown.

(** *** What the handlers leave alone *)

Section frames.
Context `{Runtime}.

Lemma step_otpVerified_mono st e :
  otpVerified (otpState st) = true →
  otpVerified (otpState (step st e)) = true.
Proof.
  intros Hv. destruct e; cbn [step];
    unfold handleInputChange, toggleSameAsCorrespondence,
      copyCorrespondenceAddress, nextStep, prevStep, sendOtp, verifyOtp,
      resendOtp, sendOtp, otpTick, handleFileUpload, handleRegistration;
    handler_cases; done.
Qed.

(** X3. The only handlers that write the form data are the input handler, the
    address mirror and the file staging: navigation, the OTP flow and the
    submission (whatever the server answers) leave every field as it is. *)
Theorem formData_written_by (st : State) (e : Event) :
  formData (step st e) ≠ formData st →
  (∃ name value, e = InputChange name value)
  ∨ (∃ checked, e = ToggleSameAsCorrespondence checked)
  ∨ (∃ file fieldName read, e = FileUpload file fieldName read).
Proof.
  intros Hchanged. destruct e; eauto 10; destruct Hchanged; cbn [step];
    unfold nextStep, prevStep, sendOtp, verifyOtp,
      resendOtp, sendOtp, otpTick, handleRegistration;
    handler_cases; done.
Qed.

(** *** The identity step *)

Lemma validateStep_unverified currentYear fd :
  validateStep currentYear fd false 0
  = Some "Please verify the parent's phone number with OTP before proceeding to the next step.".
Proof. reflexivity. Qed.

Lemma nextStep_otpState currentYear st :
  otpState (nextStep currentYear st) = otpState st.
Proof. unfold nextStep. handler_cases; done. Qed.

Lemma prevStep_otpState st : otpState (prevStep st) = otpState st.
Proof. unfold prevStep. handler_cases; done. Qed.

Local Abbreviation gated st :=
  (1 ≤ currentStep st → otpVerified (otpState st) = true).

Lemma step_keeps_gated st e :
  0 ≤ currentStep st → gated st → gated (step st e).
Proof.
  intros Hnonneg Hgated.
  destruct e; try (rewrite step_currentStep_other by done;
                   intros Hstep; apply step_otpVerified_mono; auto); cbn [step].
  - rewrite nextStep_otpState.
    destruct (nextStep_currentStep currentYear st) as [->|(_ & Hvalid & ->)];
      [done|].
    intros _. destruct (decide (currentStep st = 0)) as [Hzero|?];
      [|apply Hgated; lia].
    unfold validateCurrentStep in Hvalid. rewrite Hzero in Hvalid.
    destruct (otpVerified (otpState st)); [done|].
    by rewrite validateStep_unverified in Hvalid.
  - rewrite prevStep_otpState.
    destruct (prevStep_currentStep st) as [[_ ->]|[? ->]]; [done|].
    intros ?. apply Hgated. lia.
Qed.

(** X4. Nobody gets past the identity step without a verified parent number:
    in every state the component can reach, a step index of 1 or more
    implies that the OTP verification has succeeded.  The flag, once set, is
    never cleared. *)
Theorem identity_step_gated (events : list Event) (e : Event) :
  let st := run events in
  (1 ≤ currentStep st → otpVerified (otpState st) = true)
  ∧ (otpVerified (otpState st) = true →
     otpVerified (otpState (step st e)) = true).
Proof.
  intros st. split; [|apply step_otpVerified_mono].
  subst st. unfold run.
  assert (∀ st0, 0 ≤ currentStep st0 ≤ 6 → gated st0 →
                 gated (foldl step st0 events)) as Hrun.
  { induction events as [|e' events IH]; intros st0 Hrange Hg; [done|].
    simpl. apply IH; [by apply step_keeps_range|].
    apply step_keeps_gated; [lia | done]. }
  apply Hrun; [simpl; lia|]. intros Hstep. simpl in Hstep. lia.
Qed.

End frames.

(** *** What passing a step guarantees *)

Lemma not_missing_truthy value :
  ¬ MissingOrBlank value → fieldTruthy value = true.
Proof.
  intros Hnot%isMissing_false. unfold isMissing in Hnot.
  by apply orb_false_iff in Hnot as [?%negb_false_iff _].
Qed.

Lemma failIf_None cond msg : failIf cond msg = None ↔ cond = false.
Proof. by destruct cond. Qed.

Lemma fieldLengthLt_false value n :
  fieldLengthLt value n = false
  ↔ ∀ s, value = Some (FStr s) → (n ≤ String.length s)%nat.
Proof.
  destruct value as [[|s|f]|]; simpl; try (split; [by intros _ ? [=]|done]).
  rewrite Nat.ltb_ge. split; [by intros ? ? [= <-]|]. intros Hs. by apply Hs.
Qed.

Lemma missing_verdict_None (fd : FormData) required :
  match missingFields fd required with
  | [] => None
  | missing => Some (missingFieldsMessage missing)
  end = None
  ↔ ∀ field, field ∈ required → ¬ MissingOrBlank (fd !! field).
Proof.
  rewrite <- missingFields_nil. by destruct (missingFields fd required).
Qed.

Section passing.
Context `{Runtime}.

(** X5. The identity step lets the applicant through exactly when the parent
    number is verified, none of its seven required fields is missing or
    blank, the student e-mail has the shape local@domain.tld (three
    non-empty parts without white space or "@"), and the student and parent
    numbers, as typed, have at least 10 characters. *)
Theorem identity_step_passes (currentYear : Z) (fd : FormData)
    (otpVerified : bool) :
  validateStep currentYear fd otpVerified 0 = None
  ↔ otpVerified = true
    ∧ (∀ field, field ∈ requiredFields 0 → ¬ MissingOrBlank (fd !! field))
    ∧ (∃ localPart domain tld,
         fieldToString (fd !! "studentEmail")
         = localPart +:+ String "@" (domain +:+ String "." tld)
         ∧ (localPart ≠ "" ∧ Regex.allIn notSpaceNorAt localPart = true)
         ∧ (domain ≠ "" ∧ Regex.allIn notSpaceNorAt domain = true)
         ∧ (tld ≠ "" ∧ Regex.allIn notSpaceNorAt tld = true))
    ∧ (∀ s, fd !! "studentContactNo" = Some (FStr s) →
            (10 ≤ String.length s)%nat)
    ∧ (∀ s, fd !! "parentContactNo" = Some (FStr s) →
            (10 ≤ String.length s)%nat).
Proof.
  rewrite validateStep_unfold, orElse_None, <- emailRegex_test_spec,
    <- !fieldLengthLt_false.
  change (stepRules currentYear fd otpVerified 0)
    with (basicInfoRules fd otpVerified <|> None <|> None <|> None).
  rewrite !orElse_None. unfold basicInfoRules.
  rewrite !orElse_None, !failIf_None.
  rewrite missing_verdict_None. split.
  - intros Hconj. destruct_and!.
    assert (∀ field, field ∈ requiredFields 0 → ¬ MissingOrBlank (fd !! field))
      as Hall by assumption.
    assert (∀ field, field ∈ requiredFields 0 → fieldTruthy (fd !! field) = true)
      as Htruthy by (intros; by apply not_missing_truthy, Hall).
    repeat match goal with
           | Hx : fieldTruthy (fd !! ?k) && _ = false |- _ =>
               rewrite (Htruthy k) in Hx
                 by (unfold requiredFields; simpl; in_list);
               cbn [andb] in Hx
           | Hx : negb _ = false |- _ => apply negb_false_iff in Hx
           end.
    done.
  - intros (-> & Hall & Hemail & Hcontact & Hparent).
    rewrite Hemail, Hcontact, Hparent, !andb_false_r. done.
Qed.

(** X6. The address and university steps (and the documents step) have no rule
    besides the presence of their required fields; an index outside 0..6
    has no required field and no rule at all, and always validates. *)
Theorem presence_only_steps (currentYear : Z) (fd : FormData)
    (otpVerified : bool) (stepIndex : Z) :
  stepIndex ∉ [0; 2; 3; 4] →
  (validateStep currentYear fd otpVerified stepIndex = None
   ↔ ∀ field, field ∈ requiredFields stepIndex → ¬ MissingOrBlank (fd !! field))
  ∧ (stepIndex < 0 ∨ 6 ≤ stepIndex →
     validateStep currentYear fd otpVerified stepIndex = None).
Proof.
  intros Hstep. rewrite !not_elem_of_cons in Hstep.
  destruct Hstep as (H0 & H2 & H3 & H4 & _).
  assert (stepRules currentYear fd otpVerified stepIndex = None) as Hrules.
  { unfold stepRules.
    apply Z.eqb_neq in H0, H2, H3, H4. by rewrite H0, H2, H3, H4. }
  rewrite validateStep_unfold, Hrules, orElse_None_l, missing_verdict_None.
  split; [done|].
  intros Hout. rewrite <- missing_verdict_None.
  assert (requiredFields stepIndex = []) as ->; [|done].
  unfold requiredFields. destruct (stepIndex <? 0) eqn:E; [done|].
  apply Z.ltb_ge in E. destruct Hout as [?|Hge]; [lia|].
  destruct (decide (stepIndex = 6)) as [->|?]; [done|].
  rewrite (lookup_ge_None_2 requiredFieldsByStep); [done|]. simpl. lia.
Qed.

(** X7. A passed-out year that does not convert to a number passes the academic
    step: every comparison with the current year is then false, so neither
    year rule fires. *)
Theorem non_numeric_year_passes (currentYear : Z) (fd : FormData)
    (otpVerified : bool) (tenth twelfth : string) :
  (∀ field, field ∈ requiredFields 2 → ¬ MissingOrBlank (fd !! field)) →
  fd !! "tenthPassedOutYear" = Some (FStr tenth) →
  fd !! "twelfthPassedOutYear" = Some (FStr twelfth) →
  StringToNumber tenth = NaN →
  StringToNumber twelfth = NaN →
  validateStep currentYear fd otpVerified 2 = None.
Proof.
  intros Hall Htenth Htwelfth Hnan10 Hnan12.
  rewrite validateStep_unfold, orElse_None, missing_verdict_None.
  split; [|done].
  change (stepRules currentYear fd otpVerified 2)
    with (None <|> academicRules currentYear fd <|> None <|> None).
  unfold academicRules. rewrite Htenth, Htwelfth. cbn [fieldToNumber].
  rewrite Hnan10, Hnan12. cbn [numLt ofZ orb]. by rewrite !andb_false_r.
Qed.

End passing.

(** *** The address mirror is a one-time copy *)

(** X8. Ticking "Same as correspondence address" copies the correspondence
    address once.  An edit made afterwards to any field outside the
    permanent address, so to any correspondence field, leaves the five
    permanent fields as the copy made them, and the mirror stays ticked;
    setting the box to the value it already has changes nothing (the copy
    is not made again). *)
Theorem mirror_is_one_time_copy (st : State) (name value : string) :
  sameAsCorrespondence st = false →
  name ∉ permanentFields →
  let mirrored := toggleSameAsCorrespondence true st in
  let edited := handleInputChange name value mirrored in
  sameAsCorrespondence edited = true
  ∧ formData edited !! name = Some (FStr value)
  ∧ formData edited !! "permanentAddress" = formData st !! "correspondenceAddress"
  ∧ formData edited !! "permanentCity" = formData st !! "correspondenceCity"
  ∧ formData edited !! "permanentState" = formData st !! "correspondenceState"
  ∧ formData edited !! "permanentCountry" = formData st !! "correspondenceCountry"
  ∧ formData edited !! "permanentPostalCode"
    = formData st !! "correspondencePostalCode"
  ∧ toggleSameAsCorrespondence true edited = edited.
Proof.
  intros Hflag Hname mirrored edited. subst mirrored edited.
  rewrite (toggleSameAsCorrespondence_changed true st) by done.
  unfold permanentFields in Hname. rewrite !not_elem_of_cons in Hname.
  destruct Hname as (?&?&?&?&?&_).
  unfold handleInputChange. cbn [formData setFormData sameAsCorrespondence].
  split_and!.
  - unfold copyCorrespondenceAddress. cbn. done.
  - apply lookup_insert_eq.
  - rewrite lookup_insert_ne, copyCorrespondenceAddress_lookup by done. done.
  - rewrite lookup_insert_ne, copyCorrespondenceAddress_lookup by done. done.
  - rewrite lookup_insert_ne, copyCorrespondenceAddress_lookup by done. done.
  - rewrite lookup_insert_ne, copyCorrespondenceAddress_lookup by done. done.
  - rewrite lookup_insert_ne, copyCorrespondenceAddress_lookup by done. done.
  - unfold toggleSameAsCorrespondence, copyCorrespondenceAddress. cbn. done.
Qed.

(** *** File staging: the other ways out *)

(** X9. Selecting nothing changes nothing.  When a file of an accepted size and
    type cannot be read, only the upload status of the field records the
    failure: the form data, the map of staged files and the message keep
    what they held, so a file staged earlier under that field stays staged. *)
Theorem file_read_failure (file : File) (fieldName : string)
    (read : ReadOutcome) (st : State) :
  handleFileUpload None fieldName read st = st
  ∧ (fileSize file ≤ maxFileSize →
     fileType file ∈ allowedTypes →
     let st' := handleFileUpload (Some file) fieldName ReadFailed st in
     formData st' = formData st
     ∧ uploadedFiles st' = uploadedFiles st
     ∧ message st' = message st
     ∧ requests st' = requests st
     ∧ uploadStatus st' !! fieldName
       = Some {| uploading := false; progress := 0;
                 error := Some "Failed to read file";
                 success := false; ready := None |}
     ∧ ∀ other, other ≠ fieldName →
         uploadStatus st' !! other = uploadStatus st !! other).
Proof.
  split; [done|]. intros Hsize Htype st'. subst st'. unfold handleFileUpload.
  apply Z.ltb_ge in Hsize. apply includes_spec in Htype.
  rewrite Hsize, Htype. cbn [negb].
  cbn [formData uploadedFiles message requests uploadStatus setUploadStatus].
  split_and!; try done.
  - apply lookup_insert_eq.
  - intros other Hother. by apply lookup_insert_ne.
Qed.

(** *** What the registration request carries *)

Lemma documentsData_lookup (fd : FormData) key :
  documentsData fd !! key
  = if bool_decide (key ∈ documentFields)
    then match fd !! key with
         | Some (FFile fileInfo) => Some fileInfo
         | _ => None
         end
    else None.
Proof.
  unfold documentsData.
  assert (∀ fields (acc : gmap string FileInfo),
            foldl (λ acc fieldName,
                     match fd !! fieldName with
                     | Some (FFile fileInfo) => <[fieldName := fileInfo]> acc
                     | _ => acc
                     end) acc fields !! key
            = if bool_decide (key ∈ fields)
              then match fd !! key with
                   | Some (FFile fileInfo) => Some fileInfo
                   | _ => acc !! key
                   end
              else acc !! key) as Hfold.
  { induction fields as [|fieldName fields IH]; intros acc; [done|].
    cbn [foldl]. rewrite IH.
    destruct (decide (key = fieldName)) as [->|Hne].
    - rewrite (bool_decide_eq_true_2 (fieldName ∈ fieldName :: fields))
        by left.
      destruct (fd !! fieldName) as [[| |fileInfo]|] eqn:E;
        rewrite ?lookup_insert_eq;
        by destruct (bool_decide (fieldName ∈ fields)).
    - assert (bool_decide (key ∈ fieldName :: fields)
              = bool_decide (key ∈ fields)) as ->.
      { apply bool_decide_ext. rewrite elem_of_cons.
        split; [by intros [?|?] | by right]. }
      destruct (fd !! fieldName) as [[| |fileInfo]|]; try done.
      by rewrite lookup_insert_ne. }
  rewrite Hfold, lookup_empty.
  case_bool_decide; [|done]. by destruct (fd !! key) as [[| |?]|].
Qed.

Lemma registrationFields_lookup (fd : FormData) key :
  registrationFields fd !! key
  = if bool_decide (key = "documents") then None
    else if bool_decide (key ∈ documentFields)
    then match fd !! key with
         | Some (FFile _) => None
         | value => value
         end
    else fd !! key.
Proof.
  unfold registrationFields.
  assert (∀ fields (acc : FormData),
            foldl (λ acc fieldName,
                     match acc !! fieldName with
                     | Some (FFile _) => delete fieldName acc
                     | _ => acc
                     end) acc fields !! key
            = if bool_decide (key ∈ fields)
              then match acc !! key with
                   | Some (FFile _) => None
                   | value => value
                   end
              else acc !! key) as Hfold.
  { induction fields as [|fieldName fields IH]; intros acc; [done|].
    cbn [foldl]. rewrite IH.
    destruct (decide (key = fieldName)) as [->|Hne].
    - rewrite (bool_decide_eq_true_2 (fieldName ∈ fieldName :: fields))
        by left.
      destruct (acc !! fieldName) as [[| |fileInfo]|] eqn:E;
        rewrite ?lookup_delete_eq, ?E;
        by destruct (bool_decide (fieldName ∈ fields)).
    - assert (bool_decide (key ∈ fieldName :: fields)
              = bool_decide (key ∈ fields)) as ->.
      { apply bool_decide_ext. rewrite elem_of_cons.
        split; [by intros [?|?] | by right]. }
      destruct (acc !! fieldName) as [[| |fileInfo]|]; try done.
      by rewrite lookup_delete_ne. }
  rewrite Hfold. destruct (decide (key = "documents")) as [->|Hne].
  - rewrite lookup_delete_eq. by destruct (bool_decide _).
  - rewrite lookup_delete_ne, (bool_decide_eq_false_2 (key = "documents"))
      by done.
    done.
Qed.

(** X10. The registration request splits the form in two: every document field
    that holds a staged file travels in [documents], under its field name,
    and is absent from the other fields; every other field of the form is
    sent as it is (a field named [documents] apart, which the [documents]
    member replaces); and [documents] holds nothing else. *)
Theorem request_payload (fd : FormData) (key : string) :
  (∀ fileInfo,
     documentsData fd !! key = Some fileInfo
     ↔ key ∈ documentFields ∧ fd !! key = Some (FFile fileInfo))
  ∧ (key ∈ documentFields →
     ∀ fileInfo, fd !! key = Some (FFile fileInfo) →
       registrationFields fd !! key = None)
  ∧ (key ≠ "documents" →
     (∀ fileInfo, fd !! key ≠ Some (FFile fileInfo)) →
     registrationFields fd !! key = fd !! key)
  ∧ (key ≠ "documents" → key ∉ documentFields →
     registrationFields fd !! key = fd !! key).
Proof.
  rewrite documentsData_lookup, registrationFields_lookup.
  assert ("documents" ∉ documentFields) as Hdocs.
  { unfold documentFields. rewrite !not_elem_of_cons. split_and!; try done.
    apply not_elem_of_nil. }
  split_and!.
  - intros fileInfo. case_bool_decide as Hin.
    + destruct (fd !! key) as [[| |f]|];
        (split; [intros [= <-] | intros [_ [= <-]]]; done).
    + split; [done | by intros [? _]].
  - intros Hin fileInfo ->.
    rewrite bool_decide_eq_false_2 by (intros ->; done).
    by rewrite bool_decide_eq_true_2.
  - intros Hne Hnofile. rewrite bool_decide_eq_false_2 by done.
    case_bool_decide; [|done].
    destruct (fd !! key) as [[| |f]|]; try done. by destruct (Hnofile f).
  - intros Hne Hnot. rewrite bool_decide_eq_false_2 by done.
    by rewrite bool_decide_eq_false_2.
Qed.

(** *** The end of a submission *)

Section outcome.
Context `{Runtime}.

(** X11. When a submission goes out (no submission running, the step validates,
    the application number is not blank), it ends with the busy flag down
    again, and the step index and the form are as before.  Only an answer
    that is OK, successful and carries the student's data stores a receipt:
    then the same receipt, with status 'pending' and the [studentId] of the
    answer, is put in [studentData] and in the local storage.  In every other
    case (failure reported by the server, answer without data, failed call)
    no receipt is stored and none is overwritten. *)
Theorem registration_outcome (currentYear : Z) (now : string)
    (outcome : RegisterOutcome) (st : State) :
  loading st = false →
  validateCurrentStep currentYear st = None →
  NonBlank (formData st !! "juApplication") →
  let st' := handleRegistration currentYear now outcome st in
  loading st' = false
  ∧ currentStep st' = currentStep st
  ∧ formData st' = formData st
  ∧ match outcome with
    | RegisterResponded true data =>
        match truthy (regSuccess data), regData data with
        | true, Some summary =>
            studentData st' = storedRegistration st'
            ∧ ∃ receipt,
                studentData st' = Some receipt
                ∧ receiptStudentId receipt = regStudentId data
                ∧ receiptJuApplication receipt = regJuApplication data
                ∧ receiptDepartment receipt = summaryDepartment summary
                ∧ receiptStatus receipt = "pending"
                ∧ receiptRegistrationDate receipt = now
        | true, None =>
            studentData st' = studentData st
            ∧ storedRegistration st' = storedRegistration st
            ∧ message st' = JStr "Error: Unable to connect to server."
        | false, _ =>
            studentData st' = studentData st
            ∧ storedRegistration st' = storedRegistration st
            ∧ message st'
              = orDefault (regError data)
                  (JStr "Registration failed. Please try again.")
        end
    | RegisterResponded false data =>
        studentData st' = studentData st
        ∧ storedRegistration st' = storedRegistration st
        ∧ message st'
          = orDefault (regError data)
              (JStr "Registration failed. Please try again.")
    | RegisterThrew =>
        studentData st' = studentData st
        ∧ storedRegistration st' = storedRegistration st
        ∧ message st' = JStr "Error: Unable to connect to server."
    end.
Proof.
  intros Hloading Hvalid Hju st'. subst st'. unfold handleRegistration.
  rewrite Hloading, Hvalid. cbn [errorTruthy].
  pose proof (NonBlank_not_missing _ Hju) as Hm.
  destruct Hju as (s & Hs & _). rewrite Hs in *. rewrite Hm.
  destruct outcome as [|[] data]; cbn [andb]; [done| |done].
  destruct (truthy (regSuccess data)); [|done].
  destruct (regData data); [|done].
  cbn. split_and!; try done. eauto 10.
Qed.

End outcome.

(** *** Worked examples *)

Lemma resend_cooldown_example :
  canResendOtp
    (otpState (foldl (@step Sample.runtime)
                 (sendOtp Sample.accepted SampleCases.numberTyped)
                 (replicate 60 OtpTick)))
  = true
  ∧ canResendOtp
      (otpState (foldl (@step Sample.runtime)
                   (sendOtp Threw SampleCases.numberTyped)
                   (replicate 59 OtpTick)))
    = false.
Proof.
  assert (NonBlank (formData SampleCases.numberTyped !! "parentContactNo"))
    as Hnumber.
  { exists "9123456780".
    split; [vm_compute; reflexivity | vm_compute; discriminate]. }
  pose proof (@resend_cooldown Sample.runtime Sample.accepted Threw
                SampleCases.numberTyped 60 Hnumber (or_introl eq_refl)
                ltac:(lia)) as Hfull.
  pose proof (@resend_cooldown Sample.runtime Threw Threw
                SampleCases.numberTyped 59 Hnumber (or_intror eq_refl)
                ltac:(lia)) as Hshort.
  cbv zeta in Hfull, Hshort.
  destruct Hfull as (_ & Hfull & _). destruct Hshort as (_ & Hshort & _).
  split.
  - etrans; [exact Hfull | reflexivity].
  - etrans; [exact Hshort | reflexivity].
Defined.

Lemma formData_written_by_example :
  (∃ name value,
     InputChange "gender" "Female" = InputChange name value)
  ∨ (∃ checked,
       InputChange "gender" "Female" = ToggleSameAsCorrespondence checked)
  ∨ (∃ file fieldName read,
       InputChange "gender" "Female" = FileUpload file fieldName read).
Proof.
  apply (@formData_written_by Sample.runtime initialState).
  intros Hsame.
  apply (f_equal (λ fd : FormData, fd !! "gender")) in Hsame.
  vm_compute in Hsame. discriminate.
Defined.

Lemma presence_only_steps_example :
  @validateStep Sample.runtime 2026 initialFormData false 7 = None
  ∧ @validateStep Sample.runtime 2026 initialFormData true 1 ≠ None.
Proof.
  assert (∀ stepIndex, stepIndex = 1 ∨ stepIndex = 7 →
                       stepIndex ∉ [0; 2; 3; 4]) as Hother.
  { intros stepIndex Hstep. rewrite !not_elem_of_cons.
    split_and!; [lia.. | apply not_elem_of_nil]. }
  pose proof (@presence_only_steps Sample.runtime 2026 initialFormData false 7
                (Hother 7 (or_intror eq_refl))) as [_ Hout].
  pose proof (@presence_only_steps Sample.runtime 2026 initialFormData true 1
                (Hother 1 (or_introl eq_refl))) as [Haddress _].
  split; [apply Hout; lia|].
  intros Hpass. apply (proj1 Haddress Hpass "correspondenceCity").
  - unfold requiredFields. simpl. in_list.
  - right; right. exists "". split; reflexivity.
Defined.

Lemma non_numeric_year_passes_example :
  @validateStep Sample.runtime 2026 SampleCases.vagueYears true 2 = None.
Proof.
  apply (@non_numeric_year_passes Sample.runtime 2026 SampleCases.vagueYears
           true "soon" "later").
  - intros field Hin. apply isMissing_false.
    unfold requiredFields in Hin. simpl in Hin.
    rewrite !elem_of_cons, elem_of_nil in Hin.
    repeat destruct Hin as [->|Hin]; [vm_compute; reflexivity .. | destruct Hin].
  - vm_compute. reflexivity.
  - vm_compute. reflexivity.
  - reflexivity.
  - reflexivity.
Defined.

Lemma mirror_is_one_time_copy_example :
  formData (handleInputChange "correspondenceCity" "Mangaluru"
              (toggleSameAsCorrespondence true Sample.atAddressStep))
    !! "permanentCity" = Some (FStr "Bengaluru")
  ∧ formData (handleInputChange "correspondenceCity" "Mangaluru"
                (toggleSameAsCorrespondence true Sample.atAddressStep))
      !! "correspondenceCity" = Some (FStr "Mangaluru").
Proof.
  pose proof (mirror_is_one_time_copy Sample.atAddressStep
                "correspondenceCity" "Mangaluru"
                ltac:(vm_compute; reflexivity)) as Hcopy.
  cbv zeta in Hcopy.
  destruct Hcopy as (_ & Hedit & _ & Hcity & _).
  { apply includes_false. vm_compute. reflexivity. }
  split.
  - etrans; [exact Hcity | vm_compute; reflexivity].
  - exact Hedit.
Defined.

Lemma registration_outcome_example :
  ∃ receipt,
    studentData (@handleRegistration Sample.runtime 2026
                   "2026-07-01T09:30:00.000Z" Sample.registered
                   Sample.atDocumentsStep)
    = Some receipt
    ∧ receiptStudentId receipt = JStr "STU-0042"
    ∧ receiptStatus receipt = "pending".
Proof.
  pose proof (@registration_outcome Sample.runtime 2026
                "2026-07-01T09:30:00.000Z" Sample.registered
                Sample.atDocumentsStep
                ltac:(vm_compute; reflexivity)
                ltac:(vm_compute; reflexivity)) as Hdone.
  cbv zeta in Hdone.
  destruct Hdone as (_ & _ & _ & _ & receipt & Hstored & Hid & _ & _ & Hstatus & _).
  { exists "JU-2026-0042".
    split; [vm_compute; reflexivity | vm_compute; discriminate]. }
  exists receipt. split_and!; [exact Hstored | exact Hid | exact Hstatus].
Defined.
End WorkflowFacts.

(** ** The department console: further properties *)

Module ConsoleFacts.
Import DepartmentAdmin Console JSFacts DepartmentAdminFacts.

(** *** A save that fails *)

(** X12. When the PUT of the verification map fails, or is answered without
    success, [saveVerification] has sent that one request and nothing else
    (no status call, no reload); the modal keeps its student open, the map
    keeps the admin's ticks, and an error notification carries the server's
    message when there is one.  With no student selected it does nothing. *)
Theorem save_failure_keeps_modal (departmentName : string)
    (saved : FetchOutcome) (reloaded : LoadOutcome) (st : State) :
  succeeded saved = false →
  let st' := saveVerification departmentName saved reloaded st in
  (selectedStudent st = None → st' = st)
  ∧ (∀ student, selectedStudent st = Some student →
       issuedBetween st st'
       = [PutDocuments (student_id student) (verificationData st)
                       "Department Admin"]
       ∧ selectedStudent st' = Some student
       ∧ showVerificationModal st' = showVerificationModal st
       ∧ verificationData st' = verificationData st
       ∧ students st' = students st
       ∧ filteredStudents st' = filteredStudents st
       ∧ notificationType (notification st') = "error"
       ∧ notificationMessage (notification st')
         = match saved with
           | Responded _ _ dataError =>
               orDefault dataError (JStr "Failed to save verification")
           | Threw => JStr "Failed to save verification"
           end).
Proof.
  intros Hfailed st'. subst st'. unfold saveVerification. split.
  - by intros ->.
  - intros student Hselected. rewrite Hselected. unfold issuedBetween.
    destruct saved as [|ok dataSuccess dataError]; simpl in *.
    + rewrite drop_app_length. split_and!; done.
    + rewrite Hfailed. simpl. rewrite drop_app_length. split_and!; done.
Qed.

(** *** Ticking documents *)

Lemma handleDocumentVerification_lookup now documentId checked st other :
  verificationData (handleDocumentVerification now documentId checked st)
    !! other
  = if decide (documentId = other)
    then Some {| verified := JBool checked;
                 notes := notes (entryOf (verificationData st) documentId);
                 verifiedAt := if checked then JStr now else JNull;
                 verifiedBy := if checked then JStr "Department Admin"
                               else JNull |}
    else verificationData st !! other.
Proof. unfold handleDocumentVerification. simpl. apply lookup_insert. Qed.

Lemma handleNotesChange_lookup documentId newNotes st other :
  verificationData (handleNotesChange documentId newNotes st) !! other
  = if decide (documentId = other)
    then Some {| verified := verified (entryOf (verificationData st) documentId);
                 notes := JStr newNotes;
                 verifiedAt := verifiedAt (entryOf (verificationData st) documentId);
                 verifiedBy := verifiedBy (entryOf (verificationData st) documentId) |}
    else verificationData st !! other.
Proof. unfold handleNotesChange. simpl. apply lookup_insert. Qed.

Lemma VerifiedIn_tick now documentId checked st other :
  VerifiedIn (verificationData
                (handleDocumentVerification now documentId checked st)) other
  ↔ if decide (documentId = other) then checked = true
    else VerifiedIn (verificationData st) other.
Proof.
  unfold VerifiedIn. rewrite handleDocumentVerification_lookup.
  case_decide; [|done]. split.
  - by intros (entry & [= <-] & [= ->]).
  - intros ->. eauto.
Qed.

Lemma tick_all now (ids : list string) : ∀ st documentId,
  VerifiedIn
    (verificationData
       (foldl (λ st documentId,
                 handleDocumentVerification now documentId true st) st ids))
    documentId
  ↔ documentId ∈ ids ∨ VerifiedIn (verificationData st) documentId.
Proof.
  induction ids as [|first ids IH]; intros st documentId; cbn [foldl].
  - rewrite elem_of_nil. tauto.
  - rewrite IH, VerifiedIn_tick, elem_of_cons.
    case_decide; subst; intuition congruence.
Qed.

(** X13. Ticking the six required documents, in any order and from any map,
    makes the map complete; unticking a required document makes it
    incomplete, whatever else is ticked; and ticking any document, or
    unticking an optional one, keeps a complete map complete. *)
Theorem required_ticks (now : string) (st : State) (order : list string)
    (documentId : string) (checked : bool) :
  order ≡ₚ ["10th_marksheet"; "12th_marksheet"; "transfer_certificate";
            "character_certificate"; "passport_photos"; "aadhar_card"] →
  let after := handleDocumentVerification now documentId checked st in
  allRequiredVerified
    (verificationData
       (foldl (λ st documentId,
                 handleDocumentVerification now documentId true st)
              st order)) = true
  ∧ (documentId ∈ order → checked = false →
     allRequiredVerified (verificationData after) = false)
  ∧ (checked = true ∨ documentId ∉ order →
     allRequiredVerified (verificationData st) = true →
     allRequiredVerified (verificationData after) = true).
Proof.
  intros Horder after. subst after. split_and!.
  - apply allRequiredVerified_spec, RequiredVerified_ids.
    intros id Hid. apply tick_all. left. by rewrite Horder.
  - intros Hin ->. rewrite Horder in Hin.
    destruct (allRequiredVerified _) eqn:Hall; [|done].
    apply allRequiredVerified_spec in Hall.
    pose proof (proj1 (RequiredVerified_ids _) Hall documentId Hin) as Hv.
    apply VerifiedIn_tick in Hv. by rewrite decide_True in Hv.
  - intros Hkeep Hall%allRequiredVerified_spec.
    apply allRequiredVerified_spec, RequiredVerified_ids.
    intros id Hid. apply VerifiedIn_tick. case_decide as Heq.
    + subst id. destruct Hkeep as [?|Hnot]; [done|].
      destruct Hnot. by rewrite Horder.
    + by apply (proj1 (RequiredVerified_ids _) Hall).
Qed.

(** X14. Notes and ticks do not interfere: writing a note on a document changes
    no document's verification, so it never changes whether the map is
    complete; and ticking or unticking a document keeps its note. *)
Theorem notes_and_ticks (now : string) (documentId newNotes : string)
    (checked : bool) (st : State) :
  (∀ other,
     VerifiedIn (verificationData (handleNotesChange documentId newNotes st))
                other
     ↔ VerifiedIn (verificationData st) other)
  ∧ allRequiredVerified
      (verificationData (handleNotesChange documentId newNotes st))
    = allRequiredVerified (verificationData st)
  ∧ notes (entryOf (verificationData
                      (handleDocumentVerification now documentId checked
                         (handleNotesChange documentId newNotes st)))
                   documentId)
    = JStr newNotes.
Proof.
  assert (∀ other,
            VerifiedIn
              (verificationData (handleNotesChange documentId newNotes st))
              other
            ↔ VerifiedIn (verificationData st) other) as Hsame.
  { intros other. unfold VerifiedIn. rewrite handleNotesChange_lookup.
    case_decide as Heq; [|done]. subst other. unfold entryOf.
    destruct (verificationData st !! documentId) as [entry|]; simpl.
    - split; intros (e & [= <-] & Hv); eauto.
    - split; [by intros (e & [= <-] & Hv) | by intros (e & ? & _)]. }
  split_and!; [done | |].
  - apply eq_true_iff_eq. rewrite !allRequiredVerified_spec.
    unfold RequiredVerified. by setoid_rewrite Hsame.
  - unfold entryOf.
    rewrite handleDocumentVerification_lookup, decide_True by done.
    cbn [default from_option notes id]. unfold entryOf.
    by rewrite handleNotesChange_lookup, decide_True.
Qed.

(** *** The statistics of the console *)

Lemma no_verified_among_actionable (l : list Student) :
  List.filter (λ s, strictEqStr (status s) "verified")
              (List.filter isActionable l) = [].
Proof.
  induction l as [|s l IH]; [done|]. simpl.
  destruct (isActionable s) eqn:Ha; [|done]. simpl.
  apply isActionable_spec in Ha as [Hs _]. by rewrite Hs.
Qed.

(** X15. The statistics computed after a successful load never count a verified
    student: the list they are computed from holds 'photo_uploaded'
    students only, so "fully verified" and the completion rate are 0 and
    every listed student counts as pending. *)
Theorem stats_count_no_verified (departmentName : string) (ok : bool)
    (dataSuccess : JsVal) (returned : list Student) (st : State) :
  ok && truthy dataSuccess = true →
  let st' := loadStudentsForVerification departmentName
               (LoadResponded ok dataSuccess (Some returned)) st in
  let listedCount := Z.of_nat (length (students st')) in
  departmentStats st'
  = Some {| totalStudents := listedCount; fullyVerified := 0;
            pendingVerification := listedCount; completionRate := 0 |}.
Proof.
  intros Hok st' listedCount. subst st' listedCount.
  unfold loadStudentsForVerification. rewrite Hok.
  cbn [departmentStats setLoading setStudentSlipStatus setDepartmentStats
       students setStudents setFilteredStudents].
  unfold statsOf. rewrite no_verified_among_actionable.
  cbn [length Z.of_nat]. f_equal. f_equal; [lia|].
  destruct (0 <? _) eqn:E; [|done]. apply Z.ltb_lt in E.
  unfold roundPercent. apply Z.div_small. lia.
Qed.

(** *** The slip button *)

(** X16. The slip button can be pressed exactly when the student is verified
    (status 'verified' or 'documents_verified') and no slip is being
    produced for that student.  A student in the state the console lists
    (status 'photo_uploaded') is not verified: for every such student the
    button is disabled, with the notice "Student must be verified first". *)
Theorem slip_button (isPrinting : bool) (slip : option SlipStatus)
    (student : Student) :
  (disabled (getSlipButtonInfo isPrinting slip student) = false
   ↔ (status student = JStr "verified"
      ∨ status student = JStr "documents_verified")
     ∧ isPrinting = false)
  ∧ (Actionable student →
     disabled (getSlipButtonInfo isPrinting slip student) = true
     ∧ title (getSlipButtonInfo isPrinting slip student)
       = "Student must be verified first").
Proof.
  assert (isStudentVerified student = true
          ↔ status student = JStr "verified"
            ∨ status student = JStr "documents_verified") as Hverified.
  { unfold isStudentVerified. by rewrite orb_true_iff, !strictEqStr_true. }
  split.
  - rewrite <- Hverified. unfold getSlipButtonInfo.
    destruct (isStudentVerified student), isPrinting; simpl;
      try (split; [done | by intros [??]]).
    by destruct (truthy _).
  - intros [Hstatus _]. unfold getSlipButtonInfo.
    assert (isStudentVerified student = false) as ->; [|done].
    unfold isStudentVerified. by rewrite Hstatus.
Qed.

(** *** Opening the modal, then saving *)

Lemma defaultData_lookup doc :
  doc ∈ documentTypes →
  defaultData !! docId doc
  = Some {| verified := JBool false; notes := JStr "";
            verifiedAt := JNull; verifiedBy := JNull |}.
Proof.
  unfold documentTypes. rewrite !elem_of_cons, elem_of_nil.
  intros Hin. repeat destruct Hin as [->|Hin]; [vm_compute; reflexivity..|done].
Qed.

Lemma defaultData_incomplete : allRequiredVerified defaultData = false.
Proof. vm_compute. reflexivity. Qed.

(** X17. [openVerificationModal] always selects the student and shows the modal.
    The map it shows is the stored one only when the answer is OK,
    successful and carries documents; in every other case (failure, missing
    documents, failed call) it is the default map, in which each of the ten
    document types is unverified, with no document link.  Saving
    successfully right after opening therefore sends the status call exactly
    when the stored map was already complete, and never after a failed
    load. *)
Theorem open_then_save (student : Student) (outcome : DocumentsOutcome)
    (st : State) (departmentName : string) (dataSuccess dataError : JsVal)
    (reloaded : LoadOutcome) :
  truthy dataSuccess = true →
  let opened := openVerificationModal student outcome st in
  let shown := verificationData (openedState opened) in
  let saved := saveVerification departmentName
                 (Responded true dataSuccess dataError) reloaded
                 (openedState opened) in
  openedFor opened = student_id student
  ∧ selectedStudent (openedState opened) = Some student
  ∧ showVerificationModal (openedState opened) = true
  ∧ match outcome with
    | DocumentsResponded ok loadSuccess (Some stored) links =>
        if ok && truthy loadSuccess
        then shown = stored ∧ openedLinks opened = default ∅ links
        else shown = defaultData ∧ openedLinks opened = ∅
    | _ => shown = defaultData ∧ openedLinks opened = ∅
    end
  ∧ (∀ doc, doc ∈ documentTypes →
       ∃ entry, defaultData !! docId doc = Some entry
                ∧ verified entry = JBool false)
  ∧ issuedBetween (openedState opened) saved
    = [PutDocuments (student_id student) shown "Department Admin"]
      ++ (if allRequiredVerified shown
          then [PutStatus (studentId student) "documents_verified"] else [])
      ++ [GetPendingVerification departmentName]
  ∧ (shown = defaultData →
     issuedBetween (openedState opened) saved
     = [PutDocuments (student_id student) defaultData "Department Admin";
        GetPendingVerification departmentName]).
Proof.
  intros Hsuccess opened shown saved.
  assert (selectedStudent (openedState opened) = Some student) as Hselected.
  { subst opened. unfold openVerificationModal.
    destruct outcome as [|ok loadSuccess [stored|] links]; try done.
    by destruct (ok && truthy loadSuccess). }
  assert (issuedBetween (openedState opened) saved
          = [PutDocuments (student_id student) shown "Department Admin"]
            ++ (if allRequiredVerified shown
                then [PutStatus (studentId student) "documents_verified"]
                else [])
            ++ [GetPendingVerification departmentName]) as Hissued.
  { apply issuedBetween_app. subst saved.
    by rewrite (saveVerification_requests _ _ _ _ _ student). }
  split_and!; try done.
  - subst shown opened. unfold openVerificationModal.
    destruct outcome as [|ok loadSuccess [stored|] links]; try done.
    by destruct (ok && truthy loadSuccess).
  - intros doc Hin. rewrite defaultData_lookup by done. eauto.
  - intros Hdefault. rewrite Hissued, Hdefault, defaultData_incomplete. done.
Qed.

(** *** Viewing a document *)

Section viewing_facts.
Context `{Runtime}.

Lemma find_documentType doc :
  doc ∈ documentTypes →
  List.find (λ d, String.eqb (docId d) (docId doc)) documentTypes = Some doc.
Proof.
  unfold documentTypes. rewrite !elem_of_cons, elem_of_nil.
  intros Hin. repeat destruct Hin as [->|Hin]; [reflexivity..|done].
Qed.

Lemma find_unknown documentId :
  (∀ doc, doc ∈ documentTypes → docId doc ≠ documentId) →
  List.find (λ d, String.eqb (docId d) documentId) documentTypes = None.
Proof.
  generalize documentTypes. intros l Hunknown.
  induction l as [|doc l IH]; [done|]. simpl.
  destruct (String.eqb_spec (docId doc) documentId) as [Heq|_].
  - destruct (Hunknown doc); [left | done].
  - apply IH. intros doc' Hin. apply Hunknown. by right.
Qed.

(** X18. For each of the ten document types, "view" looks the stored file up
    under the type's backend field name: it opens the Drive URL built from
    the stored identifier when the link map has a truthy one, and otherwise
    opens nothing and shows "Document link not available for" followed by
    the type's name.  For an identifier that names no document type, the
    identifier itself serves as field name and as name. *)
Theorem view_document (documentLinks : DocumentLinks) (documentId : string) :
  (∀ doc, doc ∈ documentTypes →
     handleViewDocument documentLinks (docId doc)
     = let link := default JUndefined (documentLinks !! docBackendField doc) in
       if truthy link
       then WindowOpened ("https://drive.google.com/file/d/" +:+ toStr link
                          +:+ "/view")
       else NotAvailable ("Document link not available for " +:+ docName doc))
  ∧ ((∀ doc, doc ∈ documentTypes → docId doc ≠ documentId) →
     handleViewDocument documentLinks documentId
     = let link := default JUndefined (documentLinks !! documentId) in
       if truthy link
       then WindowOpened ("https://drive.google.com/file/d/" +:+ toStr link
                          +:+ "/view")
       else NotAvailable ("Document link not available for " +:+ documentId)).
Proof.
  split.
  - intros doc Hin. unfold handleViewDocument.
    rewrite find_documentType by done.
    assert (String.eqb (docBackendField doc) "" = false
            ∧ String.eqb (docName doc) "" = false) as [-> ->]; [|done].
    revert Hin. unfold documentTypes. rewrite !elem_of_cons, elem_of_nil.
    intros Hin. repeat destruct Hin as [->|Hin]; done.
  - intros Hunknown. unfold handleViewDocument.
    by rewrite find_unknown.
Qed.

End viewing_facts.

(** *** The search box *)

Lemma startsWith_spec s prefix :
  Strings.startsWith s prefix = true ↔ ∃ rest, s = prefix +:+ rest.
Proof.
  revert s. induction prefix as [|p prefix IH]; intros s; simpl.
  - destruct s; (split; [by eexists | done]).
  - destruct s as [|c s]; simpl.
    + split; [done | by intros [? [=]]].
    + rewrite andb_true_iff, Ascii.eqb_eq, IH. split.
      * intros [-> [rest ->]]. eauto.
      * intros [rest [= -> ->]]. eauto.
Qed.

(** [includes] holds exactly of the strings that contain the searched text. *)
Lemma string_includes_spec s search :
  Strings.includes s search = true
  ↔ ∃ before after, s = before +:+ search +:+ after.
Proof.
  induction s as [|c s IH]; cbn [Strings.includes].
  - rewrite orb_false_r, startsWith_spec. split.
    + intros [rest Hrest]. by exists "", rest.
    + intros (before & after & Heq). destruct before; [eauto | done].
  - rewrite orb_true_iff, IH, (startsWith_spec (String c s)). split.
    + intros [[rest ->]|(before & after & ->)].
      * by exists "", rest.
      * by exists (String c before), after.
    + intros ([|b before] & after & Heq); simpl in Heq.
      * left. eauto.
      * injection Heq as -> ->. right. eauto.
Qed.

Lemma filterThrowing_Some {A} (p : A → option bool) l kept :
  filterThrowing p l = Some kept →
  kept `sublist_of` l
  ∧ Forall (λ x, p x = Some true) kept
  ∧ (∀ x, x ∈ l → p x = Some true → x ∈ kept).
Proof.
  revert kept. induction l as [|x l IH]; intros kept; simpl.
  - intros [= <-]. split_and!; [done | constructor | done].
  - destruct (p x) as [keep|] eqn:Hp; [|done].
    destruct (filterThrowing p l) as [kept'|]; [|done].
    destruct (IH kept' eq_refl) as (Hsub & Hall & Hin).
    intros [= <-]. destruct keep.
    + split_and!; [by constructor | by constructor |].
      intros y [->|Hy]%elem_of_cons Hpy; [left | right; auto].
    + split_and!; [by constructor | done |].
      intros y [->|Hy]%elem_of_cons Hpy; [congruence | auto].
Qed.

Lemma filterThrowing_kept {A} (p : A → option bool) kept :
  Forall (λ x, p x = Some true) kept → filterThrowing p kept = Some kept.
Proof.
  induction 1 as [|x kept Hx _ IH]; simpl; [done|]. by rewrite Hx, IH.
Qed.

Lemma fieldMatches_true v searchQuery :
  fieldMatches v searchQuery = Some true
  ↔ ∃ text before after,
      v = JStr text ∧ text ≠ ""
      ∧ Strings.toLowerCase text
        = before +:+ Strings.toLowerCase searchQuery +:+ after.
Proof.
  unfold fieldMatches.
  destruct v as [| |b|n|s|];
    try (split;
         [simpl; try destruct b; try destruct (numTruthy n); done
         | by intros (? & ? & ? & [=] & _)]).
  split.
  - intros [= [Hs Hi]%andb_true_iff].
    apply negb_true_iff, String.eqb_neq in Hs.
    apply string_includes_spec in Hi as (before & after & Heq). eauto 10.
  - intros (text & before & after & [= <-] & Hs & Heq).
    apply String.eqb_neq in Hs. rewrite Hs. simpl. f_equal.
    apply string_includes_spec. eauto.
Qed.

Lemma rowMatches_true searchQuery row :
  rowMatches searchQuery row = Some true →
  ∃ v, (v = name (listed row) ∨ v = studentId (listed row) ∨ v = email row)
       ∧ fieldMatches v searchQuery = Some true.
Proof.
  unfold rowMatches, orThrowing.
  destruct (fieldMatches (name (listed row)) searchQuery) as [[]|] eqn:E1;
    [eauto | | done].
  destruct (fieldMatches (studentId (listed row)) searchQuery)
    as [[]|] eqn:E2; [eauto | | done].
  eauto.
Qed.

(** X19. The search never invents or reorders rows: what it hands to the list is
    a sub-list of the students, all of them when the query is blank after
    trimming.  With a query that is not blank, a row is kept only if its
    name, student id or e-mail is a non-empty string that contains the
    query, both taken in lower case (the query is taken as typed, spaces
    included); searching the result again with the same query returns it
    unchanged. *)
Theorem search_result (searchQuery : string) (students kept : list Listed) :
  searchStudents searchQuery students = Some kept →
  kept `sublist_of` students
  ∧ (trim searchQuery = "" → kept = students)
  ∧ (trim searchQuery ≠ "" →
     ∀ row, row ∈ kept →
       ∃ text before after,
         (name (listed row) = JStr text ∨ studentId (listed row) = JStr text
          ∨ email row = JStr text)
         ∧ text ≠ ""
         ∧ Strings.toLowerCase text
           = before +:+ Strings.toLowerCase searchQuery +:+ after)
  ∧ searchStudents searchQuery kept = Some kept.
Proof.
  unfold searchStudents.
  destruct (String.eqb_spec (trim searchQuery) "") as [Hblank|Hquery].
  - intros [= <-]. split_and!; done.
  - intros Hkept.
    destruct (filterThrowing_Some _ _ _ Hkept) as (Hsub & Hall & _).
    split_and!; [done | done | | by apply filterThrowing_kept].
    intros _ row Hrow.
    rewrite Forall_forall in Hall.
    destruct (rowMatches_true _ _ (Hall row Hrow)) as (v & Hv & Hmatch).
    apply fieldMatches_true in Hmatch
      as (text & before & after & -> & Htext & Heq).
    exists text, before, after.
    split; [|done]. destruct Hv as [<-|[<-|<-]]; auto.
Qed.

(** X20. The search throws only on a member that is truthy and not a string: on
    rows whose name, student id and e-mail are strings or absent it always
    returns a list. *)
Theorem search_total_on_text (searchQuery : string) (students : list Listed) :
  (∀ row v, row ∈ students →
     v = name (listed row) ∨ v = studentId (listed row) ∨ v = email row →
     (∃ text, v = JStr text) ∨ truthy v = false) →
  is_Some (searchStudents searchQuery students).
Proof.
  intros Htext. unfold searchStudents.
  destruct (String.eqb (trim searchQuery) ""); [by exists students|].
  assert (∀ v, (∃ text, v = JStr text) ∨ truthy v = false →
               is_Some (fieldMatches v searchQuery)) as Hfield.
  { intros v [[text ->]|Hfalsy]; [by eexists|].
    exists false. unfold fieldMatches.
    destruct v; simpl in *; by rewrite ?Hfalsy. }
  induction students as [|row students IH]; [by exists []|].
  cbn [filterThrowing].
  assert (∀ v, v = name (listed row) ∨ v = studentId (listed row)
               ∨ v = email row → is_Some (fieldMatches v searchQuery))
    as Hrow.
  { intros v Hv. apply Hfield, (Htext row); [left | done]. }
  destruct (Hrow (name (listed row))) as [b1 E1]; [auto|].
  destruct (Hrow (studentId (listed row))) as [b2 E2]; [auto|].
  destruct (Hrow (email row)) as [b3 E3]; [auto|].
  destruct IH as [kept' Hkept'].
  { intros row' v Hin. apply Htext. by right. }
  rewrite Hkept'. unfold rowMatches, orThrowing. rewrite E1, E2, E3.
  destruct b1, b2; by eexists.
Qed.

(** *** The progress shown in the modal *)

Lemma filter_length_mono {A} (p q : A → bool) (l : list A) :
  (∀ x, x ∈ l → q x = true → p x = true) →
  (length (List.filter q l) ≤ length (List.filter p l))%nat.
Proof.
  induction l as [|x l IH]; intros Hpq; [done|]. cbn [List.filter].
  assert (length (List.filter q l) ≤ length (List.filter p l))%nat as Hle.
  { apply IH. intros y Hy. apply Hpq. by right. }
  destruct (q x) eqn:Hq.
  - assert (p x = true) as -> by (apply Hpq; [left | done]). simpl. lia.
  - destruct (p x); simpl; lia.
Qed.

Lemma filter_length_all {A} (p : A → bool) (l : list A) :
  length (List.filter p l) = length l → ∀ x, x ∈ l → p x = true.
Proof.
  induction l as [|y l IH]; intros Hlen x Hin; [by apply not_elem_of_nil in Hin|].
  pose proof (List.filter_length_le p l) as Hle.
  cbn [List.filter] in Hlen. destruct (p y) eqn:Hp.
  - apply elem_of_cons in Hin as [->|Hin]; [done|].
    apply IH; [|done]. simpl in Hlen. lia.
  - simpl in Hlen. lia.
Qed.

(** X21. The progress of the modal counts optional documents too.  It lies
    between 0 and 10, and is 0 for the default map; a complete map shows at
    least 6, and a progress of 10 means a complete map; but a progress of 6
    or more does not make a map complete. *)
Theorem progress_counts (data : VerificationData) :
  0 ≤ verifiedCount data ≤ 10
  ∧ verifiedCount defaultData = 0
  ∧ (allRequiredVerified data = true → 6 ≤ verifiedCount data)
  ∧ (verifiedCount data = 10 → allRequiredVerified data = true)
  ∧ 6 ≤ verifiedCount SampleCases.sixOfTen
  ∧ allRequiredVerified SampleCases.sixOfTen = false.
Proof.
  unfold verifiedCount. split; [|split_and!].
  - pose proof (List.filter_length_le (isVerified data) documentTypes) as Hle.
    change (length documentTypes) with 10%nat in Hle. lia.
  - vm_compute. reflexivity.
  - intros Hall. unfold allRequiredVerified in Hall. cbv zeta in Hall.
    rewrite forallb_forall in Hall.
    pose proof (filter_length_mono (isVerified data) docRequired documentTypes)
      as Hle.
    change (length (List.filter docRequired documentTypes)) with 6%nat in Hle.
    enough (6 ≤ length (List.filter (isVerified data) documentTypes))%nat
      by lia.
    apply Hle. intros doc Hin Hrequired. apply Hall, filter_In.
    by rewrite <- list_elem_of_In.
  - intros Hten. unfold allRequiredVerified. cbv zeta.
    apply forallb_forall. intros doc [Hin _]%filter_In.
    apply (filter_length_all (isVerified data) documentTypes);
      [|by apply list_elem_of_In].
    change (length documentTypes) with 10%nat. lia.
  - vm_compute. discriminate.
  - vm_compute. reflexivity.
Qed.

(** *** Worked examples *)

Lemma save_failure_keeps_modal_example :
  selectedStudent (saveVerification "Civil Engineering" Threw
                     SampleConsole.refreshed SampleConsole.allTicked)
  = Some SampleConsole.asha
  ∧ issuedBetween SampleConsole.allTicked
      (saveVerification "Civil Engineering" Threw SampleConsole.refreshed
         SampleConsole.allTicked)
    = [PutDocuments (JStr "STU-0042")
         (verificationData SampleConsole.allTicked) "Department Admin"].
Proof.
  pose proof (save_failure_keeps_modal "Civil Engineering" Threw
                SampleConsole.refreshed SampleConsole.allTicked eq_refl)
    as Hsave.
  cbv zeta in Hsave. destruct Hsave as [_ Hsave].
  destruct (Hsave SampleConsole.asha ltac:(vm_compute; reflexivity))
    as (Hissued & Hselected & _).
  split; [exact Hselected | exact Hissued].
Defined.

Lemma required_ticks_example :
  allRequiredVerified
    (verificationData
       (foldl (λ st documentId,
                 handleDocumentVerification "2026-07-02T10:00:00.000Z"
                   documentId true st)
              initialState SampleCases.requiredBackwards)) = true
  ∧ allRequiredVerified
      (verificationData
         (handleDocumentVerification "2026-07-02T10:05:00.000Z"
            "aadhar_card" false SampleConsole.allTicked)) = false.
Proof.
  assert (SampleCases.requiredBackwards
          ≡ₚ ["10th_marksheet"; "12th_marksheet"; "transfer_certificate";
              "character_certificate"; "passport_photos"; "aadhar_card"])
    as Horder.
  { apply (reverse_Permutation
      ["10th_marksheet"; "12th_marksheet"; "transfer_certificate";
       "character_certificate"; "passport_photos"; "aadhar_card"]). }
  pose proof (required_ticks "2026-07-02T10:00:00.000Z" initialState
                SampleCases.requiredBackwards "aadhar_card" false Horder)
    as Hall.
  pose proof (required_ticks "2026-07-02T10:05:00.000Z"
                SampleConsole.allTicked SampleCases.requiredBackwards
                "aadhar_card" false Horder) as Hone.
  cbv zeta in Hall, Hone.
  destruct Hall as (Hall & _). destruct Hone as (_ & Hone & _).
  split; [exact Hall|]. apply Hone; [|reflexivity].
  unfold SampleCases.requiredBackwards. in_list.
Defined.

Lemma stats_count_no_verified_example :
  departmentStats (loadStudentsForVerification "Civil Engineering"
                     SampleConsole.pending initialState)
  = Some {| totalStudents := 1; fullyVerified := 0;
            pendingVerification := 1; completionRate := 0 |}.
Proof.
  etrans; [apply (stats_count_no_verified "Civil Engineering" true
                    (JBool true)
                    [SampleConsole.asha; SampleConsole.ravi;
                     SampleConsole.meena] initialState eq_refl)|].
  vm_compute. reflexivity.
Defined.

Lemma open_then_save_example :
  issuedBetween
    (openedState (openVerificationModal SampleConsole.asha DocumentsThrew
                    initialState))
    (saveVerification "Civil Engineering"
       (Responded true (JBool true) JUndefined) SampleConsole.refreshed
       (openedState (openVerificationModal SampleConsole.asha DocumentsThrew
                       initialState)))
  = [PutDocuments (JStr "STU-0042") defaultData "Department Admin";
     GetPendingVerification "Civil Engineering"].
Proof.
  pose proof (open_then_save SampleConsole.asha DocumentsThrew initialState
                "Civil Engineering" (JBool true) JUndefined
                SampleConsole.refreshed eq_refl) as Hopen.
  cbv zeta in Hopen.
  destruct Hopen as (_ & _ & _ & [Hshown _] & _ & _ & Hissued).
  exact (Hissued Hshown).
Defined.

Lemma search_result_example :
  [SampleCases.ashaRow] `sublist_of` SampleCases.rows
  ∧ searchStudents "RAO" [SampleCases.ashaRow] = Some [SampleCases.ashaRow].
Proof.
  pose proof (search_result "RAO" SampleCases.rows [SampleCases.ashaRow]
                ltac:(vm_compute; reflexivity)) as Hfound.
  destruct Hfound as (Hsub & _ & _ & Hagain).
  split; [exact Hsub | exact Hagain].
Defined.

Lemma search_total_on_text_example :
  is_Some (searchStudents "rao" SampleCases.rows).
Proof.
  apply search_total_on_text. intros row v Hrow Hv.
  unfold SampleCases.rows in Hrow.
  rewrite !elem_of_cons, elem_of_nil in Hrow.
  destruct Hrow as [Hrow|[Hrow|[Hrow|[]]]]; subst row;
    destruct Hv as [Hv|[Hv|Hv]]; subst v;
    first [by right | left; eexists; reflexivity].
Defined.
End ConsoleFacts.

(** ** The roster fetch: properties *)

Module RosterFacts.
Import Roster JSFacts.

Section fetching_facts.
Context `{Runtime}.

Lemma errorText_not_empty err : errorText err ≠ "".
Proof.
  unfold errorText. destruct (String.eqb _ _); [done|].
  destruct (_ && _); done.
Qed.

Lemma errorText_Error message :
  errorText {| errorName := "Error"; errorMessage := message |}
  = "Backend error: " +:+ message.
Proof. reflexivity. Qed.

Lemma fetchSettled_unfold outcome st :
  fetchSettled outcome st
  = match fetched outcome with
    | inr validStudents =>
        {| students := validStudents; loading := false; error := error st |}
    | inl err =>
        {| students := []; loading := false; error := Some (errorText err) |}
    end.
Proof. unfold fetchSettled. by destruct (fetched outcome). Qed.

Lemma fetchStudents_unfold outcome st :
  fetchStudents outcome st
  = match fetched outcome with
    | inr validStudents =>
        {| students := validStudents; loading := false; error := None |}
    | inl err =>
        {| students := []; loading := false; error := Some (errorText err) |}
    end.
Proof. unfold fetchStudents. by rewrite fetchSettled_unfold. Qed.

Lemma elem_of_fetched outcome validStudents entry :
  fetched outcome = inr validStudents →
  entry ∈ validStudents →
  isValid (Object entry) = true
  ∧ ∃ contentType statusCode statusText elements,
      outcome = Answered contentType true statusCode statusText
                  (BodyRead (Some elements))
      ∧ Object entry ∈ elements.
Proof.
  unfold fetched.
  destruct outcome as [|contentType ok statusCode statusText body]; [done|].
  destruct (match contentType with Some _ => _ | None => _ end); [done|].
  destruct ok; [|done]. destruct body as [|[elements|]]; try done.
  intros [= <-] Hin. apply list_elem_of_omap in Hin as (element & Hin & Hkept).
  destruct element as [|entry']; [done|].
  destruct (isValid (Object entry')) eqn:Hvalid; [|done].
  injection Hkept as ->. split; [done|]. eauto 10.
Qed.

Abbreviation hasMembers entry :=
  (truthy (studentId entry) = true ∧ truthy (name entry) = true
   ∧ truthy (department entry) = true).

Lemma step_keeps_complete st e :
  (∀ entry, entry ∈ students st → hasMembers entry) →
  ∀ entry, entry ∈ students (step st e) → hasMembers entry.
Proof.
  intros Hall entry. destruct e as [|outcome]; cbn [step]; [apply Hall|].
  rewrite fetchSettled_unfold.
  destruct (fetched outcome) as [err|valid] eqn:E; cbn [students];
    [by intros ?%not_elem_of_nil|].
  intros Hin. destruct (elem_of_fetched _ _ _ E Hin) as [Hvalid _].
  unfold isValid in Hvalid.
  by apply andb_true_iff in Hvalid as [[??]%andb_true_iff ?].
Qed.

(** X22. However the calls of [fetchStudents] overlap and in whatever order
    they settle, every student the dashboard holds has a truthy [studentId],
    [name] and [department].  A settlement lowers the loading flag; the
    settlement of an OK JSON answer with a [students] array shows exactly
    the objects of the array that have the three members.  A call that no
    other call's start or settlement separates from its own start leaves a
    state that depends on its answer alone. *)
Theorem roster_after_fetch (events : list Event) (outcome : Outcome) :
  let st := run events in
  let st' := fetchSettled outcome st in
  (∀ entry, entry ∈ students st →
     truthy (studentId entry) = true ∧ truthy (name entry) = true
     ∧ truthy (department entry) = true)
  ∧ loading st' = false
  ∧ (∀ contentType statusCode statusText elements entry,
       outcome = Answered (Some contentType) true statusCode statusText
                   (BodyRead (Some elements)) →
       Strings.includes contentType "application/json" = true →
       (entry ∈ students st'
        ↔ Object entry ∈ elements
          ∧ truthy (studentId entry) = true ∧ truthy (name entry) = true
          ∧ truthy (department entry) = true))
  ∧ fetchStudents outcome st = fetchStudents outcome initialState.
Proof.
  intros st st'. subst st st'. split_and!.
  - unfold run.
    assert (∀ st0, (∀ entry, entry ∈ students st0 → hasMembers entry) →
                   ∀ entry, entry ∈ students (foldl step st0 events) →
                            hasMembers entry) as Hrun.
    { induction events as [|e events IH]; intros st0 Hall; [done|].
      cbn [foldl]. apply IH. by apply step_keeps_complete. }
    apply Hrun. by intros entry ?%not_elem_of_nil.
  - rewrite fetchSettled_unfold. by destruct (fetched outcome).
  - intros contentType statusCode statusText elements entry -> Hjson.
    rewrite fetchSettled_unfold. unfold fetched. rewrite Hjson.
    assert (String.eqb contentType "" = false) as ->.
    { destruct contentType; [|done]. by vm_compute in Hjson. }
    cbn [negb orb students]. rewrite list_elem_of_omap. split.
    + intros ([|entry'] & Hin & Hkept); [done|].
      destruct (isValid (Object entry')) eqn:Hvalid; [|done].
      injection Hkept as ->. split; [done|].
      unfold isValid in Hvalid.
      by apply andb_true_iff in Hvalid as [[??]%andb_true_iff ?].
    + intros (Hin & Hid & Hname & Hdept). exists (Object entry).
      split; [done|]. unfold isValid. by rewrite Hid, Hname, Hdept.
  - by rewrite !fetchStudents_unfold.
Qed.

(** X23. The settlement of a call that fails, for whatever reason and
    whatever the other calls have done, leaves an error text that is not
    empty and an empty roster, also when the dashboard held students before:
    the error screen is then shown.  The settlement of a call that succeeds
    shows the valid students of the answer and leaves the error as it finds
    it: an error that another call has set in between stays, and the error
    screen is shown after a success only in that case and when the answer
    holds no valid student.  A call that settles right after its own start
    and succeeds leaves no error. *)
Theorem failed_fetch_clears_roster (outcome : Outcome) (st : State) :
  let st' := fetchSettled outcome st in
  (∀ err, fetched outcome = inl err →
     students st' = [] ∧ error st' = Some (errorText err)
     ∧ errorText err ≠ "" ∧ showsErrorScreen st' = true)
  ∧ (∀ validStudents, fetched outcome = inr validStudents →
       students st' = validStudents ∧ error st' = error st
       ∧ (showsErrorScreen st' = true →
          validStudents = [] ∧ is_Some (error st))
       ∧ error (fetchStudents outcome st) = None
       ∧ showsErrorScreen (fetchStudents outcome st) = false)
  ∧ (showsErrorScreen st' = true → students st' = []).
Proof.
  intros st'. subst st'. rewrite fetchSettled_unfold, fetchStudents_unfold.
  split_and!.
  - intros err ->. cbn [students error]. unfold showsErrorScreen.
    cbn [students error length Nat.eqb andb].
    pose proof (errorText_not_empty err) as Hne.
    split_and!; try done. apply String.eqb_neq in Hne. by rewrite Hne.
  - intros validStudents ->. cbn [students error]. unfold showsErrorScreen.
    cbn [students error]. split_and!; try done.
    destruct (error st) as [text|]; [|done].
    intros [_ Hempty%Nat.eqb_eq]%andb_true_iff.
    split; [by destruct validStudents | by eexists].
  - unfold showsErrorScreen.
    destruct (fetched outcome) as [err|valid]; cbn [students error]; [done|].
    destruct (error st); [|done].
    intros [_ Hempty%Nat.eqb_eq]%andb_true_iff. by destruct valid.
Qed.

(** X24. The checks on the response come in a fixed order.  A response whose
    content type is absent or does not name JSON is refused whatever its
    status and body; a JSON response that is not OK is refused with its
    status code and text, and its body is not read; an OK JSON response
    without a [students] array is refused as well.  None of these texts is
    the time-out or the connection text. *)
Theorem response_checks (contentType : option string) (ok : bool)
    (statusCode : Z) (statusText : string) (body : Body) (st : State) :
  let st' := fetchStudents
               (Answered contentType ok statusCode statusText body) st in
  let json := match contentType with
              | Some ct => Strings.includes ct "application/json"
              | None => false
              end in
  (json = false →
   error st' = Some "Backend error: Backend returned non-JSON response")
  ∧ (json = true → ok = false →
     error st' = Some ("Backend error: HTTP error! status: "
                       +:+ NumberToString (ofZ statusCode) +:+ " - "
                       +:+ statusText))
  ∧ (json = true → ok = true → body = BodyRead None →
     error st' = Some ("Backend error: Invalid data format: expected "
                       +:+ doubleQuote +:+ "students" +:+ doubleQuote
                       +:+ " array")).
Proof.
  intros st' json. subst st' json. rewrite fetchStudents_unfold.
  unfold fetched. split_and!.
  - intros Hjson.
    assert (match contentType with
            | Some ct => String.eqb ct ""
                         || negb (Strings.includes ct "application/json")
            | None => true
            end = true) as ->; [|done].
    destruct contentType as [ct|]; [|done].
    rewrite Hjson. apply orb_true_r.
  - intros Hjson ->. destruct contentType as [ct|]; [|done].
    rewrite Hjson.
    assert (String.eqb ct "" = false) as ->; [|done].
    destruct ct; [|done]. by vm_compute in Hjson.
  - intros Hjson -> ->. destruct contentType as [ct|]; [|done].
    rewrite Hjson.
    assert (String.eqb ct "" = false) as ->; [|done].
    destruct ct; [|done]. by vm_compute in Hjson.
Qed.

End fetching_facts.

(** *** Worked examples *)

Lemma roster_after_fetch_example :
  SampleCases.complete
  ∈ students (@fetchSettled Sample.runtime SampleCases.answer
                (@run Sample.runtime [Started]))
  ∧ SampleCases.noDepartment
    ∉ students (@fetchSettled Sample.runtime SampleCases.answer
                  (@run Sample.runtime [Started])).
Proof.
  pose proof (@roster_after_fetch Sample.runtime [Started]
                SampleCases.answer) as Hfetch.
  cbv zeta in Hfetch. destruct Hfetch as (_ & _ & Hkept & _).
  specialize (Hkept _ _ _ _ SampleCases.complete eq_refl
                ltac:(vm_compute; reflexivity)) as Hcomplete.
  specialize (Hkept _ _ _ _ SampleCases.noDepartment eq_refl
                ltac:(vm_compute; reflexivity)) as Hnone.
  split.
  - apply Hcomplete. split; [left | by split_and!].
  - intros Hin. by apply Hnone in Hin as (_ & _ & _ & Hdept).
Defined.

(** Two calls overlap; the first is rejected after the second has started,
    and the second is then answered: the students of the answer are shown,
    and the error of the first call stays. *)
Lemma failed_fetch_clears_roster_example :
  students (@run Sample.runtime
              [Started; Started; Settled SampleCases.unreachable;
               Settled SampleCases.answer])
  = [SampleCases.complete]
  ∧ error (@run Sample.runtime
             [Started; Started; Settled SampleCases.unreachable;
              Settled SampleCases.answer])
    = Some "Cannot connect to backend server"
  ∧ students (@run Sample.runtime
                [Started; Settled SampleCases.answer; Started;
                 Settled SampleCases.unreachable])
    = [].
Proof.
  pose proof (@failed_fetch_clears_roster Sample.runtime SampleCases.answer
                (@run Sample.runtime
                   [Started; Started; Settled SampleCases.unreachable]))
    as Hgood.
  pose proof (@failed_fetch_clears_roster Sample.runtime
                SampleCases.unreachable
                (@run Sample.runtime
                   [Started; Settled SampleCases.answer; Started]))
    as Hbad.
  cbv zeta in Hgood, Hbad.
  destruct Hgood as (_ & Hgood & _). destruct Hbad as (Hbad & _).
  destruct (Hgood [SampleCases.complete] ltac:(vm_compute; reflexivity))
    as (Hstudents & Herror & _).
  destruct (Hbad {| errorName := "TypeError";
                    errorMessage := "Failed to fetch" |} eq_refl)
    as (Hempty & _).
  split_and!.
  - exact Hstudents.
  - etrans; [exact Herror | vm_compute; reflexivity].
  - exact Hempty.
Defined.

Lemma response_checks_example :
  error (@fetchStudents Sample.runtime SampleCases.gatewayPage
           {| students := [SampleCases.complete]; loading := false;
              error := None |})
  = Some "Backend error: Backend returned non-JSON response".
Proof.
  apply (@response_checks Sample.runtime (Some "text/html") false 502
           "Bad Gateway"). vm_compute. reflexivity.
Defined.

End RosterFacts.

(** ** The queue dashboard: counts and order *)

Module QueueOrderFacts.
Import QueueDashboard JSFacts QueueDashboardFacts.

(** *** The head count *)

Lemma total_length (values : list (list Student)) (z : Z) :
  foldl (λ total deptStudents, total + Z.of_nat (length deptStudents)) z values
  = z + Z.of_nat (length (concat values)).
Proof.
  revert z. induction values as [|v values IH]; intros z; cbn [foldl concat].
  - simpl. lia.
  - rewrite IH, length_app. lia.
Qed.

Lemma lookupGroup_keys (groups : Groups) :
  NoDup (map fst groups) →
  omap (λ key, lookupGroup key groups) (map fst groups) = map snd groups.
Proof.
  induction groups as [|[d deptStudents] rest IH]; [done|].
  intros [Hnotin Hrest]%NoDup_cons.
  cbn [map fst snd omap list_omap lookupGroup] in *.
  rewrite String.eqb_refl. f_equal.
  rewrite <- IH by done.
  assert (∀ keys : list string, d ∉ keys →
            omap (λ key, if String.eqb d key then Some deptStudents
                         else lookupGroup key rest) keys
            = omap (λ key, lookupGroup key rest) keys) as Hother.
  { induction keys as [|key keys IHkeys]; [done|].
    intros [Hne Hkeys]%not_elem_of_cons. cbn [omap list_omap].
    apply String.eqb_neq in Hne. by rewrite Hne, IHkeys. }
  by apply Hother.
Qed.

Lemma ownValues_Permutation (groups : Groups) :
  NoDup (map fst groups) → ownValues groups ≡ₚ map snd groups.
Proof.
  intros Hkeys. unfold ownValues.
  by rewrite ownKeys_Permutation, lookupGroup_keys.
Qed.

Lemma concat_pushOwn dept student (groups : Groups) :
  concat (map snd (pushOwn dept student groups))
  ≡ₚ student :: concat (map snd groups).
Proof.
  induction groups as [|[d deptStudents] rest IH]; cbn [pushOwn map concat snd].
  - done.
  - destruct (String.eqb d dept); cbn [map concat snd].
    + rewrite <- app_assoc. cbn [app].
      by rewrite <- Permutation_middle.
    + rewrite IH. by rewrite <- Permutation_middle.
Qed.

Lemma concat_groupStudents students groups :
  groupStudents students = Some groups →
  concat (map snd groups) ≡ₚ List.filter inQueue students.
Proof.
  revert groups.
  induction students as [|student students IH] using rev_ind; intros groups.
  - by intros [= <-].
  - rewrite groupStudents_snoc, List.filter_app.
    destruct (groupStudents students) as [acc|]; [|done]. simpl.
    specialize (IH acc eq_refl).
    destruct (inQueue student).
    + unfold pushStudent. destruct (inherited (deptOf student)); [done|].
      intros [= <-]. rewrite concat_pushOwn, IH.
      by rewrite <- Permutation_cons_append.
    + intros [= <-]. by rewrite IH, app_nil_r.
Qed.

Section counts.
Context `{Runtime} `{ArraySort}.

Lemma length_concat_sorted (groups : Groups) :
  length (concat (map snd
            (map (λ entry, (entry.1, arraySort compareRegistration entry.2))
                 groups)))
  = length (concat (map snd groups)).
Proof.
  induction groups as [|entry groups IH]; [done|].
  cbn [map concat snd]. by rewrite !length_app, arraySort_Permutation, IH.
Qed.

Lemma totalInQueue_Some students grouped :
  groupedStudents students = Some grouped →
  NoDup (map fst grouped)
  ∧ totalInQueue students
    = Some (Z.of_nat (length (List.filter inQueue students))).
Proof.
  intros Hgrouped. unfold totalInQueue. rewrite Hgrouped.
  apply groupedStudents_Some in Hgrouped as (groups & Hgroups & ->).
  assert (NoDup (map fst
            (map (λ entry, (entry.1, arraySort compareRegistration entry.2))
                 groups))) as Hkeys.
  { rewrite map_map. simpl. by apply (NoDup_keys students). }
  split; [done|]. cbn [mbind option_bind]. f_equal.
  rewrite total_length, ownValues_Permutation, length_concat_sorted by done.
  by rewrite (concat_groupStudents students).
Qed.

(** X25. The head count of the page exists exactly when the grouping
    completes, that is when no queued student has a department named like a
    member of [Object.prototype]; it is then the number of students that
    are neither absent nor verified, whatever their departments and dates;
    and when cards are shown, it is the sum of the queue lengths the cards
    display. *)
Theorem total_in_queue (students : list Student) :
  (is_Some (totalInQueue students) ↔ OwnDepartments students)
  ∧ (∀ total, totalInQueue students = Some total →
       total = Z.of_nat (length (List.filter inQueue students)))
  ∧ ∀ cards, render students = Some (Cards cards) →
      totalInQueue students
      = Some (foldr (λ card total, queueLength card + total) 0 cards).
Proof.
  split_and!.
  - rewrite <- groupedStudents_is_Some, !is_Some_alt. unfold totalInQueue.
    by destruct (groupedStudents students).
  - intros total Htotal.
    destruct (groupedStudents students) as [grouped|] eqn:Hgrouped;
      [|by unfold totalInQueue in Htotal; rewrite Hgrouped in Htotal].
    destruct (totalInQueue_Some students grouped Hgrouped) as [_ Hcount].
    congruence.
  - intros cards. unfold render, totalInQueue.
    destruct (groupedStudents students) as [grouped|] eqn:Hgrouped; [|done].
    cbn [mbind option_bind]. cbv zeta.
    destruct (length _ =? 0)%nat; [done|]. intros [= <-]. f_equal.
    rewrite total_length. unfold ownValues.
    induction (ownKeys grouped) as [|key keys IH]; [done|].
    cbn [map foldr omap list_omap]. rewrite <- IH.
    destruct (lookupGroup key grouped) as [deptStudents|];
      cbn [default from_option id queueLength departmentCard concat length].
    + rewrite length_app. lia.
    + lia.
Qed.

End counts.

(** *** The cards *)

Section cards.
Context `{Runtime} `{ArraySort}.

(** X26. A department gets a card only when a student waits in it: every
    card the page shows lists at least one student, and at most three, so
    the "Queue Clear!" notice of a card is never displayed; and no two cards
    are for the same department. *)
Theorem cards_never_clear (students : list Student)
    (cards : list DepartmentCard) :
  render students = Some (Cards cards) →
  cards ≠ []
  ∧ NoDup (map cardDepartment cards)
  ∧ ∀ card, card ∈ cards →
      1 ≤ queueLength card
      ∧ ∃ topThree more,
          cardBody card = Queue topThree more
          ∧ (1 ≤ length topThree ≤ 3)%nat.
Proof.
  destruct (groupedStudents students) as [grouped|] eqn:Hgrouped;
    [|by unfold render; rewrite Hgrouped].
  rewrite (render_unfold students grouped) by done.
  destruct (ownKeys grouped) as [|d depts] eqn:E; [done|].
  rewrite <- E. intros [= <-].
  destruct (keys_groupedStudents students grouped Hgrouped) as [Hnodup Hkeys].
  split_and!.
  - by rewrite E.
  - rewrite map_map. cbn [cardDepartment departmentCard]. by rewrite map_id.
  - intros card (dept & -> & Hin)%list_elem_of_fmap.
    apply Hkeys in Hin.
    assert (arraySort compareRegistration (queueOf dept students) ≠ [])
      as Hqueue by by apply arraySort_not_nil.
    rewrite departmentCard_queue by done. cbn [queueLength cardBody].
    destruct (arraySort compareRegistration (queueOf dept students))
      as [|first rest]; [done|].
    split; [simpl; lia|]. eexists _, _. split; [done|].
    rewrite length_take. cbn [length]. lia.
Qed.

End cards.

(** *** The order inside a queue *)

Section order.
Context {A : Type} (comparefn : A → A → JsNumber).

(** Inserting [x] never carries it over an element of its own class, when
    no two elements of the class compare as out of order. *)
Lemma insertSorted_filter (sameClass : A → bool) x l :
  (∀ y, sameClass x = true → sameClass y = true →
        numLt (ofZ 0) (comparefn x y) = false) →
  List.filter sameClass (insertSorted comparefn x l)
  = List.filter sameClass (x :: l).
Proof.
  intros Hclass. induction l as [|y rest IH]; [done|].
  cbn [insertSorted]. destruct (numLt (ofZ 0) (comparefn x y)) eqn:Hcmp;
    [|done].
  cbn [List.filter] in *. rewrite IH.
  destruct (sameClass x) eqn:Hx, (sameClass y) eqn:Hy; try done.
  rewrite Hclass in Hcmp by done. done.
Qed.

Lemma stableSort_filter (sameClass : A → bool) l :
  (∀ x y, sameClass x = true → sameClass y = true →
          numLt (ofZ 0) (comparefn x y) = false) →
  List.filter sameClass (stableSort comparefn l) = List.filter sameClass l.
Proof.
  intros Hclass. induction l as [|x l IH]; [done|].
  cbn [stableSort foldr]. rewrite insertSorted_filter by auto.
  cbn [List.filter]. fold (stableSort comparefn l). by rewrite IH.
Qed.

Lemma stableSort_sorted (R : relation A) l :
  (∀ x y, R x y → numLt (ofZ 0) (comparefn x y) = false) →
  StronglySorted R l → stableSort comparefn l = l.
Proof.
  intros Hcmp. induction 1 as [|x l Hsorted IH Hall]; [done|].
  cbn [stableSort foldr]. fold (stableSort comparefn l). rewrite IH.
  destruct l as [|y rest]; [done|]. cbn [insertSorted].
  apply Forall_cons in Hall as [Hxy _]. by rewrite Hcmp.
Qed.

End order.

Section queue_order.
Context `{Runtime} `{ArraySort}.

Lemma registeredNoLater_not_positive a b :
  registeredNoLater a b → numLt (ofZ 0) (compareRegistration a b) = false.
Proof.
  unfold registeredNoLater, compareRegistration.
  destruct (dateValue (registrationDate a)) as [ta|]; [|done].
  destruct (dateValue (registrationDate b)) as [tb|]; [|done].
  intros Hle. destruct (numLt _ _) eqn:E; [|done].
  apply numLt_zero_ofZ in E. lia.
Qed.

Lemma same_date_not_positive a b :
  dateValue (registrationDate a) = dateValue (registrationDate b) →
  numLt (ofZ 0) (compareRegistration a b) = false.
Proof.
  unfold compareRegistration. intros <-.
  destruct (dateValue (registrationDate a)) as [ta|]; [|done].
  destruct (numLt _ _) eqn:E; [|done]. apply numLt_zero_ofZ in E. lia.
Qed.

Lemma registeredNoLater_valid a b :
  registeredNoLater a b → validDate a ∧ validDate b.
Proof.
  unfold registeredNoLater, validDate.
  destruct (dateValue (registrationDate a)),
    (dateValue (registrationDate b)); done.
Qed.

(** A list that is ascending by registration date is left as it is by the
    sort of any engine. *)
Lemma arraySort_sorted (l : list Student) :
  StronglySorted registeredNoLater l → arraySort compareRegistration l = l.
Proof.
  intros Hsorted.
  destruct l as [|x [|y rest]].
  - apply Permutation_nil_r, arraySort_Permutation.
  - apply Permutation_singleton_r, arraySort_Permutation.
  - assert (Forall validDate (x :: y :: rest)) as Hvalid.
    { pose proof Hsorted as [_ Hfirst]%StronglySorted_inv.
      pose proof Hfirst as [Hxy _]%Forall_cons.
      constructor; [by apply registeredNoLater_valid in Hxy as [? _]|].
      eapply Forall_impl; [exact Hfirst|].
      intros z Hxz. by apply registeredNoLater_valid in Hxz as [_ ?]. }
    rewrite arraySort_valid by done.
    apply (stableSort_sorted compareRegistration registeredNoLater);
      [apply registeredNoLater_not_positive | done].
Qed.

(** X27. In a department whose queued students all have valid registration
    dates, the students that share one registration date are listed in the
    order of the roster: the sort never exchanges two of them. *)
Theorem same_date_keeps_roster_order (students : list Student)
    (dept : string) (sameDate : Student → bool) (grouped : Groups)
    (queue : list Student) :
  (∀ a b, sameDate a = true → sameDate b = true →
          dateValue (registrationDate a) = dateValue (registrationDate b)) →
  Forall validDate (queueOf dept students) →
  groupedStudents students = Some grouped →
  lookupGroup dept grouped = Some queue →
  List.filter sameDate queue
  = List.filter sameDate (queueOf dept students).
Proof.
  intros Hsame Hvalid Hgrouped.
  rewrite (lookupGroup_groupedStudents dept students) by done.
  intros Hqueue.
  assert (queue = stableSort compareRegistration (queueOf dept students))
    as ->.
  { rewrite <- arraySort_valid by done.
    destruct (queueOf dept students); [done | congruence]. }
  apply stableSort_filter.
  intros a b Ha Hb. apply same_date_not_positive. auto.
Qed.

(** X28. On a roster in which no queued student has a department named like
    a member of [Object.prototype], a department whose queued students
    arrive in registration order is shown as it came: its queue is the list
    of its queued students, in the order of the roster.  Sorting a queue
    with valid dates a second time changes nothing. *)
Theorem arrival_order_kept (students : list Student) (dept : string) :
  (OwnDepartments students →
   queueOf dept students ≠ [] →
   StronglySorted registeredNoLater (queueOf dept students) →
   ∃ grouped,
     groupedStudents students = Some grouped
     ∧ lookupGroup dept grouped = Some (queueOf dept students))
  ∧ (Forall validDate (queueOf dept students) →
     arraySort compareRegistration
       (arraySort compareRegistration (queueOf dept students))
     = arraySort compareRegistration (queueOf dept students)).
Proof.
  split.
  - intros [grouped Hgrouped]%groupedStudents_is_Some Hqueue Hsorted.
    exists grouped. split; [done|].
    rewrite (lookupGroup_groupedStudents dept students) by done.
    destruct (queueOf dept students) as [|first rest]; [done|].
    by rewrite arraySort_sorted.
  - intros Hvalid. apply arraySort_sorted. by apply sort_by_registration.
Qed.

End queue_order.

(** *** Worked examples *)

Lemma cards_never_clear_example :
  1 ≤ queueLength
        (departmentCard "A"
           [SampleQueue.complete; SampleQueue.second; SampleQueue.first]).
Proof.
  pose proof (@cards_never_clear Sample.runtime SampleQueue.engine
                SampleQueue.roster
                [departmentCard "A"
                   [SampleQueue.complete; SampleQueue.second;
                    SampleQueue.first]]
                ltac:(vm_compute; reflexivity)) as (_ & _ & Hcards).
  destruct (Hcards _ ltac:(left)) as [Hlength _]. exact Hlength.
Defined.

Lemma total_in_queue_example :
  @totalInQueue Sample.runtime SampleQueue.engine SampleQueue.roster = Some 3
  ∧ @totalInQueue Sample.runtime SampleQueue.engine
      SampleCases.inheritedRoster = None.
Proof.
  pose proof (@total_in_queue Sample.runtime SampleQueue.engine
                SampleQueue.roster) as (Hsome & Hcount & _).
  destruct (proj2 Hsome own_departments_example) as [total Htotal].
  split; [|vm_compute; reflexivity].
  rewrite Htotal. f_equal. rewrite (Hcount total Htotal).
  vm_compute. reflexivity.
Defined.

Lemma same_date_keeps_roster_order_example :
  List.filter (SampleCases.registeredAt 2000)
              [SampleQueue.second; SampleQueue.first; SampleCases.third]
  = [SampleQueue.first; SampleCases.third].
Proof.
  etrans; [apply (@same_date_keeps_roster_order Sample.runtime
                    SampleQueue.engine SampleCases.twins "A"
                    (SampleCases.registeredAt 2000)
                    [("A", [SampleQueue.second; SampleQueue.first;
                            SampleCases.third])])|].
  - unfold SampleCases.registeredAt.
    intros a b Ha%bool_decide_eq_true Hb%bool_decide_eq_true. congruence.
  - repeat constructor; eexists; vm_compute; reflexivity.
  - vm_compute. reflexivity.
  - vm_compute. reflexivity.
  - vm_compute. reflexivity.
Defined.

Lemma arrival_order_kept_example :
  ∃ grouped,
    @groupedStudents Sample.runtime SampleQueue.engine
      [SampleQueue.second; SampleQueue.first] = Some grouped
    ∧ lookupGroup "A" grouped = Some [SampleQueue.second; SampleQueue.first].
Proof.
  apply (@arrival_order_kept Sample.runtime SampleQueue.engine
           [SampleQueue.second; SampleQueue.first] "A").
  - intros student Hin _. apply inherited_false.
    rewrite !elem_of_cons, elem_of_nil in Hin.
    repeat destruct Hin as [->|Hin]; [vm_compute; reflexivity .. | destruct Hin].
  - vm_compute. discriminate.
  - repeat constructor; vm_compute; discriminate.
Defined.
End QueueOrderFacts.
